(** * Croner: the pattern parser and the next-run engine of src/croner.js

    A shallow embedding of [CronPattern], [CronDate] and [Cron] as they are
    written in src/src/croner.js, over a small model of the JavaScript host
    (strings, [parseInt], arrays with their non-index properties, [Date]),
    followed by the properties of the specification checked against it.

    Conventions of the host model:
    - a JavaScript string is a [string] whose characters are code units
      below 256;
    - a JavaScript number that the code computes from a pattern or a date is
      an exact [Z]; [NaN] is [None] in an [option Z];
    - the local time zone of the process is UTC, so the local-time getters
      of [Date] are the UTC ones of ECMA-262. *)

From Stdlib Require Import ZArith String Ascii List Bool Lia.
From stdpp Require Import base option gmap.

Open Scope Z_scope.

(** ** JavaScript strings *)

Module JsString.

(** White space as matched by [\s] and removed by [String.prototype.trim],
    for code units below 256: TAB, LF, VT, FF, CR, SPACE, NBSP. *)
Definition is_whitespace (c : ascii) : bool :=
  let n := Z.of_N (N_of_ascii c) in
  ((9 <=? n) && (n <=? 13)) || (n =? 32) || (n =? 160).

Fixpoint trimStart (s : string) : string :=
  match s with
  | EmptyString => EmptyString
  | String c r => if is_whitespace c then trimStart r else s
  end.

Fixpoint trimEnd (s : string) : string :=
  match s with
  | EmptyString => EmptyString
  | String c r =>
      match trimEnd r with
      | EmptyString => if is_whitespace c then EmptyString else String c EmptyString
      | r' => String c r'
      end
  end.

(** [s.trim()] *)
Definition trim (s : string) : string := trimEnd (trimStart s).

(** [s.replace(/\s+/g, " ")]: every maximal run of white space becomes one
    space; [in_run] tells that the previous character was white space. *)
Fixpoint replace_ws_runs (in_run : bool) (s : string) : string :=
  match s with
  | EmptyString => EmptyString
  | String c r =>
      if is_whitespace c
      then if in_run then replace_ws_runs true r
           else String " " (replace_ws_runs true r)
      else String c (replace_ws_runs false r)
  end.

(** [s.split(sep)] for a separator of one character: never empty. *)
Fixpoint split (sep : ascii) (s : string) : list string :=
  match s with
  | EmptyString => [EmptyString]
  | String c r =>
      if Ascii.eqb c sep then EmptyString :: split sep r
      else match split sep r with
           | p :: ps => String c p :: ps
           | [] => [String c EmptyString]
           end
  end.

(** [s.indexOf(c) !== -1] *)
Fixpoint contains (c : ascii) (s : string) : bool :=
  match s with
  | EmptyString => false
  | String a r => Ascii.eqb a c || contains c r
  end.

Definition digit_value (c : ascii) : option Z :=
  let n := Z.of_N (N_of_ascii c) in
  if (48 <=? n) && (n <=? 57) then Some (n - 48) else None.

(** The longest prefix of decimal digits, read as a number; [acc] is
    [None] as long as no digit has been read. *)
Fixpoint parse_digits (acc : option Z) (s : string) : option Z :=
  match s with
  | EmptyString => acc
  | String c r =>
      match digit_value c with
      | Some v =>
          parse_digits (Some (match acc with Some a => 10 * a + v | None => v end)) r
      | None => acc
      end
  end.

(** [parseInt(s, 10)]: leading white space, an optional sign, then the
    longest prefix of digits; [NaN] ([None]) when there is no digit.  The
    result is exact here; a double loses precision only beyond 2^53, far
    above every bound the parser compares it with. *)
Definition parseInt (s : string) : option Z :=
  match trimStart s with
  | String "-" r => Z.opp <$> parse_digits None r
  | String "+" r => parse_digits None r
  | r => parse_digits None r
  end.

End JsString.

(** ** JavaScript arrays *)

Module JsArray.

(** An array of numbers with the properties the code may give it:
    [props] holds the integer-keyed properties (the elements are the keys
    [0 .. length-1]; a negative key such as [-1] is an ordinary property
    and does not count in [length]) and [nan_prop] the property ["NaN"]. *)
Record t := mk {
  length : Z;
  props : gmap Z Z;
  nan_prop : option Z
}.

(** [Array(n)]: [n] holes. *)
Definition Array (n : Z) : t := mk n ∅ None.

(** [arr[i]]; [None] is [undefined].  The index is a number, [None] for
    [NaN]. *)
Definition get (arr : t) (i : option Z) : option Z :=
  match i with
  | Some k => props arr !! k
  | None => nan_prop arr
  end.

(** [arr[i] = v]: writing at or beyond [length] extends the array, a
    negative or [NaN] key leaves [length] as it is. *)
Definition set (arr : t) (i : option Z) (v : Z) : t :=
  match i with
  | Some k =>
      mk (if 0 <=? k then Z.max (length arr) (k + 1) else length arr)
         (<[k := v]> (props arr)) (nan_prop arr)
  | None => mk (length arr) (props arr) (Some v)
  end.

(** Truthiness of an element read: [undefined], [0] are falsy. *)
Definition truthy (x : option Z) : bool :=
  match x with
  | Some v => negb (v =? 0)
  | None => false
  end.

End JsArray.

(** ** Helper functions (croner.js, lines 88-101) *)

(** The messages of [raise], one constructor per call site. *)
Inductive CronError :=
  | InvalidFormat            (* parts.length !== 6 *)
  | IllegalCharacters (entry : nat) (part : string)
  | IncompatibleDayOfWeek    (* month/date combined with day of week *)
  | IllegalRange (conf : string)
  | IllegalLowerRange        (* lower is NaN *)
  | IllegalUpperRange        (* upper is NaN *)
  | RangeValueOutOfRange (conf : string)
  | FromLargerThanTo (conf : string)
  | IllegalStepping (conf : string)
  | SteppingLeftPart (conf : string)
  | IllegalSteppingNaN
  | IllegalSteppingZero
  | SteppingTooLarge (len : Z)
  | ValueOutOfRange (conf : string)
  | InvalidStartAt
  | InvalidStopAt
  | HostTypeError.           (* a TypeError thrown by the engine itself *)

(** A computation that returns or throws. *)
Inductive Result (A : Type) :=
  | Ok (a : A)
  | Raise (e : CronError).
Arguments Ok {A} a.
Arguments Raise {A} e.

#[global] Instance Result_ret : MRet Result := fun A a => Ok a.

#[global] Instance Result_bind : MBind Result := fun A B k r =>
  match r with
  | Ok a => k a
  | Raise e => Raise e
  end.

Definition raise {A} (err : CronError) : Result A := Raise err.

(** [fill(arr, val)]: the loop [for (i = 0; i < arr.length; i++) arr[i] = val];
    [n] counts the iterations that are left. *)
Fixpoint fill_loop (n : nat) (i : Z) (arr : JsArray.t) (val : Z) : JsArray.t :=
  match n with
  | O => arr
  | S n' =>
      if i <? JsArray.length arr
      then fill_loop n' (i + 1) (JsArray.set arr (Some i) val) val
      else arr
  end.

Definition fill (arr : JsArray.t) (val : Z) : JsArray.t :=
  fill_loop (Z.to_nat (JsArray.length arr)) 0 arr val.

(** The keys shared by a [CronDate] and a [CronPattern]. *)
Inductive Member := Seconds | Minutes | Hours | Days | Months | Years | DaysOfWeek.

(** ** CronPattern (croner.js, lines 242-426) *)

Module CronPattern.

Import JsString.

Record t := mk {
  pattern : string;
  seconds : JsArray.t;
  minutes : JsArray.t;
  hours : JsArray.t;
  days : JsArray.t;
  months : JsArray.t;
  daysOfWeek : JsArray.t
}.

(** [this[type]]; a pattern has no ["years"]. *)
Definition member (p : t) (type : Member) : JsArray.t :=
  match type with
  | Seconds => seconds p
  | Minutes => minutes p
  | Hours => hours p
  | Days => days p
  | Months => months p
  | DaysOfWeek => daysOfWeek p
  | Years => JsArray.Array 0
  end.

(** [reValidCron.test(part)] with [reValidCron = /[^/*0-9,-]+/]. *)
Definition legal_char (c : ascii) : bool :=
  match digit_value c with
  | Some _ => true
  | None => Ascii.eqb c "/" || Ascii.eqb c "*" || Ascii.eqb c "," || Ascii.eqb c "-"
  end.

Fixpoint reValidCron_test (part : string) : bool :=
  match part with
  | EmptyString => false
  | String c r => negb (legal_char c) || reValidCron_test r
  end.

(** [for (i = lower; i <= upper; i++) arr[(i + valueIndexOffset)] = 1] *)
Fixpoint range_loop (n : nat) (i upper valueIndexOffset : Z) (arr : JsArray.t)
  : JsArray.t :=
  match n with
  | O => arr
  | S n' =>
      if i <=? upper
      then range_loop n' (i + 1) upper valueIndexOffset
             (JsArray.set arr (Some (i + valueIndexOffset)) 1)
      else arr
  end.

(** [for (i = 0; i < arr.length; i += steps) arr[(i + valueIndexOffset)] = 1];
    [steps] is at least 1 here, so [arr.length] iterations are enough. *)
Fixpoint step_loop (n : nat) (i steps valueIndexOffset : Z) (arr : JsArray.t)
  : JsArray.t :=
  match n with
  | O => arr
  | S n' =>
      if i <? JsArray.length arr
      then step_loop n' (i + steps) steps valueIndexOffset
             (JsArray.set arr (Some (i + valueIndexOffset)) 1)
      else arr
  end.

(** The body of [partToArray] below the comma split (lines 350-424):
    a range, a stepping or a number. *)
Definition partToArray_entry (arr : JsArray.t) (conf : string)
    (valueIndexOffset : Z) : Result JsArray.t :=
  if contains "-" conf then
    match split "-" conf with
    | [s0; s1] =>
        match (fun n => n + valueIndexOffset) <$> parseInt s0,
              (fun n => n + valueIndexOffset) <$> parseInt s1 with
        | None, _ => raise IllegalLowerRange
        | Some _, None => raise IllegalUpperRange
        | Some lower, Some upper =>
            if (lower <? 0) || (upper >=? JsArray.length arr)
            then raise (RangeValueOutOfRange conf)
            else if lower >? upper
            then raise (FromLargerThanTo conf)
            else Ok (range_loop (Z.to_nat (upper - lower + 1)) lower upper
                       valueIndexOffset arr)
        end
    | _ => raise (IllegalRange conf)
    end
  else if contains "/" conf then
    match split "/" conf with
    | [s0; s1] =>
        if negb (String.eqb s0 "*") then raise (SteppingLeftPart conf)
        else
          match parseInt s1 with
          | None => raise IllegalSteppingNaN
          | Some steps =>
              if steps =? 0 then raise IllegalSteppingZero
              else if steps >? JsArray.length arr
              then raise (SteppingTooLarge (JsArray.length arr))
              else Ok (step_loop (Z.to_nat (JsArray.length arr)) 0 steps
                         valueIndexOffset arr)
          end
    | _ => raise (IllegalStepping conf)
    end
  else
    let i := (fun n => n + valueIndexOffset) <$> parseInt conf in
    match i with
    | Some k =>
        if (k <? 0) || (k >=? JsArray.length arr)
        then raise (ValueOutOfRange conf)
        else Ok (JsArray.set arr i 1)
    | None => Ok (JsArray.set arr i 1)   (* NaN passes both comparisons *)
    end.

(** [partToArray] on an entry of [conf.split(",")]: such an entry holds
    no comma, so its own split has one element and the call at line 344
    goes to the wildcard or to the body above, never deeper. *)
Definition partToArray_single (arr : JsArray.t) (conf : string)
    (valueIndexOffset : Z) : Result JsArray.t :=
  if String.eqb conf "*" then Ok (fill arr 1)
  else partToArray_entry arr conf valueIndexOffset.

Fixpoint partToArray_each (arr : JsArray.t) (entries : list string)
    (valueIndexOffset : Z) : Result JsArray.t :=
  match entries with
  | [] => Ok arr
  | e :: es =>
      arr' ← partToArray_single arr e valueIndexOffset;
      partToArray_each arr' es valueIndexOffset
  end.

(** [partToArray(type, conf, valueIndexOffset)], on the array [this[type]]. *)
Definition partToArray (arr : JsArray.t) (conf : string) (valueIndexOffset : Z)
  : Result JsArray.t :=
  if String.eqb conf "*" then Ok (fill arr 1)
  else
    let entries := split "," conf in
    if (1 <? List.length entries)%nat
    then partToArray_each arr entries valueIndexOffset
    else partToArray_entry arr conf valueIndexOffset.

(** The space separated parts of the pattern (line 268). *)
Definition parts_of (pattern : string) : list string :=
  split " " (replace_ws_runs false (trim pattern)).

(** The validation loop of lines 282-289. *)
Fixpoint validate_parts (i : nat) (parts : list string) : Result unit :=
  match parts with
  | [] => Ok tt
  | part :: rest =>
      let part := trim part in
      if reValidCron_test part then raise (IllegalCharacters (i + 1) part)
      else validate_parts (i + 1) rest
  end.

Definition part (parts : list string) (i : nat) : string :=
  nth i parts EmptyString.

(** [CronPattern.prototype.parse].  The pattern is a string by its type,
    which is what the sanity check of line 263 asks for. *)
Definition parse (this : t) : Result t :=
  let parts := parts_of (pattern this) in
  if negb (Nat.eqb (List.length parts) 6) then raise InvalidFormat
  else
    _ ← validate_parts 0 parts;
    let hasMonths := negb (String.eqb (part parts 4) "*") in
    let hasDaysOfWeek := negb (String.eqb (part parts 5) "*") in
    let hasDates := negb (String.eqb (part parts 3) "*") in
    if hasDaysOfWeek && (hasMonths || hasDates) then raise IncompatibleDayOfWeek
    else
      seconds' ← partToArray (seconds this) (part parts 0) 0;
      minutes' ← partToArray (minutes this) (part parts 1) 0;
      hours' ← partToArray (hours this) (part parts 2) 0;
      days' ← partToArray (days this) (part parts 3) (-1);
      months' ← partToArray (months this) (part parts 4) (-1);
      daysOfWeek' ← partToArray (daysOfWeek this) (part parts 5) 0;
      let daysOfWeek'' :=
        if JsArray.truthy (JsArray.get daysOfWeek' (Some 7))
        then JsArray.set daysOfWeek' (Some 0) 1
        else daysOfWeek' in
      Ok (mk (pattern this) seconds' minutes' hours' days' months' daysOfWeek'').

(** [new CronPattern(pattern)] *)
Definition new (pattern : string) : Result t :=
  parse (mk pattern
           (fill (JsArray.Array 60) 0) (fill (JsArray.Array 60) 0)
           (fill (JsArray.Array 24) 0) (fill (JsArray.Array 31) 0)
           (fill (JsArray.Array 12) 0) (fill (JsArray.Array 8) 0)).

(** The values a compiled field accepts: value [v] of the field lies at
    index [v + valueIndexOffset] of its array. *)
Definition valueIndexOffset (type : Member) : Z :=
  match type with
  | Days | Months => -1
  | _ => 0
  end.

Definition accepts (p : t) (type : Member) (v : Z) : bool :=
  let i := v + valueIndexOffset type in
  (0 <=? i) && (i <? JsArray.length (member p type))
  && JsArray.truthy (JsArray.get (member p type) (Some i)).

End CronPattern.


(** ** The host's Date (ECMA-262, "Date Objects"), in UTC *)

Module JsDate.

Definition msPerDay : Z := 86400000.
Definition msPerHour : Z := 3600000.
Definition msPerMinute : Z := 60000.
Definition msPerSecond : Z := 1000.

Definition Day (t : Z) : Z := t / msPerDay.
Definition TimeWithinDay (t : Z) : Z := t mod msPerDay.

Definition DaysInYear (y : Z) : Z :=
  if negb (y mod 4 =? 0) then 365
  else if negb (y mod 100 =? 0) then 366
  else if negb (y mod 400 =? 0) then 365
  else 366.

Definition DayFromYear (y : Z) : Z :=
  365 * (y - 1970) + (y - 1969) / 4 - (y - 1901) / 100 + (y - 1601) / 400.

(** The largest year [y] with [DayFromYear y <= d]: it is the estimate
    [1970 + 400 d / 146097] or one of its two neighbours. *)
Definition YearFromDay (d : Z) : Z :=
  let y0 := 1970 + (400 * d) / 146097 in
  if DayFromYear (y0 + 1) <=? d then y0 + 1
  else if DayFromYear y0 <=? d then y0
  else y0 - 1.

Definition YearFromTime (t : Z) : Z := YearFromDay (Day t).

Definition InLeapYear (t : Z) : Z :=
  if DaysInYear (YearFromTime t) =? 366 then 1 else 0.

Definition DayWithinYear (t : Z) : Z := Day t - DayFromYear (YearFromTime t).

(** The day within the year on which month [m] (0 to 11) starts. *)
Definition month_start (m leap : Z) : Z :=
  match m with
  | 0 => 0
  | 1 => 31
  | 2 => 59 + leap
  | 3 => 90 + leap
  | 4 => 120 + leap
  | 5 => 151 + leap
  | 6 => 181 + leap
  | 7 => 212 + leap
  | 8 => 243 + leap
  | 9 => 273 + leap
  | 10 => 304 + leap
  | _ => 334 + leap
  end.

Definition MonthFromTime (t : Z) : Z :=
  let d := DayWithinYear t in
  let leap := InLeapYear t in
  if d <? 31 then 0
  else if d <? 59 + leap then 1
  else if d <? 90 + leap then 2
  else if d <? 120 + leap then 3
  else if d <? 151 + leap then 4
  else if d <? 181 + leap then 5
  else if d <? 212 + leap then 6
  else if d <? 243 + leap then 7
  else if d <? 273 + leap then 8
  else if d <? 304 + leap then 9
  else if d <? 334 + leap then 10
  else 11.

Definition DateFromTime (t : Z) : Z :=
  DayWithinYear t - month_start (MonthFromTime t) (InLeapYear t) + 1.

Definition WeekDay (t : Z) : Z := (Day t + 4) mod 7.

Definition HourFromTime (t : Z) : Z := (t / msPerHour) mod 24.
Definition MinFromTime (t : Z) : Z := (t / msPerMinute) mod 60.
Definition SecFromTime (t : Z) : Z := (t / msPerSecond) mod 60.
Definition msFromTime (t : Z) : Z := t mod msPerSecond.

Definition MakeTime (hour min sec ms : Z) : Z :=
  hour * msPerHour + min * msPerMinute + sec * msPerSecond + ms.

Definition MakeDay (year month date : Z) : Z :=
  let ym := year + month / 12 in
  let mn := month mod 12 in
  DayFromYear ym + month_start mn (if DaysInYear ym =? 366 then 1 else 0) + date - 1.

Definition MakeDate (day time : Z) : Z := day * msPerDay + time.

Definition TimeClip (time : Z) : option Z :=
  if Z.abs time <=? 8640000000000000 then Some time else None.

(** A Date object holds a time value, [None] for [NaN] (an invalid date). *)
Record t := mk { getTime : option Z }.

(** [new Date(value)] for a number. *)
Definition of_number (value : option Z) : t := mk (value ≫= TimeClip).

(** [new Date(year, month, date, hours, minutes, seconds, ms)] on a host
    whose time zone is UTC (no offset, no repeated or skipped hour): a
    year from 0 to 99 stands for 1900 + year. *)
Definition of_fields (year month date hours minutes seconds ms : Z) : t :=
  let yr := if (0 <=? year) && (year <=? 99) then 1900 + year else year in
  mk (TimeClip (MakeDate (MakeDay yr month date) (MakeTime hours minutes seconds ms))).

Definition getDay (d : t) : option Z := WeekDay <$> getTime d.

(** [d.setMilliseconds(ms)] *)
Definition setMilliseconds (d : t) (ms : Z) : t :=
  match getTime d with
  | Some tv =>
      let time := MakeTime (HourFromTime tv) (MinFromTime tv) (SecFromTime tv) ms in
      mk (TimeClip (MakeDate (Day tv) time))
  | None => d
  end.

(** [isNaN(d)] *)
Definition isNaN (d : t) : bool :=
  match getTime d with
  | Some _ => false
  | None => true
  end.

End JsDate.

(** ** CronDate (croner.js, lines 114-229) *)

Module CronDate.

Record t := mk {
  milliseconds : Z;
  seconds : Z;
  minutes : Z;
  hours : Z;
  days : Z;
  months : Z;
  years : Z
}.

(** [new CronDate(date)] for a valid date of time value [tv].  Lines
    115-121 read the date with the local-time getters: they are modelled
    for a host whose time zone is UTC, as everything that depends on them
    is. *)
Definition new (tv : Z) : t :=
  mk (JsDate.msFromTime tv) (JsDate.SecFromTime tv) (JsDate.MinFromTime tv)
     (JsDate.HourFromTime tv) (JsDate.DateFromTime tv) (JsDate.MonthFromTime tv)
     (JsDate.YearFromTime tv).

(** [self[target]] *)
Definition member (self : t) (target : Member) : Z :=
  match target with
  | Seconds => seconds self
  | Minutes => minutes self
  | Hours => hours self
  | Days => days self
  | Months => months self
  | Years => years self
  | DaysOfWeek => 0
  end.

(** [self[target] = v] *)
Definition set_member (self : t) (target : Member) (v : Z) : t :=
  match target with
  | Seconds => mk (milliseconds self) v (minutes self) (hours self) (days self) (months self) (years self)
  | Minutes => mk (milliseconds self) (seconds self) v (hours self) (days self) (months self) (years self)
  | Hours => mk (milliseconds self) (seconds self) (minutes self) v (days self) (months self) (years self)
  | Days => mk (milliseconds self) (seconds self) (minutes self) (hours self) v (months self) (years self)
  | Months => mk (milliseconds self) (seconds self) (minutes self) (hours self) (days self) v (years self)
  | Years => mk (milliseconds self) (seconds self) (minutes self) (hours self) (days self) (months self) v
  | DaysOfWeek => self
  end.

(** [CronDate.prototype.getDate]: the local-time constructor of line 228,
    on a host whose time zone is UTC. *)
Definition getDate (self : t) : JsDate.t :=
  JsDate.of_fields (years self) (months self) (days self) (hours self)
    (minutes self) (seconds self) (milliseconds self).

(** The [for] loop of [findNext]: the first index from [i] on, below
    [arr.length], whose element is truthy. *)
Fixpoint findNext_scan (n : nat) (arr : JsArray.t) (i : Z) : option Z :=
  match n with
  | O => None
  | S n' =>
      if i <? JsArray.length arr
      then if JsArray.truthy (JsArray.get arr (Some i)) then Some i
           else findNext_scan n' arr (i + 1)
      else None
  end.

(** [findNext(target, pattern, offset, override)]: [override] is [None]
    when the fourth argument is left out. *)
Definition findNext (self : t) (target : Member) (pattern : CronPattern.t)
    (offset : Z) (override : option Z) : bool * t :=
  let startPos :=
    match override with
    | None => member self target + offset
    | Some _ => 0 + offset
    end in
  let arr := CronPattern.member pattern target in
  match findNext_scan (Z.to_nat (JsArray.length arr - startPos)) arr startPos with
  | Some i => (true, set_member self target (i - offset))
  | None => (false, self)
  end.

Definition toDo : list (Member * Member * Z) :=
  [ (Seconds, Minutes, 0);
    (Minutes, Hours, 0);
    (Hours, Days, 0);
    (Days, Months, -1);
    (Months, Years, 0) ].

Definition toDo_at (doing : nat) : Member * Member * Z :=
  nth doing toDo (Seconds, Minutes, 0).

(** The inner loop [while (doing >= 0) { findNext(..., 0); doing--; }]:
    it runs for [doing], [doing - 1], ..., [0]. *)
Fixpoint reset_from (doing : nat) (pattern : CronPattern.t) (self : t) : t :=
  let '(target, _, offset) := toDo_at doing in
  let self' := snd (findNext self target pattern offset (Some 0)) in
  match doing with
  | O => self'
  | S doing' => reset_from doing' pattern self'
  end.

(** The loop [while (doing < 5)]; one unit of [fuel] per iteration, [None]
    when the fuel is used up before the loop is left. *)
Fixpoint cascade (fuel : nat) (pattern : CronPattern.t) (self : t) (doing : nat)
  : option t :=
  match fuel with
  | O => None
  | S fuel' =>
      if (doing <? 5)%nat then
        let '(target, carry, offset) := toDo_at doing in
        match findNext self target pattern offset None with
        | (true, self') => cascade fuel' pattern self' (doing + 1)
        | (false, self') =>
            let self'' := set_member self' carry (member self' carry + 1) in
            (* the inner loop leaves [doing] at -1, [doing++] makes it 0 *)
            cascade fuel' pattern (reset_from doing pattern self'') 0
        end
      else Some self
  end.

(** The loop [while (!pattern.daysOfWeek[this.getDate().getDay()])]. *)
Fixpoint weekday_loop (fuel : nat) (pattern : CronPattern.t) (self : t) : option t :=
  match fuel with
  | O => None
  | S fuel' =>
      if negb (JsArray.truthy
                 (JsArray.get (CronPattern.daysOfWeek pattern)
                    (JsDate.getDay (getDate self))))
      then weekday_loop fuel' pattern (set_member self Days (days self + 1))
      else Some self
  end.

(** [CronDate.prototype.increment]: the state of [this] when the call
    returns, [None] when [fuel] iterations of a loop were not enough. *)
Definition increment (fuel : nat) (pattern : CronPattern.t) (self : t) : option t :=
  let self := mk 0 (seconds self + 1) (minutes self) (hours self) (days self)
                (months self) (years self) in
  self' ← cascade fuel pattern self 0;
  weekday_loop fuel pattern self'.

End CronDate.

(** ** Cron (croner.js, lines 442-677) *)

(** A JavaScript number that may be [Infinity]. *)
Inductive Num := Finite (z : Z) | Infinity.

(** A date option as the caller gives it: a Date or a string to parse. *)
Inductive DateArg := ADate (d : JsDate.t) | AString (s : string).

(** An armed timer: the delay handed to [setTimeout] ([None] for [NaN]). *)
Record Timer := mkTimer { delay : option Z }.

(** The options object; [None] is a property that is [undefined]. *)
Record CronOptions := mkOptions {
  paused : option bool;
  kill : option bool;
  rest : option Z;
  currentTimeout : option Timer;
  previous : option Z;
  startAt : option DateArg;
  stopAt : option DateArg;
  maxRuns : option Num
}.

(** [{}] *)
Definition no_options : CronOptions :=
  mkOptions None None None None None None None None.

(** [Date | undefined] *)
Inductive CronNextResult := NextRun (d : JsDate.t) | Undefined.

Definition maxDelay : Z := 2 ^ (32 - 1) - 1.

Module Cron.

Record t := mk {
  pattern : CronPattern.t;
  opts : CronOptions
}.

(** The job that [schedule] returns: its control functions and the armed
    timer close over the scheduler, the options object and the function to
    run ([None] when the value to run is not a function). *)
Record CronJob (Callback : Type) := mkJob {
  job_self : t;
  job_opts : CronOptions;
  job_func : option Callback
}.
Arguments mkJob {Callback} _ _ _.
Arguments job_self {Callback} _.
Arguments job_opts {Callback} _.
Arguments job_func {Callback} _.

(** What a call of [Cron] evaluates to. *)
Inductive Value (Callback : Type) :=
  | VUndefined
  | VCron (self : t)
  | VJob (job : CronJob Callback).
Arguments VUndefined {Callback}.
Arguments VCron {Callback} _.
Arguments VJob {Callback} _.

(** An argument that is an options object, a function or left out. *)
Inductive OptionsArg (Callback : Type) :=
  | NoOptions
  | Options (o : CronOptions)
  | Function (f : Callback).
Arguments NoOptions {Callback}.
Arguments Options {Callback} _.
Arguments Function {Callback} _.

(** The [this] of a call of [Cron]. *)
Inductive ThisArg := ThisUndefined | ThisGlobal | ThisCron (self : t).

Section Host.

(** The host: the type of function values, the clock read by [new Date()]
    and [Date.parse]. *)
Variable Callback : Type.
Variable now : Z.
Variable Date_parse : string -> option Z.

Definition truthy_date (a : option DateArg) : bool :=
  match a with
  | Some (ADate _) => true
  | Some (AString s) => negb (String.eqb s "")
  | None => false
  end.

(** [Cron.prototype.validateOpts]; the object is changed in place and
    returned. *)
Definition validateOpts (opts : CronOptions) : Result CronOptions :=
  opts ←
    (if truthy_date (startAt opts) then
       let d :=
         match startAt opts with
         | Some (ADate d) => JsDate.of_number ((fun v => v - 1) <$> JsDate.getTime d)
         | Some (AString s) => JsDate.of_number ((fun v => v - 1) <$> Date_parse s)
         | None => JsDate.mk None
         end in
       if JsDate.isNaN d then raise InvalidStartAt
       else Ok (mkOptions (paused opts) (kill opts) (rest opts) (currentTimeout opts)
                  (previous opts) (Some (ADate d)) (stopAt opts) (maxRuns opts))
     else Ok opts);
  if truthy_date (stopAt opts) then
    let d :=
      match stopAt opts with
      | Some (ADate d) => d
      | Some (AString s) => JsDate.of_number (Date_parse s)
      | None => JsDate.mk None
      end in
    if JsDate.isNaN d then raise InvalidStopAt
    else Ok (mkOptions (paused opts) (kill opts) (rest opts) (currentTimeout opts)
               (previous opts) (startAt opts) (Some (ADate d)) (maxRuns opts))
  else Ok opts.

(** The time value of a date option that [validateOpts] has let through:
    it is then a valid Date, or falsy. *)
Definition date_value (a : option DateArg) : option Z :=
  match a with
  | Some (ADate d) => JsDate.getTime d
  | _ => None
  end.

(** [Cron.prototype._next]; [prev] is [None] when the argument is left
    out, else the time value of a valid Date.  The outer [None] tells that
    [fuel] was not enough for [increment]. *)
Definition _next (fuel : nat) (self : t) (prev : option Z) : option CronNextResult :=
  let prev := default now prev in
  let prev :=
    match date_value (startAt (opts self)) with
    | Some s => if prev <? s then s else prev
    | None => prev
    end in
  let maxRuns_reached :=
    match maxRuns (opts self) with
    | Some (Finite n) => n <=? 0
    | _ => false
    end in
  if maxRuns_reached || default false (kill (opts self)) then Some Undefined
  else
    (* stopAt = this.opts.stopAt || this.schedulerDefaults.stopAt *)
    let stopAt := date_value (stopAt (opts self)) in
    cronDate ← CronDate.increment fuel (pattern self) (CronDate.new prev);
    let nextRun := CronDate.getDate cronDate in
    let stopped :=
      match stopAt, JsDate.getTime nextRun with
      | Some s, Some n => n >=? s
      | _, _ => false        (* Infinity, or a comparison with NaN *)
      end in
    Some (if negb stopped then NextRun nextRun else Undefined).

(** [Cron.prototype.next] *)
Definition next (fuel : nat) (self : t) (prev : option Z) : option CronNextResult :=
  dirtyDate ← _next fuel self prev;
  Some (match dirtyDate with
        | NextRun d => NextRun (JsDate.setMilliseconds d 0)
        | Undefined => Undefined
        end).

(** [Cron.prototype.previous] *)
Definition previous_run (self : t) : option Z := previous (opts self).

(** The value of [msToNext]: a number, [NaN] or [undefined]. *)
Inductive Delay := Ms (n : Z) | MsNaN | NoDelay.

(** [Cron.prototype.msToNext] *)
Definition msToNext (fuel : nat) (self : t) (prev : option Z) : option Delay :=
  let prev := default now prev in
  next_ ← _next fuel self (Some prev);
  match next_ with
  | NextRun _ =>
      again ← _next fuel self (Some prev);
      Some (match again with
            | NextRun d =>
                match JsDate.getTime d with
                | Some n => Ms (n - prev)
                | None => MsNaN
                end
            | Undefined => MsNaN
            end)
  | Undefined => Some NoDelay
  end.

(** [Cron.prototype.schedule], up to the moment it returns: the instance
    with the options it has stored, and the job, if a timer was armed.
    What the timer does when it fires is [Job.fire] below.  Line 603
    reads [self.maxDelay || maxDelay]: the constructor sets no [maxDelay]
    property and the instances of this model have none, so [_maxDelay] is
    the constant. *)
Definition schedule (fuel : nat) (self : t) (opts : OptionsArg Callback)
    (func : option Callback) : option (Result (t * option (CronJob Callback))) :=
  (* if (!func) { func = opts; opts = {}; } *)
  let '(opts, func) :=
    match func, opts with
    | Some f, _ => (opts, Some f)
    | None, Function f => (Options no_options, Some f)
    | None, _ => (Options no_options, None)
    end in
  match opts with
  | NoOptions => Some (raise HostTypeError)  (* opts.paused = ... on undefined *)
  | _ =>
      (* a function used as the options object has none of the options *)
      let opts := match opts with Options o => o | _ => no_options end in
      let maxRuns' :=
        match maxRuns opts with
        | None => Some Infinity
        | other => other
        end in
      let opts := mkOptions (Some (default false (paused opts)))
                    (Some (default false (kill opts)))
                    (Some (default 0 (rest opts)))
                    (currentTimeout opts) (previous opts)
                    (startAt opts) (stopAt opts) maxRuns' in
      match validateOpts opts with
      | Raise e => Some (Raise e)
      | Ok opts =>
          let self := mk (pattern self) opts in
          waitMs ← msToNext fuel self (previous opts);
          match waitMs with
          | NoDelay => Some (Ok (self, None))
          | _ =>
              let waitMs :=
                match waitMs with
                | Ms w => Some (if w >? maxDelay then maxDelay else w)
                | _ => None
                end in
              let opts := mkOptions (paused opts) (kill opts) (rest opts)
                            (Some (mkTimer waitMs)) (previous opts)
                            (startAt opts) (stopAt opts) (maxRuns opts) in
              let self := mk (pattern self) opts in
              Some (Ok (self, Some (mkJob self opts func)))
          end
      end
  end.

(** What the body of [Cron] returns. *)
Inductive Returned := ReturnSelf | ReturnJob (job : CronJob Callback) | ReturnUndefined.

(** The body of [Cron] below the [instanceof] test, run on an instance:
    the instance as the body leaves it and what the body returns. *)
Definition body (fuel : nat) (pattern : string) (options : OptionsArg Callback)
    (fn : option Callback) : option (Result (t * Returned)) :=
  match CronPattern.new pattern with
  | Raise e => Some (Raise e)
  | Ok p =>
      (* if (typeof options === "function") { fn = options; options = {}; } *)
      let '(fn, options) :=
        match options with
        | Function f => (Some f, Options no_options)
        | _ => (fn, options)
        end in
      match validateOpts (match options with Options o => o | _ => no_options end) with
      | Raise e => Some (Raise e)
      | Ok o =>
          let self := mk p o in
          match fn with
          | None => Some (Ok (self, ReturnSelf))
          | Some f =>
              (* [options], when it is an object, is the very object that
                 validateOpts has just changed *)
              let options := match options with Options _ => Options o | other => other end in
              r ← schedule fuel self options (Some f);
              Some (match r with
                    | Raise e => Raise e
                    | Ok (self, Some job) => Ok (self, ReturnJob job)
                    | Ok (self, None) => Ok (self, ReturnUndefined)
                    end)
          end
      end
  end.

(** [new Cron(pattern, options, fn)]: when the constructor returns an
    object the expression is that object, else it is the new instance. *)
Definition new (fuel : nat) (pattern : string) (options : OptionsArg Callback)
    (fn : option Callback) : option (Result (Value Callback)) :=
  r ← body fuel pattern options fn;
  Some (match r with
        | Raise e => Raise e
        | Ok (self, ReturnJob job) => Ok (VJob job)
        | Ok (self, _) => Ok (VCron self)
        end).

(** [Cron(pattern, options, fn)] called as a function with the given
    [this]: unless [this] is a Cron instance the call is handed over to
    [new Cron] (line 446). *)
Definition call (this : ThisArg) (fuel : nat) (pattern : string)
    (options : OptionsArg Callback) (fn : option Callback)
  : option (Result (Value Callback)) :=
  match this with
  | ThisCron _ =>
      r ← body fuel pattern options fn;
      Some (match r with
            | Raise e => Raise e
            | Ok (self, ReturnSelf) => Ok (VCron self)
            | Ok (self, ReturnJob job) => Ok (VJob job)
            | Ok (self, ReturnUndefined) => Ok VUndefined
            end)
  | _ => new fuel pattern options fn
  end.

End Host.
End Cron.

(** ** The job that [schedule] returns (croner.js, lines 636-676) *)

Module Job.

Section Host.

(** The host, as for [Cron]; the function that the job runs is taken to
    return without touching the job or its options. *)
Variable Callback : Type.
Variable Date_parse : string -> option Z.

(** A job in flight: the scheduler, whose [opts] is the options object
    that the timer callback and the control functions close over; the
    function to run; whether the timer in [opts.currentTimeout] is still
    to fire; and how often the function has been called. *)
Record t := mk {
  self : Cron.t;
  func : Callback;
  pending : bool;
  invoked : nat
}.

Definition set_opts (st : t) (o : CronOptions) : t :=
  mk (Cron.mk (Cron.pattern (self st)) o) (func st) (pending st) (invoked st).

(** The job as [schedule] has just returned it. *)
Definition started (c : Cron.t) (f : Callback) : t := mk c f true 0.

(** [opts.maxRuns--]; on [undefined] the result is [NaN], which the
    tests of [schedule] and [_next] read as they read [undefined]. *)
Definition decrement (n : option Num) : option Num :=
  match n with
  | Some (Finite n) => Some (Finite (n - 1))
  | other => other
  end.

(** The timer was armed with [_maxDelay]: its run is a blank one. *)
Definition blank (o : CronOptions) : bool :=
  match currentTimeout o ≫= delay with
  | Some w => w =? maxDelay
  | None => false
  end.

(** The call of [func] in the timer callback is reached. *)
Definition runs (o : CronOptions) : bool :=
  negb (blank o) && negb (default false (paused o)).

(** The timer callback (lines 636-652), for a timer that is still to
    fire; [now] is the clock it stores in [opts.previous], [now'] the
    clock that the call of [schedule] reads. *)
Definition fire (fuel : nat) (now now' : Z) (st : t) : option (Result t) :=
  let o := Cron.opts (self st) in
  let o1 :=
    if runs o
    then mkOptions (paused o) (kill o) (rest o) (currentTimeout o) (previous o)
           (startAt o) (stopAt o) (decrement (maxRuns o))
    else o in
  let o2 :=
    if blank o then o1
    else mkOptions (paused o1) (kill o1) (rest o1) (currentTimeout o1) (Some now)
           (startAt o1) (stopAt o1) (maxRuns o1) in
  let count := (invoked st + if runs o then 1 else 0)%nat in
  r ← Cron.schedule Callback now' Date_parse fuel (Cron.mk (Cron.pattern (self st)) o2)
        (Cron.Options o2) (Some (func st));
  Some (match r with
        | Raise e => Raise e
        | Ok (c, Some _) => Ok (mk c (func st) true count)
        | Ok (c, None) => Ok (mk c (func st) false count)
        end).

(** [job.stop()] *)
Definition stop (st : t) : t :=
  let o := Cron.opts (self st) in
  let o' := mkOptions (paused o) (Some true) (rest o) (currentTimeout o) (previous o)
              (startAt o) (stopAt o) (maxRuns o) in
  mk (Cron.mk (Cron.pattern (self st)) o') (func st)
     (match currentTimeout o with Some _ => false | None => pending st end)
     (invoked st).

(** [job.pause()]: the job after the call and the value returned. *)
Definition pause (st : t) : t * bool :=
  let o := Cron.opts (self st) in
  (set_opts st (mkOptions (Some true) (kill o) (rest o) (currentTimeout o) (previous o)
                  (startAt o) (stopAt o) (maxRuns o)),
   true && negb (default false (kill o))).

(** [job.resume()] *)
Definition resume (st : t) : t * bool :=
  let o := Cron.opts (self st) in
  (set_opts st (mkOptions (Some false) (kill o) (rest o) (currentTimeout o) (previous o)
                  (startAt o) (stopAt o) (maxRuns o)),
   negb false && negb (default false (kill o))).

(** What happens to a job: its timer fires (only a timer that is still
    to fire does), or one of its control functions is called. *)
Inductive Event :=
  | Fire (now now' : Z)
  | Stop
  | Pause
  | Resume.

Definition step (fuel : nat) (ev : Event) (st : t) : option (Result t) :=
  match ev with
  | Fire now now' => if pending st then fire fuel now now' st else Some (Ok st)
  | Stop => Some (Ok (stop st))
  | Pause => Some (Ok (fst (pause st)))
  | Resume => Some (Ok (fst (resume st)))
  end.

(** A sequence of events, up to the first uncaught error. *)
Fixpoint run (fuel : nat) (events : list Event) (st : t) : option (Result t) :=
  match events with
  | [] => Some (Ok st)
  | ev :: events' =>
      r ← step fuel ev st;
      match r with
      | Ok st' => run fuel events' st'
      | Raise e => Some (Raise e)
      end
  end.

End Host.

Arguments mk {Callback} _ _ _ _.
Arguments self {Callback} _.
Arguments func {Callback} _.
Arguments pending {Callback} _.
Arguments invoked {Callback} _.

End Job.

(** * Predicates of the statements *)

(** What [parse] guarantees about the pattern it returns. *)
Record compiled (p : CronPattern.t) : Prop := {
  seconds_length : JsArray.length (CronPattern.seconds p) = 60;
  minutes_length : JsArray.length (CronPattern.minutes p) = 60;
  hours_length : JsArray.length (CronPattern.hours p) = 24;
  days_length : JsArray.length (CronPattern.days p) = 31;
  months_length : JsArray.length (CronPattern.months p) = 12;
  daysOfWeek_length : JsArray.length (CronPattern.daysOfWeek p) = 8;
  sunday_alias :
    JsArray.truthy (JsArray.get (CronPattern.daysOfWeek p) (Some 7)) = true ->
    JsArray.truthy (JsArray.get (CronPattern.daysOfWeek p) (Some 0)) = true
}.

(** The target, the member to carry into and the offset of a row of [toDo]. *)
Definition level_target (doing : nat) : Member := fst (fst (CronDate.toDo_at doing)).
Definition level_carry (doing : nat) : Member := snd (fst (CronDate.toDo_at doing)).
Definition level_offset (doing : nat) : Z := snd (CronDate.toDo_at doing).

(** Row [doing] is settled: the member stands on a truthy element, so
    [findNext] leaves it where it is. *)
Definition level_ok (p : CronPattern.t) (self : CronDate.t) (doing : nat) : Prop :=
  let arr := CronPattern.member p (level_target doing) in
  let i := CronDate.member self (level_target doing) + level_offset doing in
  i < JsArray.length arr /\ JsArray.truthy (JsArray.get arr (Some i)) = true.

Definition matched (p : CronPattern.t) (self : CronDate.t) (k : nat) : Prop :=
  forall j, (j < k)%nat -> level_ok p self j.

(** The reset of row [doing] (the call of [findNext] with an override)
    finds an element. *)
Definition resettable (p : CronPattern.t) (doing : nat) : Prop :=
  let arr := CronPattern.member p (level_target doing) in
  exists i, level_offset doing <= i < JsArray.length arr /\
            JsArray.truthy (JsArray.get arr (Some i)) = true.

Definition nonneg (self : CronDate.t) : Prop :=
  forall j, (j < 5)%nat -> 0 <= CronDate.member self (level_target j).

(** Every field of the pattern accepts a value of its domain. *)
Definition sets_nonempty (p : CronPattern.t) : Prop :=
  forall type, type <> Years -> exists v, CronPattern.accepts p type v = true.

(** The reference instants considered: valid dates that are at least 810
    days away from both ends of the range of time values, so that the
    dates [increment] builds from them are valid too. *)
Definition reference_instant (r : Z) : Prop := Z.abs r <= 8639930000000000.

(** [self] after [k] rounds of [this.days += 1]. *)
Definition add_days (self : CronDate.t) (k : Z) : CronDate.t :=
  CronDate.set_member self Days (CronDate.days self + k).

(** The time value that [getDate] hands to [TimeClip]. *)
Definition time_value (self : CronDate.t) : Z :=
  let year := CronDate.years self in
  let yr := if (0 <=? year) && (year <=? 99) then 1900 + year else year in
  JsDate.MakeDate (JsDate.MakeDay yr (CronDate.months self) (CronDate.days self))
    (JsDate.MakeTime (CronDate.hours self) (CronDate.minutes self)
       (CronDate.seconds self) (CronDate.milliseconds self)).

(** The members of a broken-down time lie in the ranges of a clock and a
    calendar page (day 0 included), in year [Y] or the next. *)
Record in_range (Y : Z) (self : CronDate.t) : Prop := {
  years_range : Y <= CronDate.years self <= Y + 1;
  months_range : 0 <= CronDate.months self <= 11;
  days_range : 0 <= CronDate.days self <= 31;
  hours_range : 0 <= CronDate.hours self <= 23;
  minutes_range : 0 <= CronDate.minutes self <= 59;
  seconds_range : 0 <= CronDate.seconds self <= 59;
  milliseconds_range : 0 <= CronDate.milliseconds self <= 999
}.

(** The pattern that [new CronPattern(s)] builds; a blank pattern stands
    for the case that the constructor throws. *)
Definition pattern_of (s : string) : CronPattern.t :=
  match CronPattern.new s with
  | Ok p => p
  | Raise _ =>
      CronPattern.mk s (JsArray.Array 0) (JsArray.Array 0) (JsArray.Array 0)
        (JsArray.Array 0) (JsArray.Array 0) (JsArray.Array 0)
  end.

(** The values from [lo] to [hi] that a field of a pattern accepts. *)
Definition accepted_values (p : CronPattern.t) (type : Member) (lo hi : Z) : list Z :=
  List.filter (fun v => CronPattern.accepts p type v)
    (List.map (fun k => lo + Z.of_nat k) (List.seq 0 (Z.to_nat (hi - lo + 1)))).

(** The instant that a truthy [startAt] option stands for: the time value
    of a Date, the parse of a string. *)
Definition given_instant (Date_parse : string -> option Z) (a : DateArg) : option Z :=
  match a with
  | ADate d => JsDate.getTime d
  | AString s => Date_parse s
  end.

(** Options that only set [startAt]. *)
Definition startAt_only (a : DateArg) : CronOptions :=
  mkOptions None None None None None (Some a) None None.

(** The part of the pattern that a field is compiled from, and the values
    of its domain (the indices of its array, shifted by the offset). *)
Definition field_part (type : Member) : nat :=
  match type with
  | Seconds => 0
  | Minutes => 1
  | Hours => 2
  | Days => 3
  | Months => 4
  | _ => 5
  end.

Definition field_length (type : Member) : Z :=
  match type with
  | Seconds | Minutes => 60
  | Hours => 24
  | Days => 31
  | Months => 12
  | DaysOfWeek => 8
  | Years => 0
  end.

Definition in_domain (type : Member) (v : Z) : Prop :=
  0 <= v + CronPattern.valueIndexOffset type < field_length type.

(** A part without comma, minus sign or slash that is not the wildcard:
    [partToArray] reads it as a number. *)
Definition plain (conf : string) : Prop :=
  JsString.contains "," conf = false /\ JsString.contains "-" conf = false /\
  JsString.contains "/" conf = false /\ conf <> "*"%string.

(** The indices that the stepping loop writes: [i + offset] for the
    multiples [i] of [steps] below the length. *)
Definition stepped (steps offset len j : Z) : Prop :=
  exists k, 0 <= k /\ k * steps < len /\ j = k * steps + offset.

(** Two arrays of the same length, given the same part: either both
    compile or none, and the same indices are added to both. *)
Definition same_writes (f : JsArray.t -> Result JsArray.t) : Prop :=
  forall a b a',
    JsArray.length b = JsArray.length a -> f a = Ok a' ->
    exists b' (W : Z -> Prop),
      f b = Ok b' /\
      JsArray.length a' = JsArray.length a /\ JsArray.length b' = JsArray.length b /\
      (forall j, JsArray.truthy (JsArray.get a' (Some j)) = true <->
                 JsArray.truthy (JsArray.get a (Some j)) = true \/ W j) /\
      (forall j, JsArray.truthy (JsArray.get b' (Some j)) = true <->
                 JsArray.truthy (JsArray.get b (Some j)) = true \/ W j).

(** The broken-down time [b] is not before [a]: the members from the
    years down to the seconds, compared in that order. *)
Definition not_before (a b : CronDate.t) : Prop :=
  CronDate.years a < CronDate.years b \/
  CronDate.years a = CronDate.years b /\
  (CronDate.months a < CronDate.months b \/
   CronDate.months a = CronDate.months b /\
   (CronDate.days a < CronDate.days b \/
    CronDate.days a = CronDate.days b /\
    (CronDate.hours a < CronDate.hours b \/
     CronDate.hours a = CronDate.hours b /\
     (CronDate.minutes a < CronDate.minutes b \/
      CronDate.minutes a = CronDate.minutes b /\
      CronDate.seconds a <= CronDate.seconds b)))).

(** The members are not below the least value of a clock and a calendar
    page. *)
Definition floor_ok (self : CronDate.t) : Prop :=
  0 <= CronDate.seconds self /\ 0 <= CronDate.minutes self /\ 0 <= CronDate.hours self /\
  1 <= CronDate.days self /\ 0 <= CronDate.months self.

(** [this] after [this.seconds += 1; this.milliseconds = 0]. *)
Definition next_second (self : CronDate.t) : CronDate.t :=
  CronDate.mk 0 (CronDate.seconds self + 1) (CronDate.minutes self) (CronDate.hours self)
    (CronDate.days self) (CronDate.months self) (CronDate.years self).

(** The options object after the defaults of [schedule] (lines 612-617)
    have been written into it. *)
Definition schedule_defaults (o : CronOptions) : CronOptions :=
  mkOptions (Some (default false (paused o))) (Some (default false (kill o)))
    (Some (default 0 (rest o))) (currentTimeout o) (previous o) (startAt o) (stopAt o)
    (match maxRuns o with None => Some Infinity | other => other end).

(** The options object with a timer stored in it. *)
Definition with_timer (o : CronOptions) (w : option Z) : CronOptions :=
  mkOptions (paused o) (kill o) (rest o) (Some (mkTimer w)) (previous o)
    (startAt o) (stopAt o) (maxRuns o).

(** The delay handed to [setTimeout]: [None] for [NaN]. *)
Definition clamped (w : Cron.Delay) : option Z :=
  match w with
  | Cron.Ms w => Some (if w >? maxDelay then maxDelay else w)
  | _ => None
  end.

(** The invocations made and the runs left add up to [n]; a timer is
    pending only while a run is left. *)
Definition budget {Callback : Type} (n : Z) (st : Job.t Callback) : Prop :=
  exists m, maxRuns (Cron.opts (Job.self st)) = Some (Finite m) /\
    Z.of_nat (Job.invoked st) + m = n /\ 0 <= m /\
    (Job.pending st = true -> 1 <= m).

Arguments pattern_of : simpl never.

(** * Properties *)

Ltac zdiv := Z.div_mod_to_equations; lia.

Ltac zbool :=
  repeat match goal with
         | |- context [?a >=? ?b] => rewrite (Z.geb_leb a b)
         | |- context [?a >? ?b] => rewrite (Z.gtb_ltb a b)
         | |- context [?a <=? ?b] => destruct (Z.leb_spec a b)
         | |- context [?a <? ?b] => destruct (Z.ltb_spec a b)
         | |- context [?a =? ?b] => destruct (Z.eqb_spec a b)
         end;
  cbn [andb orb negb]; rewrite ?orb_true_r, ?andb_false_r; try reflexivity; try lia.


(** ** Arrays *)

Section ArrayFacts.

Implicit Types (arr : JsArray.t) (i k v : Z).

Lemma get_set_same arr k v :
  JsArray.get (JsArray.set arr (Some k) v) (Some k) = Some v.
Proof. simpl. apply lookup_insert_eq. Qed.

Lemma get_set_other arr k i v :
  i <> k -> JsArray.get (JsArray.set arr (Some k) v) (Some i) = JsArray.get arr (Some i).
Proof. intros Hne. simpl. apply lookup_insert_ne. congruence. Qed.

Lemma get_set_nan arr v i :
  JsArray.get (JsArray.set arr None v) (Some i) = JsArray.get arr (Some i).
Proof. reflexivity. Qed.

Lemma length_set_below arr k v :
  k < JsArray.length arr -> JsArray.length (JsArray.set arr (Some k) v) = JsArray.length arr.
Proof. intros Hk. simpl. destruct (0 <=? k); lia. Qed.

Lemma truthy_set_one arr k i :
  JsArray.truthy (JsArray.get (JsArray.set arr (Some k) 1) (Some i)) =
  (i =? k) || JsArray.truthy (JsArray.get arr (Some i)).
Proof.
  destruct (Z.eqb_spec i k) as [->|Hne].
  - now rewrite get_set_same.
  - now rewrite get_set_other.
Qed.

(** [fill] writes every element and nothing else. *)
Lemma fill_loop_spec n : forall i arr v,
  0 <= i ->
  JsArray.length (fill_loop n i arr v) = JsArray.length arr /\
  forall j, JsArray.get (fill_loop n i arr v) (Some j) =
            if (i <=? j) && (j <? i + Z.of_nat n) && (j <? JsArray.length arr)
            then Some v else JsArray.get arr (Some j).
Proof.
  induction n as [|n IH]; intros i arr v Hi.
  - split; [reflexivity|]. intros j. cbn [fill_loop].
    destruct (Z.leb_spec i j), (Z.ltb_spec j (i + Z.of_nat 0)); simpl; try reflexivity; lia.
  - cbn [fill_loop]. destruct (Z.ltb_spec i (JsArray.length arr)) as [Hlt|Hge].
    + destruct (IH (i + 1) (JsArray.set arr (Some i) v) v ltac:(lia)) as [Hlen Hget].
      rewrite length_set_below in Hlen, Hget by lia.
      split; [exact Hlen|]. intros j. rewrite Hget.
      destruct (Z.eq_dec j i) as [->|Hne].
      * rewrite get_set_same.
        destruct (Z.leb_spec (i + 1) i), (Z.leb_spec i i), (Z.ltb_spec i (i + Z.of_nat (S n))),
                 (Z.ltb_spec i (JsArray.length arr)); simpl; try reflexivity; lia.
      * rewrite (get_set_other _ _ _ _ Hne).
        destruct (Z.leb_spec (i + 1) j), (Z.leb_spec i j), (Z.ltb_spec j (i + 1 + Z.of_nat n)),
                 (Z.ltb_spec j (i + Z.of_nat (S n))); simpl; try reflexivity; lia.
    + split; [reflexivity|]. intros j.
      destruct (Z.leb_spec i j), (Z.ltb_spec j (JsArray.length arr));
        rewrite ?andb_false_r; simpl; try reflexivity; lia.
Qed.

Lemma fill_length arr v : JsArray.length (fill arr v) = JsArray.length arr.
Proof.
  unfold fill. destruct (fill_loop_spec (Z.to_nat (JsArray.length arr)) 0 arr v) as [H _]; [lia|exact H].
Qed.

Lemma fill_get arr v j :
  0 <= j < JsArray.length arr -> JsArray.get (fill arr v) (Some j) = Some v.
Proof.
  intros Hj. unfold fill.
  destruct (fill_loop_spec (Z.to_nat (JsArray.length arr)) 0 arr v) as [_ H]; [lia|].
  rewrite H.
  destruct (Z.leb_spec 0 j), (Z.ltb_spec j (0 + Z.of_nat (Z.to_nat (JsArray.length arr)))),
           (Z.ltb_spec j (JsArray.length arr)); simpl; try reflexivity; lia.
Qed.

End ArrayFacts.

(** ** The arrays of a compiled pattern keep their lengths *)

Section PatternShape.

Import CronPattern.

Lemma range_loop_length n : forall i upper off arr,
  off <= 0 -> upper < JsArray.length arr ->
  JsArray.length (range_loop n i upper off arr) = JsArray.length arr.
Proof.
  induction n as [|n IH]; intros i upper off arr Hoff Hup; cbn [range_loop]; [reflexivity|].
  destruct (Z.leb_spec i upper); [|reflexivity].
  rewrite IH; rewrite ?length_set_below; lia.
Qed.

Lemma step_loop_length n : forall i steps off arr,
  off <= 0 ->
  JsArray.length (step_loop n i steps off arr) = JsArray.length arr.
Proof.
  induction n as [|n IH]; intros i steps off arr Hoff; cbn [step_loop]; [reflexivity|].
  destruct (Z.ltb_spec i (JsArray.length arr)); [|reflexivity].
  rewrite IH; rewrite ?length_set_below; lia.
Qed.

Lemma partToArray_entry_length arr conf off arr' :
  off <= 0 ->
  partToArray_entry arr conf off = Ok arr' ->
  JsArray.length arr' = JsArray.length arr.
Proof.
  intros Hoff. unfold partToArray_entry, raise.
  repeat case_match; intros Hok; try discriminate Hok; injection Hok as <-.
  - apply range_loop_length; lia.
  - apply step_loop_length; lia.
  - subst. apply length_set_below. lia.
  - reflexivity.
Qed.

Lemma partToArray_single_length arr conf off arr' :
  off <= 0 ->
  partToArray_single arr conf off = Ok arr' ->
  JsArray.length arr' = JsArray.length arr.
Proof.
  intros Hoff. unfold partToArray_single. case_match.
  - intros [= <-]. apply fill_length.
  - now apply partToArray_entry_length.
Qed.

Lemma partToArray_each_length entries : forall arr off arr',
  off <= 0 ->
  partToArray_each arr entries off = Ok arr' ->
  JsArray.length arr' = JsArray.length arr.
Proof.
  induction entries as [|e es IH]; intros arr off arr' Hoff; cbn [partToArray_each].
  - now intros [= <-].
  - destruct (partToArray_single arr e off) as [a|] eqn:E; simpl; [|discriminate].
    intros H. rewrite (IH _ _ _ Hoff H). now apply partToArray_single_length in E.
Qed.

Lemma partToArray_length arr conf off arr' :
  off <= 0 ->
  partToArray arr conf off = Ok arr' ->
  JsArray.length arr' = JsArray.length arr.
Proof.
  intros Hoff. unfold partToArray. cbv zeta. repeat case_match; subst.
  - intros [= <-]. apply fill_length.
  - now apply partToArray_each_length.
  - now apply partToArray_entry_length.
Qed.

Lemma bind_Ok {A B} (r : Result A) (k : A -> Result B) b :
  mbind k r = Ok b -> exists a, r = Ok a /\ k a = Ok b.
Proof. destruct r as [a|e]; [eauto|discriminate]. Qed.

Lemma new_compiled s p : CronPattern.new s = Ok p -> compiled p.
Proof.
  unfold CronPattern.new, parse, raise. cbn [pattern seconds minutes hours days months daysOfWeek].
  destruct (negb _); [discriminate|].
  intros H. apply bind_Ok in H as (_ & _ & H).
  destruct (_ && _); [discriminate|].
  apply bind_Ok in H as (a0 & E0 & H). apply bind_Ok in H as (a1 & E1 & H).
  apply bind_Ok in H as (a2 & E2 & H). apply bind_Ok in H as (a3 & E3 & H).
  apply bind_Ok in H as (a4 & E4 & H). apply bind_Ok in H as (a5 & E5 & H).
  apply partToArray_length in E0, E1, E2, E3, E4, E5; try lia.
  rewrite fill_length in E0, E1, E2, E3, E4, E5.
  cbn [JsArray.Array JsArray.length] in E0, E1, E2, E3, E4, E5.
  destruct (JsArray.truthy (JsArray.get a5 (Some 7))) eqn:E7;
    injection H as <-; split; cbn [seconds minutes hours days months daysOfWeek];
    try assumption.
  - simpl. lia.
  - intros _. simpl. now rewrite lookup_insert_eq.
  - intros H. rewrite E7 in H. discriminate.
Qed.

End PatternShape.

Lemma split_nonempty_list sep s : JsString.split sep s <> [].
Proof.
  destruct s as [|a r]; cbn [JsString.split]; [discriminate|].
  destruct (Ascii.eqb a sep); [discriminate|]. destruct (JsString.split sep r); discriminate.
Qed.

(** ** The model of [partToArray] follows the recursion and the loops *)

Section ParserModel.

Import JsString CronPattern.

Lemma split_without_separator sep s : contains sep s = false -> split sep s = [s].
Proof.
  induction s as [|a r IH]; [reflexivity|]. cbn [contains split]. intros H.
  apply orb_false_elim in H as [Ha Hr]. rewrite Ha, (IH Hr). reflexivity.
Qed.

Lemma split_entry_has_no_separator sep s : forall e,
  In e (split sep s) -> contains sep e = false.
Proof.
  induction s as [|a r IH]; intros e; cbn [split].
  - intros [<-|[]]. reflexivity.
  - destruct (Ascii.eqb a sep) eqn:Ea.
    + intros [<-|Hin]; [reflexivity|now apply IH].
    + pose proof (split_nonempty_list sep r) as Hnil.
      destruct (split sep r) as [|p0 ps]; [congruence|].
      intros [<-|Hin].
      * cbn [contains]. rewrite Ea. apply IH. now left.
      * apply IH. now right.
Qed.

(** The call of line 344: on an entry of [conf.split(",")] the function
    does the wildcard or the body below the comma split. *)
Lemma partToArray_on_entry arr conf off e :
  In e (split "," conf) -> partToArray arr e off = partToArray_single arr e off.
Proof.
  intros Hin. apply split_entry_has_no_separator in Hin.
  unfold partToArray, partToArray_single. rewrite (split_without_separator _ _ Hin).
  reflexivity.
Qed.

Lemma split_entry_contains c sep s : forall e,
  In e (split sep s) -> contains c e = true -> contains c s = true.
Proof.
  induction s as [|a r IH]; intros e; cbn [split].
  - intros [<-|[]]. discriminate.
  - destruct (Ascii.eqb a sep) eqn:Ea.
    + intros [<-|Hin]; [discriminate|]. intros Hc. cbn [contains].
      rewrite (IH e Hin Hc). apply orb_true_r.
    + pose proof (split_nonempty_list sep r) as Hnil.
      destruct (split sep r) as [|p0 ps]; [congruence|].
      intros [<-|Hin]; cbn [contains]; intros Hc.
      * apply orb_prop in Hc as [Hc|Hc]; [now rewrite Hc|].
        rewrite (IH p0 (or_introl eq_refl) Hc). apply orb_true_r.
      * rewrite (IH e (or_intror Hin) Hc). apply orb_true_r.
Qed.

Lemma parse_digits_nonneg s : forall acc n,
  (forall a, acc = Some a -> 0 <= a) -> parse_digits acc s = Some n -> 0 <= n.
Proof.
  induction s as [|c r IH]; intros acc n Hacc; cbn [parse_digits]; [apply Hacc|].
  unfold digit_value. destruct (_ && _) eqn:Ed; [|apply Hacc].
  apply IH. intros a [= <-]. apply andb_prop in Ed as [Hlo Hhi].
  destruct acc as [a0|]; [specialize (Hacc a0 eq_refl)|]; lia.
Qed.

(** Without a minus sign [parseInt] gives no negative number. *)
Lemma parseInt_nonneg s n : contains "-" s = false -> parseInt s = Some n -> 0 <= n.
Proof.
  intros Hc. unfold parseInt.
  assert (Ht : contains "-" (trimStart s) = false).
  { induction s as [|a r IH]; [reflexivity|]. cbn [trimStart].
    cbn [contains] in Hc. apply orb_false_elim in Hc as [Ha Hr].
    destruct (is_whitespace a); [now apply IH|]. cbn [contains]. now rewrite Ha, Hr. }
  destruct (trimStart s) as [|c r]; [discriminate|].
  cbn [contains] in Ht. apply orb_false_elim in Ht as [Hc0 _].
  assert (Hgo : parse_digits None (String c r) = Some n -> 0 <= n)
    by (apply parse_digits_nonneg; discriminate).
  destruct c as [[] [] [] [] [] [] [] []]; try exact Hgo; try discriminate Hc0.
  apply parse_digits_nonneg. discriminate.
Qed.

(** With [steps] at least 1 the stepping loop is over after [arr.length]
    iterations: more of them change nothing. *)
Lemma step_loop_enough n : forall m i steps off arr,
  1 <= steps -> off <= 0 ->
  (Z.to_nat (JsArray.length arr - i) <= n)%nat ->
  step_loop (n + m) i steps off arr = step_loop n i steps off arr.
Proof.
  induction n as [|n IH]; intros m i steps off arr Hs Hoff Hn.
  - destruct m as [|m]; [reflexivity|]. cbn [Nat.add step_loop].
    destruct (Z.ltb_spec i (JsArray.length arr)); [lia|reflexivity].
  - cbn [Nat.add step_loop]. destruct (Z.ltb_spec i (JsArray.length arr)); [|reflexivity].
    apply IH; [lia|lia|]. rewrite length_set_below by lia. lia.
Qed.

End ParserModel.

(** ** The scan of [findNext] *)

Section FindNext.

Import CronDate.

Lemma findNext_scan_sound n : forall arr i j,
  findNext_scan n arr i = Some j ->
  i <= j < JsArray.length arr /\ JsArray.truthy (JsArray.get arr (Some j)) = true.
Proof.
  induction n as [|n IH]; intros arr i j; cbn [findNext_scan]; [discriminate|].
  destruct (Z.ltb_spec i (JsArray.length arr)); [|discriminate].
  destruct (JsArray.truthy (JsArray.get arr (Some i))) eqn:E.
  - intros [= <-]. split; [lia|exact E].
  - intros H'. apply IH in H'. split; [lia|tauto].
Qed.

Lemma findNext_scan_here n arr i :
  i < JsArray.length arr -> JsArray.truthy (JsArray.get arr (Some i)) = true ->
  findNext_scan (S n) arr i = Some i.
Proof.
  intros Hlt Ht. cbn [findNext_scan].
  destruct (Z.ltb_spec i (JsArray.length arr)); [|lia]. now rewrite Ht.
Qed.

Lemma findNext_scan_complete n : forall arr i j,
  i <= j < JsArray.length arr -> JsArray.truthy (JsArray.get arr (Some j)) = true ->
  (Z.to_nat (JsArray.length arr - i) <= n)%nat ->
  exists j', findNext_scan n arr i = Some j'.
Proof.
  induction n as [|n IH]; intros arr i j Hj Ht Hn; [lia|]. cbn [findNext_scan].
  destruct (Z.ltb_spec i (JsArray.length arr)); [|lia].
  destruct (JsArray.truthy (JsArray.get arr (Some i))) eqn:E; [eauto|].
  apply (IH arr (i + 1) j); [|exact Ht|lia].
  assert (i <> j) by (intros ->; congruence). lia.
Qed.

Lemma findNext_scan_none n : forall arr i,
  (forall j, i <= j -> JsArray.truthy (JsArray.get arr (Some j)) = false) ->
  findNext_scan n arr i = None.
Proof.
  induction n as [|n IH]; intros arr i Hall; cbn [findNext_scan]; [reflexivity|].
  destruct (i <? JsArray.length arr); [|reflexivity].
  rewrite (Hall i) by lia. apply IH. intros j Hj. apply Hall. lia.
Qed.

Lemma set_member_same self target :
  set_member self target (member self target) = self.
Proof. destruct self, target; reflexivity. Qed.

Lemma member_set_same self target v :
  target <> DaysOfWeek -> member (set_member self target v) target = v.
Proof. destruct target; intros H; try reflexivity. congruence. Qed.

Lemma member_set_other self target target' v :
  target <> target' -> member (set_member self target v) target' = member self target'.
Proof. destruct target, target'; intros H; try reflexivity; congruence. Qed.

Lemma findNext_found self target p off ov self' :
  findNext self target p off ov = (true, self') ->
  exists i, self' = set_member self target (i - off) /\
    (match ov with None => member self target + off | Some _ => 0 + off end) <= i
      < JsArray.length (CronPattern.member p target) /\
    JsArray.truthy (JsArray.get (CronPattern.member p target) (Some i)) = true.
Proof.
  unfold findNext. destruct (findNext_scan _ _ _) as [i|] eqn:E; [|discriminate].
  intros [= <-]. apply findNext_scan_sound in E. exists i. tauto.
Qed.

Lemma findNext_not_found self target p off ov b self' :
  findNext self target p off ov = (b, self') -> b = false -> self' = self.
Proof.
  unfold findNext. destruct (findNext_scan _ _ _); intros [= <- <-]; [discriminate|reflexivity].
Qed.

Lemma findNext_reset self target p off :
  (exists i, off <= i < JsArray.length (CronPattern.member p target) /\
             JsArray.truthy (JsArray.get (CronPattern.member p target) (Some i)) = true) ->
  exists i, findNext self target p off (Some 0) = (true, set_member self target (i - off)) /\
    off <= i < JsArray.length (CronPattern.member p target) /\
    JsArray.truthy (JsArray.get (CronPattern.member p target) (Some i)) = true.
Proof.
  intros (i & Hi & Ht). unfold findNext.
  destruct (findNext_scan_complete
              (Z.to_nat (JsArray.length (CronPattern.member p target) - (0 + off)))
              (CronPattern.member p target) (0 + off) i) as [j Hj]; [lia|exact Ht|lia|].
  rewrite Hj. apply findNext_scan_sound in Hj. exists j. split; [reflexivity|]. split; [lia|tauto].
Qed.

End FindNext.

(** ** The cascade of [increment] *)

Section Cascade.

Import CronDate.

Variable p : CronPattern.t.

Ltac levels j := destruct j as [|[|[|[|[|?]]]]]; try lia.

Lemma level_target_inj j j' :
  (j < 5)%nat -> (j' < 5)%nat -> level_target j = level_target j' -> j = j'.
Proof. intros Hj Hj'. levels j; levels j'; cbv; congruence. Qed.

Lemma level_target_time j :
  (j < 5)%nat -> level_target j <> DaysOfWeek /\ level_target j <> Years.
Proof. intros Hj. levels j; cbv; split; congruence. Qed.

Lemma level_carry_next j : (j < 4)%nat -> level_carry j = level_target (S j).
Proof. intros Hj. levels j; reflexivity. Qed.

Lemma level_offset_nonpos j : level_offset j <= 0.
Proof. destruct j as [|[|[|[|[|[|?]]]]]]; cbv; congruence. Qed.

Lemma reset_from_eq doing self :
  reset_from doing p self =
  let self' := snd (findNext self (level_target doing) p (level_offset doing) (Some 0)) in
  match doing with
  | O => self'
  | S doing' => reset_from doing' p self'
  end.
Proof.
  unfold level_target, level_offset.
  destruct doing; cbn [reset_from]; destruct (toDo_at _) as [[? ?] ?]; reflexivity.
Qed.

Lemma cascade_eq fuel self doing :
  cascade (S fuel) p self doing =
  if (doing <? 5)%nat then
    match findNext self (level_target doing) p (level_offset doing) None with
    | (true, self') => cascade fuel p self' (doing + 1)
    | (false, self') =>
        cascade fuel p
          (reset_from doing p
             (set_member self' (level_carry doing) (member self' (level_carry doing) + 1))) 0
    end
  else Some self.
Proof.
  unfold level_target, level_offset, level_carry. cbn [cascade].
  destruct (toDo_at _) as [[? ?] ?]; reflexivity.
Qed.

(** A settled row is left as it is. *)
Lemma findNext_settled self j :
  level_ok p self j ->
  findNext self (level_target j) p (level_offset j) None = (true, self).
Proof.
  intros [Hlt Ht]. unfold findNext.
  set (arr := CronPattern.member p (level_target j)) in *.
  set (i := member self (level_target j) + level_offset j) in *.
  destruct (Z.to_nat (JsArray.length arr - i)) as [|n] eqn:En; [lia|].
  rewrite findNext_scan_here by assumption.
  unfold i. replace (member self (level_target j) + level_offset j - level_offset j)
    with (member self (level_target j)) by lia.
  now rewrite set_member_same.
Qed.

(** Changing another member does not unsettle a row. *)
Lemma level_ok_set_other self target v j :
  target <> level_target j -> level_ok p self j -> level_ok p (set_member self target v) j.
Proof. intros Hne. unfold level_ok. now rewrite member_set_other. Qed.

Lemma level_ok_set_found self j i :
  (j < 5)%nat ->
  i < JsArray.length (CronPattern.member p (level_target j)) ->
  JsArray.truthy (JsArray.get (CronPattern.member p (level_target j)) (Some i)) = true ->
  level_ok p (set_member self (level_target j) (i - level_offset j)) j.
Proof.
  intros Hj Hlt Ht. unfold level_ok.
  rewrite member_set_same by (apply level_target_time; lia).
  replace (i - level_offset j + level_offset j) with i by lia. tauto.
Qed.

(** The inner loop settles the rows [0 .. doing] and touches no other
    member. *)
Lemma reset_from_spec doing : forall self,
  (doing < 5)%nat ->
  (forall j, (j <= doing)%nat -> resettable p j) ->
  let self' := reset_from doing p self in
  matched p self' (S doing) /\
  (forall target, (forall j, (j <= doing)%nat -> target <> level_target j) ->
                  member self' target = member self target) /\
  (forall j, (j <= doing)%nat -> 0 <= member self' (level_target j)).
Proof.
  induction doing as [|doing IH]; intros self Hlt Hres; rewrite reset_from_eq; cbv zeta.
  - destruct (findNext_reset self (level_target 0) p (level_offset 0) (Hres 0%nat ltac:(lia)))
      as (i & -> & Hi & Ht). cbn [snd]. split; [|split].
    + intros j Hj. assert (j = 0)%nat as -> by lia. apply level_ok_set_found; [lia|lia|exact Ht].
    + intros target Hne. apply member_set_other. specialize (Hne 0%nat ltac:(lia)). congruence.
    + intros j Hj. assert (j = 0)%nat as -> by lia.
      rewrite member_set_same by (apply level_target_time; lia). lia.
  - destruct (findNext_reset self (level_target (S doing)) p (level_offset (S doing))
                (Hres (S doing) ltac:(lia))) as (i & -> & Hi & Ht). cbn [snd].
    set (self1 := set_member self (level_target (S doing)) (i - level_offset (S doing))).
    destruct (IH self1 ltac:(lia) ltac:(intros; apply Hres; lia)) as (Hm & Hsame & Hpos).
    assert (Hkeep : member (reset_from doing p self1) (level_target (S doing)) =
                    member self1 (level_target (S doing))).
    { apply Hsame. intros j Hj Heq. apply level_target_inj in Heq; lia. }
    split; [|split].
    + intros j Hj. destruct (Nat.eq_dec j (S doing)) as [->|Hne].
      * unfold level_ok. rewrite Hkeep. apply level_ok_set_found; [lia|lia|exact Ht].
      * apply Hm. lia.
    + intros target Hne. rewrite Hsame by (intros; apply Hne; lia).
      apply member_set_other. specialize (Hne (S doing) ltac:(lia)). congruence.
    + intros j Hj. destruct (Nat.eq_dec j (S doing)) as [->|Hne].
      * rewrite Hkeep. unfold self1. rewrite member_set_same by (apply level_target_time; lia). lia.
      * apply Hpos. lia.
Qed.

Hypothesis Hres : forall j, (j < 5)%nat -> resettable p j.

(** From a state whose rows below [M] are settled, the loop is left after
    at most [(5 - M) * 6 + (5 - doing) + 1] iterations, with every row
    settled and the year moved on by one at most. *)
Lemma cascade_terminates m : forall M doing self,
  (doing <= M <= 5)%nat ->
  matched p self M -> nonneg self ->
  ((5 - M) * 6 + (5 - doing) <= m)%nat ->
  exists self', cascade (S m) p self doing = Some self' /\
    matched p self' 5 /\ nonneg self' /\
    years self <= years self' <= years self + (if (M <? 5)%nat then 1 else 0).
Proof.
  induction m as [|m IH]; intros M doing self HM Hm Hpos Hfuel; rewrite cascade_eq;
    destruct (Nat.ltb_spec doing 5) as [Hlt|Hge].
  - lia.
  - assert (M = 5)%nat as -> by lia. exists self. split; [reflexivity|]. split; [assumption|]. split; [assumption|]. simpl; lia.
  - destruct (Nat.eq_dec doing M) as [->|Hne].
    + destruct (findNext _ _ _ _ _) as [[|] self1] eqn:E.
      * apply findNext_found in E as (i & -> & Hi & Ht).
        set (self1 := set_member self (level_target M) (i - level_offset M)).
        assert (Hy : years self1 = years self).
        { apply (member_set_other self (level_target M) Years).
          apply level_target_time. lia. }
        destruct (IH (S M) (M + 1)%nat self1) as (self' & Hc & Hm' & Hpos' & Hys); [lia| | |lia|].
        -- intros j Hj. destruct (Nat.eq_dec j M) as [->|Hjm].
           ++ apply level_ok_set_found; [lia|lia|exact Ht].
           ++ apply level_ok_set_other; [|apply Hm; lia].
              intros Heq. apply level_target_inj in Heq; lia.
        -- intros j Hj. destruct (Nat.eq_dec j M) as [->|Hjm].
           ++ unfold self1. rewrite member_set_same by (apply level_target_time; lia).
              specialize (Hpos M Hlt). lia.
           ++ unfold self1. rewrite member_set_other; [apply Hpos; lia|].
              intros Heq. apply level_target_inj in Heq; lia.
        -- exists self'. split; [assumption|]. split; [assumption|]. split; [assumption|].
           destruct (Nat.ltb_spec (S M) 5), (Nat.ltb_spec M 5); lia.
      * apply findNext_not_found in E as ->; [|reflexivity].
        set (self1 := set_member self (level_carry M) (member self (level_carry M) + 1)).
        destruct (reset_from_spec M self1 Hlt ltac:(intros; apply Hres; lia))
          as (Hm1 & Hsame & Hpos1).
        set (self2 := reset_from M p self1) in *.
        destruct (IH (S M) 0%nat self2) as (self' & Hc & Hm' & Hpos' & Hys); [lia|exact Hm1| |lia|].
        -- intros j Hj. destruct (Nat.le_gt_cases j M) as [Hle|Hgt]; [apply Hpos1; exact Hle|].
           rewrite Hsame by (intros j' Hj' Heq; apply level_target_inj in Heq; lia).
           unfold self1. destruct (Nat.eq_dec j (S M)) as [->|Hjm].
           ++ rewrite level_carry_next by lia.
              rewrite member_set_same by (apply level_target_time; lia).
              specialize (Hpos (S M) ltac:(lia)). lia.
           ++ rewrite member_set_other; [apply Hpos; lia|].
              destruct (Nat.eq_dec M 4%nat) as [->|HM4].
              ** lia.
              ** rewrite level_carry_next by lia.
                 intros Heq. apply level_target_inj in Heq; lia.
        -- assert (Hy2 : years self2 = years self1).
           { apply (Hsame Years). intros j Hj. apply not_eq_sym, level_target_time. lia. }
           assert (Hy1 : years self1 = years self + (if Nat.eq_dec M 4%nat then 1 else 0)).
           { unfold self1. destruct (Nat.eq_dec M 4%nat) as [->|HM4].
             - cbv [level_carry toDo_at toDo nth fst snd set_member member years]. reflexivity.
             - change (years ?x) with (member x Years).
               rewrite member_set_other; [cbn [member]; lia|].
               rewrite level_carry_next by lia. apply level_target_time. lia. }
           exists self'. split; [assumption|]. split; [assumption|]. split; [assumption|].
           destruct (Nat.eq_dec M 4%nat) as [->|]; [simpl in Hys; simpl; lia|].
           destruct (Nat.ltb_spec (S M) 5), (Nat.ltb_spec M 5); lia.
    + rewrite findNext_settled by (apply Hm; lia).
      destruct (IH M (doing + 1)%nat self) as (self' & Hc & Hrest); [lia|exact Hm|exact Hpos|lia|].
      exists self'. tauto.
  - assert (M = 5)%nat as -> by lia. exists self. split; [reflexivity|]. split; [assumption|]. split; [assumption|]. simpl; lia.
Qed.

End Cascade.

(** ** The host's calendar *)

Section Calendar.

Import JsDate.

Lemma DayFromYear_bounds y :
  146097 * (y - 1970) - 506 <= 400 * DayFromYear y <= 146097 * (y - 1970) + 589.
Proof. unfold DayFromYear. zdiv. Qed.

Lemma DayFromYear_step y : 365 <= DayFromYear (y + 1) - DayFromYear y <= 366.
Proof. unfold DayFromYear. zdiv. Qed.

(** [YearFromDay d] is the year that day [d] falls in. *)
Lemma YearFromDay_spec d :
  DayFromYear (YearFromDay d) <= d < DayFromYear (YearFromDay d + 1).
Proof.
  unfold YearFromDay. cbv zeta.
  set (y0 := 1970 + 400 * d / 146097).
  assert (Hy0 : 146097 * (y0 - 1970) <= 400 * d < 146097 * (y0 - 1970) + 146097)
    by (unfold y0; zdiv).
  pose proof (DayFromYear_bounds (y0 - 1)).
  pose proof (DayFromYear_bounds (y0 + 1 + 1)).
  destruct (Z.leb_spec (DayFromYear (y0 + 1)) d);
    [|destruct (Z.leb_spec (DayFromYear y0) d)].
  - lia.
  - lia.
  - replace (y0 - 1 + 1) with y0 by lia. lia.
Qed.

Lemma InLeapYear_bit t : 0 <= InLeapYear t <= 1.
Proof. unfold InLeapYear. destruct (_ =? _); lia. Qed.

Lemma DayWithinYear_nonneg t : 0 <= DayWithinYear t.
Proof. unfold DayWithinYear, YearFromTime. pose proof (YearFromDay_spec (Day t)). lia. Qed.

Lemma MonthFromTime_range t : 0 <= MonthFromTime t <= 11.
Proof. unfold MonthFromTime. cbv zeta. repeat (destruct (_ <? _); [lia|]). lia. Qed.

Lemma DateFromTime_pos t : 1 <= DateFromTime t.
Proof.
  unfold DateFromTime, MonthFromTime. cbv zeta.
  pose proof (DayWithinYear_nonneg t). pose proof (InLeapYear_bit t).
  repeat match goal with
         | |- context [if ?a <? ?b then _ else _] => destruct (Z.ltb_spec a b)
         end; cbn [month_start]; lia.
Qed.

Lemma month_start_range m leap :
  0 <= m <= 11 -> 0 <= leap <= 1 -> 0 <= month_start m leap <= 335.
Proof.
  intros Hm Hl.
  assert (m = 0 \/ m = 1 \/ m = 2 \/ m = 3 \/ m = 4 \/ m = 5 \/ m = 6 \/ m = 7 \/ m = 8 \/
          m = 9 \/ m = 10 \/ m = 11) as Hcases by lia.
  repeat destruct Hcases as [->|Hcases]; try subst m; cbn [month_start]; lia.
Qed.

Lemma TimeClip_in_range time :
  Z.abs time <= 8640000000000000 -> TimeClip time = Some time.
Proof. intros H. unfold TimeClip. destruct (Z.leb_spec (Z.abs time) 8640000000000000); [reflexivity|lia]. Qed.

Lemma WeekDay_shift t k : WeekDay (t + k * msPerDay) = (WeekDay t + k) mod 7.
Proof. unfold WeekDay, Day, msPerDay. zdiv. Qed.

End Calendar.

(** ** The dates that [increment] builds *)

Section BuiltDates.

Import JsDate CronDate.

Lemma getDate_time_value self : getDate self = JsDate.mk (TimeClip (time_value self)).
Proof. reflexivity. Qed.

Lemma time_value_add_days self k :
  time_value (add_days self k) = time_value self + k * msPerDay.
Proof.
  unfold time_value, add_days, MakeDate, MakeDay. cbn [set_member years months days hours
    minutes seconds milliseconds]. cbv zeta. lia.
Qed.

Lemma Day_reference r : reference_instant r -> -99999190 <= Day r <= 99999189.
Proof. unfold reference_instant, Day, msPerDay. intros H. zdiv. Qed.

(** Up to six days after a broken-down time in range, built from a
    reference instant of year [Y], [getDate] is a valid date. *)
Lemma time_value_valid r self k :
  reference_instant r -> in_range (YearFromTime r) self -> 0 <= k <= 6 ->
  Z.abs (time_value (add_days self k)) <= 8640000000000000.
Proof.
  intros Hr [Hy Hmo Hd Hh Hmi Hs Hms] Hk. rewrite time_value_add_days.
  unfold time_value, MakeDate, MakeDay, MakeTime. cbv zeta.
  rewrite (Z.div_small (months self) 12), (Z.mod_small (months self) 12) by lia.
  rewrite Z.add_0_r.
  set (yr := if (0 <=? years self) && (years self <=? 99) then 1900 + years self else years self).
  pose proof (month_start_range (months self) (if DaysInYear yr =? 366 then 1 else 0) Hmo
                ltac:(destruct (_ =? _); lia)) as Hstart.
  set (start := month_start _ _) in *.
  assert (HD : -99999556 <= DayFromYear yr <= 99999555).
  { pose proof (Day_reference r Hr) as HDr.
    pose proof (YearFromDay_spec (Day r)) as HY. fold (YearFromTime r) in HY.
    pose proof (DayFromYear_step (YearFromTime r)) as Hstep.
    unfold yr. destruct (Z.leb_spec 0 (years self)), (Z.leb_spec (years self) 99); cbn [andb].
    - pose proof (DayFromYear_bounds (1900 + years self)). lia.
    - assert (years self = YearFromTime r \/ years self = YearFromTime r + 1) as [->| ->] by lia; lia.
    - assert (years self = YearFromTime r \/ years self = YearFromTime r + 1) as [->| ->] by lia; lia.
    - assert (years self = YearFromTime r \/ years self = YearFromTime r + 1) as [->| ->] by lia; lia. }
  unfold msPerDay, msPerHour, msPerMinute, msPerSecond. lia.
Qed.

Lemma getDay_add_days r self k :
  reference_instant r -> in_range (YearFromTime r) self -> 0 <= k <= 6 ->
  getDay (getDate (add_days self k)) = Some ((WeekDay (time_value self) + k) mod 7).
Proof.
  intros Hr Hin Hk. rewrite getDate_time_value.
  rewrite TimeClip_in_range by (now apply (time_value_valid r)).
  unfold getDay. cbn [getTime fmap option_fmap option_map]. f_equal.
  rewrite time_value_add_days. apply WeekDay_shift.
Qed.

Lemma add_days_0 self : add_days self 0 = self.
Proof. unfold add_days. rewrite Z.add_0_r. apply (set_member_same self Days). Qed.

Lemma add_days_add self j k : add_days (add_days self j) k = add_days self (j + k).
Proof. unfold add_days. destruct self; cbn. f_equal. lia. Qed.

(** The weekday loop stops on the first day whose weekday is truthy. *)
Lemma weekday_loop_terminates p k : forall fuel self,
  (k < fuel)%nat ->
  JsArray.truthy (JsArray.get (CronPattern.daysOfWeek p)
                    (getDay (getDate (add_days self (Z.of_nat k))))) = true ->
  exists j, 0 <= j <= Z.of_nat k /\ weekday_loop fuel p self = Some (add_days self j) /\
    JsArray.truthy (JsArray.get (CronPattern.daysOfWeek p)
                      (getDay (getDate (add_days self j)))) = true.
Proof.
  induction k as [|k IH]; intros fuel self Hfuel Ht;
    (destruct fuel as [|fuel]; [lia|]); cbn [weekday_loop].
  - change (Z.of_nat 0) with 0 in Ht. rewrite add_days_0 in Ht. rewrite Ht. cbn [negb].
    exists 0. rewrite add_days_0. split; [lia|]. split; [reflexivity|exact Ht].
  - destruct (JsArray.truthy (JsArray.get (CronPattern.daysOfWeek p) (getDay (getDate self))))
      eqn:E; cbn [negb].
    + exists 0. rewrite add_days_0. split; [lia|]. split; [reflexivity|exact E].
    + destruct (IH fuel (add_days self 1)) as (j & Hj & Hloop & Htj); [lia| |].
      * rewrite add_days_add. replace (1 + Z.of_nat k) with (Z.of_nat (S k)) by lia. exact Ht.
      * exists (1 + j). rewrite add_days_add in Hloop, Htj.
        split; [lia|]. split; [exact Hloop|exact Htj].
Qed.

End BuiltDates.

(** ** [increment] from a reference instant *)

Section Increment.

Import JsDate CronDate.

Lemma set_member_milliseconds self target v :
  milliseconds (set_member self target v) = milliseconds self.
Proof. destruct target; reflexivity. Qed.

Lemma findNext_milliseconds self target p off ov :
  milliseconds (snd (findNext self target p off ov)) = milliseconds self.
Proof.
  unfold findNext. destruct (findNext_scan _ _ _); cbn [snd]; [|reflexivity].
  apply set_member_milliseconds.
Qed.

Lemma reset_from_milliseconds p doing : forall self,
  milliseconds (reset_from doing p self) = milliseconds self.
Proof.
  induction doing as [|doing IH]; intros self; rewrite reset_from_eq; cbv zeta.
  - apply findNext_milliseconds.
  - rewrite IH. apply findNext_milliseconds.
Qed.

Lemma cascade_milliseconds p fuel : forall self doing self',
  cascade fuel p self doing = Some self' -> milliseconds self' = milliseconds self.
Proof.
  induction fuel as [|fuel IH]; intros self doing self'; [discriminate|].
  rewrite cascade_eq. destruct (doing <? 5)%nat; [|now intros [= <-]].
  destruct (findNext _ _ _ _ _) as [[|] self1] eqn:E; intros H; apply IH in H; rewrite H.
  - change self1 with (snd (true, self1)). rewrite <- E. apply findNext_milliseconds.
  - rewrite reset_from_milliseconds, set_member_milliseconds.
    change self1 with (snd (false, self1)). rewrite <- E. apply findNext_milliseconds.
Qed.

(** [this] after [this.seconds += 1; this.milliseconds = 0]. *)
Lemma increment_eq fuel p self :
  increment fuel p self =
  match cascade fuel p (mk 0 (seconds self + 1) (minutes self) (hours self) (days self)
                          (months self) (years self)) 0 with
  | Some self' => weekday_loop fuel p self'
  | None => None
  end.
Proof. reflexivity. Qed.

Lemma new_nonneg r :
  nonneg (mk 0 (seconds (new r) + 1) (minutes (new r)) (hours (new r)) (days (new r))
             (months (new r)) (years (new r))).
Proof.
  intros j Hj. pose proof (DateFromTime_pos r). pose proof (MonthFromTime_range r).
  destruct j as [|[|[|[|[|?]]]]]; try lia;
    cbn [level_target toDo_at toDo nth fst snd member seconds minutes hours days months new];
    unfold SecFromTime, MinFromTime, HourFromTime; try lia; zdiv.
Qed.

(** A pattern whose six arrays have their lengths bounds every settled
    member. *)
Lemma matched_in_range p self Y :
  compiled p -> matched p self 5 -> nonneg self ->
  Y <= years self <= Y + 1 -> milliseconds self = 0 ->
  in_range Y self.
Proof.
  intros Hc Hm Hpos Hy Hms.
  pose proof (Hm 0%nat ltac:(lia)) as [H0 _]. pose proof (Hm 1%nat ltac:(lia)) as [H1 _].
  pose proof (Hm 2%nat ltac:(lia)) as [H2 _]. pose proof (Hm 3%nat ltac:(lia)) as [H3 _].
  pose proof (Hm 4%nat ltac:(lia)) as [H4 _].
  pose proof (Hpos 0%nat ltac:(lia)) as P0. pose proof (Hpos 1%nat ltac:(lia)) as P1.
  pose proof (Hpos 2%nat ltac:(lia)) as P2. pose proof (Hpos 3%nat ltac:(lia)) as P3.
  pose proof (Hpos 4%nat ltac:(lia)) as P4.
  cbv [level_target level_offset toDo_at toDo nth fst snd member CronPattern.member]
    in H0, H1, H2, H3, H4, P0, P1, P2, P3, P4.
  destruct Hc as [L0 L1 L2 L3 L4 _ _]. rewrite L0 in H0. rewrite L1 in H1. rewrite L2 in H2.
  rewrite L3 in H3. rewrite L4 in H4.
  split; lia.
Qed.

(** The cascade, started from a reference instant, ends within 36
    iterations on a broken-down time in range whose rows are all settled. *)
Lemma cascade_from_reference p r fuel :
  compiled p -> (forall j, (j < 5)%nat -> resettable p j) ->
  (36 <= fuel)%nat ->
  exists self1,
    cascade fuel p (mk 0 (seconds (new r) + 1) (minutes (new r)) (hours (new r))
                      (days (new r)) (months (new r)) (years (new r))) 0 = Some self1 /\
    matched p self1 5 /\ in_range (YearFromTime r) self1.
Proof.
  intros Hc Hres Hfuel. destruct fuel as [|m]; [lia|].
  set (self0 := mk 0 _ _ _ _ _ _).
  destruct (cascade_terminates p Hres m 0%nat 0%nat self0) as (self1 & Hcas & Hm & Hpos & Hy);
    [lia|intros j Hj; lia|apply new_nonneg|simpl; lia|].
  exists self1. split; [exact Hcas|]. split; [exact Hm|].
  cbn in Hy. apply (matched_in_range p); try assumption.
  now rewrite (cascade_milliseconds _ _ _ _ _ Hcas).
Qed.

(** After the cascade, the weekday loop adds at most [k] days when the
    weekday [k] days ahead is truthy. *)
Lemma increment_after_cascade p r fuel self1 k :
  cascade fuel p (mk 0 (seconds (new r) + 1) (minutes (new r)) (hours (new r))
                    (days (new r)) (months (new r)) (years (new r))) 0 = Some self1 ->
  reference_instant r -> in_range (YearFromTime r) self1 ->
  0 <= k <= 6 -> (Z.to_nat k < fuel)%nat ->
  JsArray.truthy (JsArray.get (CronPattern.daysOfWeek p)
                    (Some ((WeekDay (time_value self1) + k) mod 7))) = true ->
  exists j, 0 <= j <= k /\ increment fuel p (new r) = Some (add_days self1 j) /\
    JsArray.truthy (JsArray.get (CronPattern.daysOfWeek p)
                      (getDay (getDate (add_days self1 j)))) = true.
Proof.
  intros Hcas Hr Hin Hk Hfuel Ht. rewrite increment_eq, Hcas.
  destruct (weekday_loop_terminates p (Z.to_nat k) fuel self1 Hfuel) as (j & Hj & Hloop & Htj).
  - rewrite Z2Nat.id by lia. now rewrite (getDay_add_days r).
  - exists j. split; [lia|]. split; assumption.
Qed.

End Increment.

(** ** Termination of [increment] *)

Section Termination.

Import JsDate CronDate.

Lemma accepts_inv p type v :
  CronPattern.accepts p type v = true ->
  let i := v + CronPattern.valueIndexOffset type in
  0 <= i < JsArray.length (CronPattern.member p type) /\
  JsArray.truthy (JsArray.get (CronPattern.member p type) (Some i)) = true.
Proof.
  unfold CronPattern.accepts. cbv zeta. intros H.
  apply andb_prop in H as [H Ht]. apply andb_prop in H as [H0 H1].
  split; [lia|exact Ht].
Qed.

Lemma nonempty_resettable p : sets_nonempty p -> forall j, (j < 5)%nat -> resettable p j.
Proof.
  intros Hne j Hj. destruct (Hne (level_target j)) as [v Hv].
  - destruct j as [|[|[|[|[|?]]]]]; cbv; congruence || lia.
  - apply accepts_inv in Hv as [Hi Ht]. eexists. split; [|exact Ht].
    pose proof (level_offset_nonpos j). lia.
Qed.

Lemma nonempty_weekday p :
  compiled p -> sets_nonempty p ->
  exists w, 0 <= w <= 6 /\ JsArray.truthy (JsArray.get (CronPattern.daysOfWeek p) (Some w)) = true.
Proof.
  intros Hc Hne. destruct (Hne DaysOfWeek ltac:(congruence)) as [v Hv].
  apply accepts_inv in Hv as [Hi Ht]. cbn in Hi, Ht.
  rewrite (daysOfWeek_length p Hc) in Hi. rewrite Z.add_0_r in Ht.
  destruct (Z.eq_dec v 7) as [->|Hv7].
  - exists 0. split; [lia|]. now apply (sunday_alias p Hc).
  - exists v. split; [lia|exact Ht].
Qed.

(** C4, as the code has it: on a compiled pattern whose six fields each
    accept a value, [increment] called on a reference instant returns
    after at most 36 rounds of each of its loops, and the weekday it
    stops on is an accepted one.  There is no year cap and no "none" to
    return: the result is always a broken-down time. *)
Theorem increment_terminates_on_nonempty_sets s p r fuel :
  CronPattern.new s = Ok p ->
  sets_nonempty p ->
  reference_instant r ->
  (36 <= fuel)%nat ->
  exists self',
    increment fuel p (new r) = Some self' /\
    JsArray.truthy (JsArray.get (CronPattern.daysOfWeek p) (getDay (getDate self'))) = true.
Proof.
  intros Hnew Hne Hr Hfuel. pose proof (new_compiled s p Hnew) as Hc.
  destruct (cascade_from_reference p r fuel Hc (nonempty_resettable p Hne) Hfuel)
    as (self1 & Hcas & Hm & Hin).
  destruct (nonempty_weekday p Hc Hne) as (w & Hw & Htw).
  set (k := (w - WeekDay (time_value self1)) mod 7).
  destruct (increment_after_cascade p r fuel self1 k Hcas Hr Hin) as (j & Hj & Hinc & Ht).
  - unfold k. zdiv.
  - assert (0 <= k <= 6) by (unfold k; zdiv). lia.
  - replace ((WeekDay (time_value self1) + k) mod 7) with w; [exact Htw|].
    unfold k. zdiv.
  - exists (add_days self1 j). split; assumption.
Qed.

Lemma increment_terminates_witness :
  CronPattern.new "*/5 0 9 1,15 * *" = Ok (pattern_of "*/5 0 9 1,15 * *") /\
  sets_nonempty (pattern_of "*/5 0 9 1,15 * *") /\
  reference_instant 1640995200000 /\
  (36 <= 36)%nat /\
  exists self',
    increment 36 (pattern_of "*/5 0 9 1,15 * *") (new 1640995200000) = Some self' /\
    JsArray.truthy (JsArray.get (CronPattern.daysOfWeek (pattern_of "*/5 0 9 1,15 * *"))
                      (getDay (getDate self'))) = true.
Proof.
  assert (Hnew : CronPattern.new "*/5 0 9 1,15 * *" = Ok (pattern_of "*/5 0 9 1,15 * *"))
    by (vm_compute; reflexivity).
  assert (Hne : sets_nonempty (pattern_of "*/5 0 9 1,15 * *")).
  { intros type Hty. destruct type; try congruence.
    - exists 0. vm_compute. reflexivity.
    - exists 0. vm_compute. reflexivity.
    - exists 9. vm_compute. reflexivity.
    - exists 1. vm_compute. reflexivity.
    - exists 1. vm_compute. reflexivity.
    - exists 1. vm_compute. reflexivity. }
  assert (Hr : reference_instant 1640995200000) by (unfold reference_instant; simpl; lia).
  split; [exact Hnew|]. split; [exact Hne|]. split; [exact Hr|]. split; [lia|].
  apply (increment_terminates_on_nonempty_sets _ _ _ _ Hnew Hne Hr). lia.
Defined.

(** When no element of [seconds] is truthy the cascade never leaves its
    first row. *)
Lemma cascade_stuck_on_seconds p :
  (forall j, JsArray.truthy (JsArray.get (CronPattern.seconds p) (Some j)) = false) ->
  forall fuel self, cascade fuel p self 0 = None.
Proof.
  intros Hempty. induction fuel as [|fuel IH]; intros self; [reflexivity|].
  rewrite cascade_eq. cbn [Nat.ltb Nat.leb].
  unfold findNext at 1.
  rewrite findNext_scan_none by (intros; apply Hempty).
  apply IH.
Qed.

Lemma fill_zero_falsy n j :
  JsArray.truthy (JsArray.get (fill (JsArray.Array n) 0) (Some j)) = false.
Proof.
  unfold fill. destruct (fill_loop_spec (Z.to_nat (JsArray.length (JsArray.Array n))) 0
                           (JsArray.Array n) 0 ltac:(lia)) as [_ H].
  rewrite H. destruct (_ && _); reflexivity.
Qed.

(** C4, as the specification states it, fails: the pattern [, * * * * *]
    compiles, its seconds array has no truthy element, and [increment]
    does not return whatever the number of rounds it is given. *)
Lemma increment_diverges_on_empty_seconds :
  CronPattern.new ", * * * * *" = Ok (pattern_of ", * * * * *") /\
  forall fuel, increment fuel (pattern_of ", * * * * *") (new 1640995200000) = None.
Proof.
  split; [vm_compute; reflexivity|]. intros fuel. rewrite increment_eq.
  rewrite cascade_stuck_on_seconds; [reflexivity|]. intros j.
  replace (CronPattern.seconds (pattern_of ", * * * * *"))
    with (JsArray.set (JsArray.set (fill (JsArray.Array 60) 0) None 1) None 1)
    by (vm_compute; reflexivity).
  rewrite !get_set_nan. apply fill_zero_falsy.
Qed.

(** More fuel does not change what the cascade returns. *)
Lemma cascade_more_fuel p fuel : forall self doing self',
  cascade fuel p self doing = Some self' -> cascade (S fuel) p self doing = Some self'.
Proof.
  induction fuel as [|fuel IH]; intros self doing self'; [discriminate|].
  rewrite (cascade_eq p (S fuel)), (cascade_eq p fuel).
  destruct (doing <? 5)%nat; [|trivial].
  destruct (findNext _ _ _ _ _) as [[|] self1]; apply IH.
Qed.

Lemma cascade_any_fuel p n : forall fuel self doing self',
  cascade fuel p self doing = Some self' -> cascade (n + fuel) p self doing = Some self'.
Proof.
  induction n as [|n IH]; intros fuel self doing self' H; [exact H|].
  cbn [Nat.add]. apply cascade_more_fuel, IH, H.
Qed.

(** Once the dates are out of the range of time values, [getDay] is [NaN]
    and the weekday loop goes on for ever, unless the days-of-week array
    has a property ["NaN"]. *)
Lemma weekday_loop_on_invalid_dates p fuel : forall self,
  JsArray.nan_prop (CronPattern.daysOfWeek p) = None ->
  (forall k, 0 <= k -> TimeClip (time_value (add_days self k)) = None) ->
  weekday_loop fuel p self = None.
Proof.
  induction fuel as [|fuel IH]; intros self Hnan Hinvalid; [reflexivity|].
  cbn [weekday_loop]. rewrite getDate_time_value.
  pose proof (Hinvalid 0 ltac:(lia)) as H0. rewrite add_days_0 in H0. rewrite H0.
  cbn [getDay getTime fmap option_fmap option_map JsArray.get]. rewrite Hnan. cbn [JsArray.truthy negb].
  apply (IH (add_days self 1) Hnan). intros k Hk. rewrite add_days_add. apply Hinvalid. lia.
Qed.

(** Why the reference instants stop short of the end of the range: from
    the last valid date, 275760-09-13T00:00:00, [increment] on
    [* * * * * *] does not return. *)
Remark increment_diverges_at_the_last_instant :
  forall fuel, increment fuel (pattern_of "* * * * * *") (new 8640000000000000) = None.
Proof.
  intros fuel. rewrite increment_eq.
  set (self0 := mk 0 _ _ _ _ _ _).
  assert (H36 : cascade 36 (pattern_of "* * * * * *") self0 0
                = Some (mk 0 1 0 0 13 8 275760)) by (vm_compute; reflexivity).
  destruct (cascade fuel (pattern_of "* * * * * *") self0 0) as [self1|] eqn:E; [|reflexivity].
  apply (cascade_any_fuel _ 36) in E. apply (cascade_any_fuel _ fuel) in H36.
  rewrite Nat.add_comm, H36 in E. injection E as <-.
  apply weekday_loop_on_invalid_dates; [vm_compute; reflexivity|].
  intros k Hk. rewrite time_value_add_days.
  replace (time_value (mk 0 1 0 0 13 8 275760)) with 8640000000001000
    by (vm_compute; reflexivity).
  unfold TimeClip, msPerDay. destruct (Z.leb_spec (Z.abs (8640000000001000 + k * 86400000))
                                         8640000000000000); [lia|reflexivity].
Qed.

End Termination.

(** ** C1: the 31st of February *)

Section Feb31.

Import JsDate CronDate.

Local Abbreviation feb31 := (pattern_of "* * * 31 2 *").

Lemma setMilliseconds_0 tv :
  Z.abs tv <= 8640000000000000 ->
  setMilliseconds (JsDate.mk (Some tv)) 0 = JsDate.mk (Some (tv - tv mod 1000)).
Proof.
  intros Hv. unfold setMilliseconds. cbn [getTime].
  replace (MakeDate (Day tv) (MakeTime (HourFromTime tv) (MinFromTime tv) (SecFromTime tv) 0))
    with (tv - tv mod 1000).
  - rewrite TimeClip_in_range; [reflexivity|]. zdiv.
  - unfold MakeDate, MakeTime, Day, HourFromTime, MinFromTime, SecFromTime,
      msPerDay, msPerHour, msPerMinute, msPerSecond. zdiv.
Qed.

Lemma _next_no_options now fuel p prev :
  Cron._next now fuel (Cron.mk p no_options) (Some prev) =
  match increment fuel p (new prev) with
  | Some cronDate => Some (NextRun (getDate cronDate))
  | None => None
  end.
Proof. reflexivity. Qed.

Lemma feb31_new : CronPattern.new "* * * 31 2 *" = Ok feb31.
Proof. vm_compute. reflexivity. Qed.

Lemma feb31_days :
  CronPattern.days feb31 = JsArray.set (fill (JsArray.Array 31) 0) (Some 30) 1.
Proof. vm_compute. reflexivity. Qed.

Lemma feb31_months :
  CronPattern.months feb31 = JsArray.set (fill (JsArray.Array 12) 0) (Some 1) 1.
Proof. vm_compute. reflexivity. Qed.

Lemma feb31_weekdays w :
  0 <= w <= 6 -> JsArray.truthy (JsArray.get (CronPattern.daysOfWeek feb31) (Some w)) = true.
Proof.
  intros Hw.
  assert (w = 0 \/ w = 1 \/ w = 2 \/ w = 3 \/ w = 4 \/ w = 5 \/ w = 6) as Hcases by lia.
  repeat destruct Hcases as [->|Hcases]; try subst w; vm_compute; reflexivity.
Qed.

Lemma feb31_nonempty : sets_nonempty feb31.
Proof.
  intros type Hty. destruct type; try congruence.
  - exists 0. vm_compute. reflexivity.
  - exists 0. vm_compute. reflexivity.
  - exists 0. vm_compute. reflexivity.
  - exists 31. vm_compute. reflexivity.
  - exists 2. vm_compute. reflexivity.
  - exists 0. vm_compute. reflexivity.
Qed.

(** On a pattern that accepts only day 31 and only February, with every
    weekday accepted, [increment] stops on day 31 of month 1 and [next]
    returns the date that the host makes of it. *)
Lemma day_31_of_february_is_reached p now r fuel :
  compiled p -> sets_nonempty p ->
  CronPattern.days p = JsArray.set (fill (JsArray.Array 31) 0) (Some 30) 1 ->
  CronPattern.months p = JsArray.set (fill (JsArray.Array 12) 0) (Some 1) 1 ->
  (forall w, 0 <= w <= 6 ->
             JsArray.truthy (JsArray.get (CronPattern.daysOfWeek p) (Some w)) = true) ->
  reference_instant r -> (36 <= fuel)%nat ->
  exists self' t,
    increment fuel p (new r) = Some self' /\
    days self' = 31 /\ months self' = 1 /\
    getDate self' = JsDate.mk (Some t) /\
    Cron.next now fuel (Cron.mk p no_options) (Some r)
      = Some (NextRun (JsDate.mk (Some (t - t mod 1000)))).
Proof.
  intros Hc Hne Hdays Hmonths Hweek Hr Hfuel.
  destruct (cascade_from_reference p r fuel Hc (nonempty_resettable _ Hne) Hfuel)
    as (self1 & Hcas & Hm & Hin).
  destruct (increment_after_cascade p r fuel self1 0 Hcas Hr Hin) as (j & Hj & Hinc & _);
    [lia|simpl; lia| |].
  { apply Hweek. unfold WeekDay. zdiv. }
  assert (j = 0) as -> by lia. rewrite add_days_0 in Hinc.
  assert (Hvalid : Z.abs (time_value self1) <= 8640000000000000).
  { rewrite <- (add_days_0 self1). apply (time_value_valid r); [assumption|assumption|lia]. }
  exists self1, (time_value self1). split; [exact Hinc|]. split; [|split; [|split]].
  - destruct (Hm 3%nat ltac:(lia)) as [_ Ht].
    cbv [level_target level_offset toDo_at toDo nth fst snd member CronPattern.member] in Ht.
    rewrite Hdays, truthy_set_one, fill_zero_falsy, orb_false_r in Ht. lia.
  - destruct (Hm 4%nat ltac:(lia)) as [_ Ht].
    cbv [level_target level_offset toDo_at toDo nth fst snd member CronPattern.member] in Ht.
    rewrite Hmonths, truthy_set_one, fill_zero_falsy, orb_false_r in Ht. lia.
  - rewrite getDate_time_value, TimeClip_in_range by exact Hvalid. reflexivity.
  - unfold Cron.next. rewrite _next_no_options, Hinc.
    rewrite getDate_time_value, TimeClip_in_range by exact Hvalid.
    cbn [mbind option_bind]. now rewrite setMilliseconds_0.
Qed.

Lemma feb31_constructed (Callback : Type) (now : Z) (Date_parse : string -> option Z)
    (fuel : nat) :
  Cron.new Callback now Date_parse fuel "* * * 31 2 *" Cron.NoOptions None
    = Some (Ok (Cron.VCron (Cron.mk feb31 no_options))).
Proof. vm_compute. reflexivity. Qed.

(** C1, as the code has it: the expression compiles, and from every
    reference instant [increment] stops on the broken-down time "day 31 of
    month 1 (February)"; [next] is never none, it returns the valid date
    that the host makes of those members. *)
Theorem feb31_next_is_an_instant (Callback : Type) (now : Z)
    (Date_parse : string -> option Z) (r : Z) (fuel : nat) :
  reference_instant r ->
  (36 <= fuel)%nat ->
  Cron.new Callback now Date_parse fuel "* * * 31 2 *" Cron.NoOptions None
    = Some (Ok (Cron.VCron (Cron.mk feb31 no_options))) /\
  exists self' t,
    increment fuel feb31 (new r) = Some self' /\
    days self' = 31 /\ months self' = 1 /\
    getDate self' = JsDate.mk (Some t) /\
    Cron.next now fuel (Cron.mk feb31 no_options) (Some r)
      = Some (NextRun (JsDate.mk (Some (t - t mod 1000)))).
Proof.
  intros Hr Hfuel. split; [apply feb31_constructed|].
  exact (day_31_of_february_is_reached feb31 now r fuel (new_compiled _ _ feb31_new)
           feb31_nonempty feb31_days feb31_months feb31_weekdays Hr Hfuel).
Qed.

Lemma feb31_next_is_an_instant_witness :
  reference_instant 1640995200000 /\ (36 <= 36)%nat /\
  Cron.new unit 0 (fun _ => None) 36 "* * * 31 2 *" Cron.NoOptions None
    = Some (Ok (Cron.VCron (Cron.mk feb31 no_options))) /\
  exists self' t,
    increment 36 feb31 (new 1640995200000) = Some self' /\
    days self' = 31 /\ months self' = 1 /\
    getDate self' = JsDate.mk (Some t) /\
    Cron.next 0 36 (Cron.mk feb31 no_options) (Some 1640995200000)
      = Some (NextRun (JsDate.mk (Some (t - t mod 1000)))).
Proof.
  assert (Hr : reference_instant 1640995200000) by (unfold reference_instant; simpl; lia).
  split; [exact Hr|]. split; [lia|].
  apply (feb31_next_is_an_instant unit 0 (fun _ => None) 1640995200000 36 Hr). lia.
Defined.

(** C1, as the specification states it, fails: from 2022-01-01T00:00:00
    [next] returns 2022-03-03T00:00:01, not none. *)
Lemma feb31_next_is_not_none :
  Cron.new unit 0 (fun _ => None) 36 "* * * 31 2 *" Cron.NoOptions None
    = Some (Ok (Cron.VCron (Cron.mk feb31 no_options))) /\
  Cron.next 0 36 (Cron.mk feb31 no_options) (Some 1640995200000)
    = Some (NextRun (JsDate.mk (Some 1646265601000))) /\
  Cron.next 0 36 (Cron.mk feb31 no_options) (Some 1640995200000) <> Some Undefined.
Proof.
  split; [vm_compute; reflexivity|].
  assert (H : Cron.next 0 36 (Cron.mk feb31 no_options) (Some 1640995200000)
              = Some (NextRun (JsDate.mk (Some 1646265601000)))) by (vm_compute; reflexivity).
  split; [exact H|]. rewrite H. discriminate.
Qed.

End Feb31.

(** ** What the character check lets through *)

Section Characters.

Import JsString CronPattern.

Lemma contains_trimStart c s :
  contains c s = true -> is_whitespace c = false -> contains c (trimStart s) = true.
Proof.
  intros Hc Hws. induction s as [|a r IH]; [discriminate|]. cbn [trimStart].
  destruct (is_whitespace a) eqn:Ea; [|exact Hc].
  cbn [contains] in Hc. destruct (Ascii.eqb_spec a c) as [->|Hne]; [congruence|].
  apply IH. exact Hc.
Qed.

Lemma contains_trimEnd c s :
  contains c s = true -> is_whitespace c = false -> contains c (trimEnd s) = true.
Proof.
  intros Hc Hws. induction s as [|a r IH]; [discriminate|]. cbn [trimEnd].
  cbn [contains] in Hc. destruct (Ascii.eqb_spec a c) as [->|Hne].
  - destruct (trimEnd r); [rewrite Hws|]; cbn [contains]; now rewrite Ascii.eqb_refl.
  - cbn [orb] in Hc. specialize (IH Hc). destruct (trimEnd r) as [|b r']; [discriminate|].
    cbn [contains] in *. rewrite IH. apply orb_true_r.
Qed.

Lemma contains_trim c s :
  contains c s = true -> is_whitespace c = false -> contains c (trim s) = true.
Proof.
  intros Hc Hws. unfold trim.
  apply contains_trimEnd; [apply contains_trimStart|]; assumption.
Qed.

Lemma contains_replace_ws_runs c s : forall in_run,
  contains c s = true -> is_whitespace c = false ->
  contains c (replace_ws_runs in_run s) = true.
Proof.
  induction s as [|a r IH]; intros in_run Hc Hws; [discriminate|]. cbn [replace_ws_runs].
  cbn [contains] in Hc. destruct (Ascii.eqb_spec a c) as [->|Hne].
  - rewrite Hws. cbn [contains]. now rewrite Ascii.eqb_refl.
  - cbn [orb] in Hc. destruct (is_whitespace a), in_run; cbn [contains];
      rewrite IH by assumption; auto using orb_true_r.
Qed.

(** A character that is not the separator ends up in one of the parts. *)
Lemma contains_split c sep s :
  contains c s = true -> c <> sep ->
  exists part, In part (split sep s) /\ contains c part = true.
Proof.
  intros Hc Hsep. induction s as [|a r IH]; [discriminate|]. cbn [split].
  cbn [contains] in Hc. destruct (Ascii.eqb_spec a sep) as [->|Hne].
  - destruct (Ascii.eqb_spec sep c) as [->|Hne']; [congruence|].
    destruct (IH Hc) as (part & Hin & Hp). exists part. split; [now right|exact Hp].
  - pose proof (split_nonempty_list sep r) as Hnil.
    destruct (split sep r) as [|p0 ps]; [congruence|].
    destruct (Ascii.eqb_spec a c) as [->|Hne'].
    + exists (String c p0). split; [now left|]. cbn [contains]. now rewrite Ascii.eqb_refl.
    + destruct (IH Hc) as (part & [<-|Hin] & Hp).
      * exists (String a p0). split; [now left|]. cbn [contains]. rewrite Hp. apply orb_true_r.
      * exists part. split; [now right|exact Hp].
Qed.

Lemma reValidCron_test_illegal c part :
  contains c part = true -> legal_char c = false -> reValidCron_test part = true.
Proof.
  intros Hc Hl. induction part as [|a r IH]; [discriminate|]. cbn [reValidCron_test].
  cbn [contains] in Hc. destruct (Ascii.eqb_spec a c) as [->|Hne].
  - now rewrite Hl.
  - rewrite IH by exact Hc. apply orb_true_r.
Qed.

Lemma validate_parts_raise parts : forall i e,
  validate_parts i parts = Raise e -> exists entry part, e = IllegalCharacters entry part.
Proof.
  induction parts as [|p ps IH]; intros i e; cbn [validate_parts]; [discriminate|].
  destruct (reValidCron_test (trim p)); [intros [= <-]; eauto|apply IH].
Qed.

Lemma validate_parts_illegal c parts : forall i part,
  In part parts -> contains c part = true ->
  is_whitespace c = false -> legal_char c = false ->
  exists e, validate_parts i parts = Raise e.
Proof.
  induction parts as [|p ps IH]; intros i part Hin Hc Hws Hl; [destruct Hin|].
  cbn [validate_parts]. destruct (reValidCron_test (trim p)) eqn:E; [unfold raise; eauto|].
  destruct Hin as [->|Hin]; [|now apply (IH _ part)].
  rewrite (reValidCron_test_illegal c) in E; [discriminate| |exact Hl].
  apply contains_trim; assumption.
Qed.

(** A pattern in which a character occurs that is neither white space nor
    one of [/ * 0-9 , -] does not compile. *)
Lemma illegal_character_rejected c s :
  contains c s = true -> is_whitespace c = false -> legal_char c = false ->
  CronPattern.new s = Raise InvalidFormat \/
  exists entry part, CronPattern.new s = Raise (IllegalCharacters entry part).
Proof.
  intros Hc Hws Hl. unfold CronPattern.new, parse. cbn [pattern].
  destruct (negb _); [now left|]. right.
  assert (Hparts : exists part, In part (parts_of s) /\ contains c part = true).
  { unfold parts_of. apply contains_split.
    - apply contains_replace_ws_runs; [apply contains_trim|]; assumption.
    - intros ->. discriminate. }
  destruct Hparts as (part & Hin & Hp).
  destruct (validate_parts_illegal c (parts_of s) 0 part Hin Hp Hws Hl) as [e He].
  rewrite He. destruct (validate_parts_raise _ _ _ He) as (entry & part' & ->).
  exists entry, part'. reflexivity.
Qed.

End Characters.

(** ** C2, C6, C7: what the parser rejects *)

Section Rejections.

Import JsString CronPattern.

(** C2, as the code has it: there is no legacy mode.  A pattern of six
    parts whose day-of-week part is not [*] while its month or its
    day-of-month part is not [*] never compiles: [parse] raises, for this
    combination or, before it, for an illegal character. *)
Theorem day_of_week_with_date_is_rejected s p0 p1 p2 p3 p4 p5 :
  parts_of s = [p0; p1; p2; p3; p4; p5] ->
  p5 <> "*"%string ->
  p4 <> "*"%string \/ p3 <> "*"%string ->
  CronPattern.new s = Raise IncompatibleDayOfWeek \/
  exists entry part, CronPattern.new s = Raise (IllegalCharacters entry part).
Proof.
  intros Hparts H5 H43. unfold CronPattern.new, parse. cbn [pattern]. rewrite Hparts.
  cbn [List.length Nat.eqb negb].
  destruct (validate_parts 0 _) as [[]|e] eqn:Hv.
  - left. cbn [mbind Result_bind part nth].
    apply String.eqb_neq in H5. rewrite H5.
    destruct H43 as [H4|H3].
    + apply String.eqb_neq in H4. rewrite H4. reflexivity.
    + apply String.eqb_neq in H3. rewrite H3. cbn [negb andb orb]. rewrite orb_true_r. reflexivity.
  - right. destruct (validate_parts_raise _ _ _ Hv) as (entry & part' & ->).
    exists entry, part'. reflexivity.
Qed.

Lemma day_of_week_with_date_is_rejected_witness :
  parts_of "0 0 0 1 11 4" = ["0"; "0"; "0"; "1"; "11"; "4"]%string /\
  "4"%string <> "*"%string /\
  ("11"%string <> "*"%string \/ "1"%string <> "*"%string) /\
  (CronPattern.new "0 0 0 1 11 4" = Raise IncompatibleDayOfWeek \/
   exists entry part, CronPattern.new "0 0 0 1 11 4" = Raise (IllegalCharacters entry part)).
Proof.
  assert (H5 : "4"%string <> "*"%string) by discriminate.
  assert (H4 : "11"%string <> "*"%string \/ "1"%string <> "*"%string) by (left; discriminate).
  split; [reflexivity|]. split; [exact H5|]. split; [exact H4|].
  apply (day_of_week_with_date_is_rejected "0 0 0 1 11 4" "0" "0" "0" "1" "11" "4"
           eq_refl H5 H4).
Defined.

(** C2, as the specification states it, fails: with the default options
    the expression [0 0 0 1 11 4] (1 November and Thursday) is refused. *)
Lemma legacy_combination_does_not_compile :
  Cron.new unit 0 (fun _ => None) 36 "0 0 0 1 11 4" Cron.NoOptions None
  = Some (Raise IncompatibleDayOfWeek).
Proof. vm_compute. reflexivity. Qed.

(** C6, as the code has it: no alias is known.  A pattern in which [@]
    occurs, an alias name or any other, never compiles: it has not six
    parts, or one of them holds an illegal character. *)
Theorem at_sign_is_a_compile_error s :
  contains "@" s = true ->
  CronPattern.new s = Raise InvalidFormat \/
  exists entry part, CronPattern.new s = Raise (IllegalCharacters entry part).
Proof. intros Hc. now apply (illegal_character_rejected "@"). Qed.

Lemma at_sign_is_a_compile_error_witness :
  contains "@" "@yearly" = true /\
  (CronPattern.new "@yearly" = Raise InvalidFormat \/
   exists entry part, CronPattern.new "@yearly" = Raise (IllegalCharacters entry part)).
Proof. split; [reflexivity|]. apply (at_sign_is_a_compile_error "@yearly" eq_refl). Defined.

(** C6, as the specification states it, fails: none of the six aliases
    compiles, while each documented expansion does. *)
Lemma aliases_do_not_compile :
  (CronPattern.new "@yearly" = Raise InvalidFormat /\
   CronPattern.new "@annually" = Raise InvalidFormat /\
   CronPattern.new "@monthly" = Raise InvalidFormat /\
   CronPattern.new "@weekly" = Raise InvalidFormat /\
   CronPattern.new "@daily" = Raise InvalidFormat /\
   CronPattern.new "@hourly" = Raise InvalidFormat) /\
  (CronPattern.new "0 0 0 1 1 *" = Ok (pattern_of "0 0 0 1 1 *") /\
   CronPattern.new "0 0 0 1 * *" = Ok (pattern_of "0 0 0 1 * *") /\
   CronPattern.new "0 0 0 * * 0" = Ok (pattern_of "0 0 0 * * 0") /\
   CronPattern.new "0 0 0 * * *" = Ok (pattern_of "0 0 0 * * *") /\
   CronPattern.new "0 0 * * * *" = Ok (pattern_of "0 0 * * * *")).
Proof. repeat apply conj; vm_compute; reflexivity. Qed.

(** C7, as the code has it: the letter [L] is not an atom of any field.
    A pattern in which [L] occurs never compiles: it has not six parts, or
    the part that holds the [L] fails the character check. *)
Theorem last_day_atom_is_a_compile_error s :
  contains "L" s = true ->
  CronPattern.new s = Raise InvalidFormat \/
  exists entry part, CronPattern.new s = Raise (IllegalCharacters entry part).
Proof. intros Hc. now apply (illegal_character_rejected "L"). Qed.

Lemma last_day_atom_is_a_compile_error_witness :
  contains "L" "0 0 0 L * *" = true /\
  (CronPattern.new "0 0 0 L * *" = Raise InvalidFormat \/
   exists entry part, CronPattern.new "0 0 0 L * *" = Raise (IllegalCharacters entry part)).
Proof. split; [reflexivity|]. apply (last_day_atom_is_a_compile_error "0 0 0 L * *" eq_refl). Defined.

(** C7, as the specification states it, fails: [0 0 0 L * *] is refused
    for the character [L] in its fourth part, so it has no next instant. *)
Lemma last_day_pattern_does_not_compile :
  Cron.new unit 0 (fun _ => None) 36 "0 0 0 L * *" Cron.NoOptions None
  = Some (Raise (IllegalCharacters 4 "L")).
Proof. vm_compute. reflexivity. Qed.

End Rejections.

(** ** C3, C5, C8: the index written by ranges and steppings *)

Section Offsets.

(** C3 at [* * * 5-10 * *] and [* * * * 3-5 *]: the range loop adds
    [valueIndexOffset] to an index that already holds it, so the days
    accepted are 4 to 9 and the months 2 to 4; on a field without offset,
    [5-10 * * * * *], the seconds accepted are 5 to 10. *)
Theorem range_of_days_is_shifted_by_one :
  CronPattern.new "* * * 5-10 * *" = Ok (pattern_of "* * * 5-10 * *") /\
  accepted_values (pattern_of "* * * 5-10 * *") Days 1 31 = [4; 5; 6; 7; 8; 9] /\
  CronPattern.new "* * * * 3-5 *" = Ok (pattern_of "* * * * 3-5 *") /\
  accepted_values (pattern_of "* * * * 3-5 *") Months 1 12 = [2; 3; 4] /\
  CronPattern.new "5-10 * * * * *" = Ok (pattern_of "5-10 * * * * *") /\
  accepted_values (pattern_of "5-10 * * * * *") Seconds 0 59 = [5; 6; 7; 8; 9; 10].
Proof. repeat apply conj; vm_compute; reflexivity. Qed.

(** C5 at [* * * */31 * *]: the pattern compiles, the stepping writes the
    property [-1] of the days array and no element, and no day is
    accepted. *)
Theorem stepping_31_leaves_days_empty :
  CronPattern.new "* * * */31 * *" = Ok (pattern_of "* * * */31 * *") /\
  JsArray.get (CronPattern.days (pattern_of "* * * */31 * *")) (Some (-1)) = Some 1 /\
  forall v, CronPattern.accepts (pattern_of "* * * */31 * *") Days v = false.
Proof.
  split; [vm_compute; reflexivity|]. split; [vm_compute; reflexivity|]. intros v.
  unfold CronPattern.accepts. cbv zeta. cbn [CronPattern.member CronPattern.valueIndexOffset].
  replace (CronPattern.days (pattern_of "* * * */31 * *"))
    with (JsArray.set (fill (JsArray.Array 31) 0) (Some (-1)) 1) by (vm_compute; reflexivity).
  rewrite truthy_set_one, fill_zero_falsy, orb_false_r.
  destruct (Z.leb_spec 0 (v + -1)), (Z.eqb_spec (v + -1) (-1)); cbn [andb];
    rewrite ?andb_false_r; try reflexivity; lia.
Qed.

(** C8 at [* * * */5 * *] from 2022-01-31T12:00:00: the reset of the days
    row starts at index -1, finds the property that the stepping wrote
    there and sets the day to 0; [next] returns 2022-01-31T00:00:00,
    twelve hours before the reference instant. *)
Theorem next_before_reference_on_day_stepping :
  CronPattern.new "* * * */5 * *" = Ok (pattern_of "* * * */5 * *") /\
  CronDate.increment 36 (pattern_of "* * * */5 * *") (CronDate.new 1643630400000)
    = Some (CronDate.mk 0 0 0 0 0 1 2022) /\
  Cron.next 0 36 (Cron.mk (pattern_of "* * * */5 * *") no_options) (Some 1643630400000)
    = Some (NextRun (JsDate.mk (Some 1643587200000))) /\
  1643587200000 < 1643630400000.
Proof. repeat apply conj; vm_compute; reflexivity. Qed.

End Offsets.

(** ** C9, C10: the options and the constructor *)

Section Construction.

Variable Callback : Type.
Variable now : Z.
Variable Date_parse : string -> option Z.

(** [validateOpts] replaces a truthy [startAt] by the Date one
    millisecond before the instant it stands for. *)
Lemma validateOpts_startAt o o' a sa :
  startAt o = Some a ->
  Cron.truthy_date (Some a) = true ->
  given_instant Date_parse a = Some sa ->
  Cron.validateOpts Date_parse o = Ok o' ->
  startAt o' = Some (ADate (JsDate.mk (Some (sa - 1)))).
Proof.
  intros Ha Htruthy Hgiven. unfold Cron.validateOpts. rewrite Ha, Htruthy.
  assert (Hd : match a with
               | ADate d => JsDate.of_number ((fun v => v - 1) <$> JsDate.getTime d)
               | AString s => JsDate.of_number ((fun v => v - 1) <$> Date_parse s)
               end = JsDate.mk (JsDate.TimeClip (sa - 1))).
  { destruct a as [d|str]; cbn [given_instant] in Hgiven; rewrite Hgiven; reflexivity. }
  rewrite Hd. unfold JsDate.isNaN. cbn [JsDate.getTime].
  destruct (JsDate.TimeClip (sa - 1)) as [clipped|] eqn:Hclip; [|discriminate].
  assert (clipped = sa - 1) as ->.
  { unfold JsDate.TimeClip in Hclip. destruct (_ <=? _); congruence. }
  cbn [mbind Result_bind startAt stopAt]. unfold raise.
  repeat case_match; intros [= <-]; reflexivity.
Qed.

(** A reference instant at or before the stored [startAt] is replaced by
    it. *)
Lemma _next_clamped fuel c s from :
  startAt (Cron.opts c) = Some (ADate (JsDate.mk (Some s))) ->
  from <= s ->
  Cron._next now fuel c (Some from) = Cron._next now fuel c (Some s).
Proof.
  intros Hs Hle. unfold Cron._next. rewrite Hs.
  cbn [default from_option id Cron.date_value JsDate.getTime].
  replace (if from <? s then s else from) with s
    by (destruct (Z.ltb_spec from s); lia).
  rewrite Z.ltb_irrefl. reflexivity.
Qed.

(** Without a function to run the options are validated once: on the
    scheduler that [Cron(pattern, options)] returns a truthy [startAt]
    option, a Date or a string that [Date.parse] reads, is stored as the
    Date one millisecond before the instant it stands for, and [next]
    from any instant before [startAt] is [next] from the stored one; so
    [startAt] itself can be returned, as it is for [* * * * * *] with
    [startAt] 2022-01-01T00:00:00 from the epoch. *)
Theorem startAt_is_stored_one_millisecond_earlier :
  (forall fuel pat o a sa c,
     startAt o = Some a ->
     Cron.truthy_date (Some a) = true ->
     given_instant Date_parse a = Some sa ->
     Cron.new Callback now Date_parse fuel pat (Cron.Options o) None
       = Some (Ok (Cron.VCron c)) ->
     startAt (Cron.opts c) = Some (ADate (JsDate.mk (Some (sa - 1)))) /\
     forall from, from < sa ->
       Cron.next now fuel c (Some from) = Cron.next now fuel c (Some (sa - 1))) /\
  (exists c,
     Cron.new Callback now Date_parse 36 "* * * * * *"
       (Cron.Options (startAt_only (ADate (JsDate.mk (Some 1640995200000))))) None
       = Some (Ok (Cron.VCron c)) /\
     Cron.next now 36 c (Some 0) = Some (NextRun (JsDate.mk (Some 1640995200000)))).
Proof.
  split.
  - intros fuel pat o a sa c Ha Htruthy Hgiven. unfold Cron.new, Cron.body.
    destruct (CronPattern.new pat) as [p|e]; [|discriminate].
    destruct (Cron.validateOpts Date_parse o) as [o'|e] eqn:Hv; [|discriminate].
    cbn [mbind option_bind]. intros [= <-]. cbn [Cron.opts].
    pose proof (validateOpts_startAt o o' a sa Ha Htruthy Hgiven Hv) as Hstored.
    split; [exact Hstored|]. intros from Hfrom. unfold Cron.next.
    rewrite (_next_clamped fuel (Cron.mk p o') (sa - 1) from Hstored) by lia. reflexivity.
  - eexists. split; [vm_compute; reflexivity|]. vm_compute. reflexivity.
Qed.

End Construction.

Lemma startAt_is_stored_one_millisecond_earlier_witness :
  startAt (startAt_only (ADate (JsDate.mk (Some 1640995200000))))
    = Some (ADate (JsDate.mk (Some 1640995200000))) /\
  Cron.truthy_date (Some (ADate (JsDate.mk (Some 1640995200000)))) = true /\
  given_instant (fun _ => None) (ADate (JsDate.mk (Some 1640995200000))) = Some 1640995200000 /\
  Cron.new unit 0 (fun _ => None) 36 "* * * * * *"
    (Cron.Options (startAt_only (ADate (JsDate.mk (Some 1640995200000))))) None
    = Some (Ok (Cron.VCron
                  (Cron.mk (pattern_of "* * * * * *")
                     (startAt_only (ADate (JsDate.mk (Some 1640995199999))))))) /\
  startAt (Cron.opts (Cron.mk (pattern_of "* * * * * *")
                        (startAt_only (ADate (JsDate.mk (Some 1640995199999))))))
    = Some (ADate (JsDate.mk (Some (1640995200000 - 1)))) /\
  forall from, from < 1640995200000 ->
    Cron.next 0 36 (Cron.mk (pattern_of "* * * * * *")
                      (startAt_only (ADate (JsDate.mk (Some 1640995199999))))) (Some from)
    = Cron.next 0 36 (Cron.mk (pattern_of "* * * * * *")
                        (startAt_only (ADate (JsDate.mk (Some 1640995199999)))))
        (Some (1640995200000 - 1)).
Proof.
  assert (Hnew : Cron.new unit 0 (fun _ => None) 36 "* * * * * *"
            (Cron.Options (startAt_only (ADate (JsDate.mk (Some 1640995200000))))) None
          = Some (Ok (Cron.VCron
                        (Cron.mk (pattern_of "* * * * * *")
                           (startAt_only (ADate (JsDate.mk (Some 1640995199999))))))))
    by (vm_compute; reflexivity).
  split; [reflexivity|]. split; [reflexivity|]. split; [reflexivity|]. split; [exact Hnew|].
  exact (proj1 (startAt_is_stored_one_millisecond_earlier unit 0 (fun _ => None))
           36%nat "* * * * * *"%string
           (startAt_only (ADate (JsDate.mk (Some 1640995200000))))
           (ADate (JsDate.mk (Some 1640995200000))) 1640995200000 _
           eq_refl eq_refl eq_refl Hnew).
Defined.

(** The shorthand [Cron(pattern, options, fn)] hands the options object
    that the constructor has just validated on to [schedule], which
    validates it once more: in the job that it returns [startAt] lies two
    milliseconds before the instant given. *)
Remark shorthand_validates_startAt_twice :
  exists job,
    Cron.new unit 0 (fun _ => None) 36 "* * * * * *"
      (Cron.Options (startAt_only (ADate (JsDate.mk (Some 1640995200000))))) (Some tt)
      = Some (Ok (Cron.VJob job)) /\
    startAt (Cron.job_opts job) = Some (ADate (JsDate.mk (Some 1640995199998))).
Proof. eexists. split; vm_compute; reflexivity. Qed.

(** C9 at [Cron("* * * * * *", {startAt: 2022-01-01T00:00:00.001}, fn)],
    called at 2021-12-31T23:58:20: the constructor validates the options
    object and [schedule] validates the same object again (lines 468 and
    620), so [startAt] is stored two milliseconds before the instant
    given, not one; the timer is armed for 2022-01-01T00:00:00.000, a
    run one millisecond before [startAt].  Without a function to run the
    options are validated once and [next] gives 2022-01-01T00:00:01.  The
    same happens to an instance whose [schedule] is called with its own
    options object: its [next] then returns an instant before
    [startAt]. *)
Theorem startAt_is_moved_again_when_scheduled :
  (exists c,
     Cron.new unit 1640995100000 (fun _ => None) 36 "* * * * * *"
       (Cron.Options (startAt_only (ADate (JsDate.mk (Some 1640995200001))))) None
       = Some (Ok (Cron.VCron c)) /\
     startAt (Cron.opts c) = Some (ADate (JsDate.mk (Some (1640995200001 - 1)))) /\
     Cron.next 1640995100000 36 c (Some 0) = Some (NextRun (JsDate.mk (Some 1640995201000))) /\
     exists c' job,
       Cron.schedule unit 1640995100000 (fun _ => None) 36 c (Cron.Options (Cron.opts c))
         (Some tt) = Some (Ok (c', Some job)) /\
       startAt (Cron.opts c') = Some (ADate (JsDate.mk (Some (1640995200001 - 2)))) /\
       Cron.next 1640995100000 36 c' (Some 0)
         = Some (NextRun (JsDate.mk (Some 1640995200000)))) /\
  (exists job,
     Cron.new unit 1640995100000 (fun _ => None) 36 "* * * * * *"
       (Cron.Options (startAt_only (ADate (JsDate.mk (Some 1640995200001))))) (Some tt)
       = Some (Ok (Cron.VJob job)) /\
     startAt (Cron.job_opts job) = Some (ADate (JsDate.mk (Some (1640995200001 - 2)))) /\
     currentTimeout (Cron.job_opts job) = Some (mkTimer (Some 100000))) /\
  1640995100000 + 100000 < 1640995200001 /\
  1640995200000 < 1640995200001.
Proof.
  split; [|split; [|split; reflexivity]].
  - eexists. split; [vm_compute; reflexivity|].
    split; [vm_compute; reflexivity|]. split; [vm_compute; reflexivity|].
    eexists. eexists. split; [vm_compute; reflexivity|].
    split; vm_compute; reflexivity.
  - eexists. split; [vm_compute; reflexivity|]. split; vm_compute; reflexivity.
Qed.

Section CallWithoutNew.

Variable Callback : Type.
Variable now : Z.
Variable Date_parse : string -> option Z.

(** C10: [Cron(...)] called with a [this] that is no Cron instance, which
    is what a call without [new] has, evaluates to what [new Cron(...)]
    evaluates to on the same arguments: the same instance (pattern and
    options), the same job or the same error; in particular it is never
    [undefined], even when the body returns what [schedule] returned. *)
Theorem call_without_new_is_new fuel pattern options fn :
  Cron.call Callback now Date_parse Cron.ThisUndefined fuel pattern options fn
    = Cron.new Callback now Date_parse fuel pattern options fn /\
  Cron.call Callback now Date_parse Cron.ThisGlobal fuel pattern options fn
    = Cron.new Callback now Date_parse fuel pattern options fn /\
  Cron.call Callback now Date_parse Cron.ThisUndefined fuel pattern options fn
    <> Some (Ok Cron.VUndefined).
Proof.
  split; [reflexivity|]. split; [reflexivity|].
  cbn [Cron.call]. unfold Cron.new.
  destruct (Cron.body Callback now Date_parse fuel pattern options fn) as [[[self ret]|e]|];
    cbn [mbind option_bind]; [destruct ret| |]; discriminate.
Qed.

End CallWithoutNew.

(** * Further properties of the parser *)

Section ParserFacts.

Import JsString CronPattern.

(** What a successful [parse] has done, field by field. *)
Lemma new_fields s p :
  CronPattern.new s = Ok p ->
  let parts := parts_of s in
  List.length parts = 6%nat /\
  partToArray (fill (JsArray.Array 60) 0) (part parts 0) 0 = Ok (seconds p) /\
  partToArray (fill (JsArray.Array 60) 0) (part parts 1) 0 = Ok (minutes p) /\
  partToArray (fill (JsArray.Array 24) 0) (part parts 2) 0 = Ok (hours p) /\
  partToArray (fill (JsArray.Array 31) 0) (part parts 3) (-1) = Ok (days p) /\
  partToArray (fill (JsArray.Array 12) 0) (part parts 4) (-1) = Ok (months p) /\
  exists dow,
    partToArray (fill (JsArray.Array 8) 0) (part parts 5) 0 = Ok dow /\
    daysOfWeek p = (if JsArray.truthy (JsArray.get dow (Some 7))
                    then JsArray.set dow (Some 0) 1 else dow).
Proof.
  unfold CronPattern.new, parse, raise. cbn [pattern seconds minutes hours days months daysOfWeek].
  cbv zeta. destruct (Nat.eqb_spec (List.length (parts_of s)) 6) as [Hlen|]; [|discriminate].
  cbn [negb]. intros H. apply bind_Ok in H as (_ & _ & H).
  destruct (_ && _); [discriminate|].
  apply bind_Ok in H as (a0 & E0 & H). apply bind_Ok in H as (a1 & E1 & H).
  apply bind_Ok in H as (a2 & E2 & H). apply bind_Ok in H as (a3 & E3 & H).
  apply bind_Ok in H as (a4 & E4 & H). apply bind_Ok in H as (a5 & E5 & H).
  injection H as <-. cbn [seconds minutes hours days months daysOfWeek].
  repeat (split; [assumption|]). exists a5. split; [assumption|reflexivity].
Qed.

Lemma partToArray_wildcard arr off : partToArray arr "*" off = Ok (fill arr 1).
Proof. reflexivity. Qed.

Lemma fill_one_truthy n j :
  0 <= j < n -> JsArray.truthy (JsArray.get (fill (fill (JsArray.Array n) 0) 1) (Some j)) = true.
Proof.
  intros Hj. rewrite fill_get; [reflexivity|]. rewrite fill_length. exact Hj.
Qed.

End ParserFacts.

(** * Further properties of the parser, part by part *)

Section Atoms.

Import JsString CronPattern.

Lemma contains_append c a b :
  contains c (a ++ b)%string = contains c a || contains c b.
Proof.
  induction a as [|x a IH]; [reflexivity|]. simpl.
  rewrite IH. apply orb_assoc.
Qed.

Lemma split_append sep a b :
  contains sep a = false ->
  split sep (a ++ String sep b)%string = a :: split sep b.
Proof.
  induction a as [|x a IH]; simpl; intros H.
  - now rewrite Ascii.eqb_refl.
  - apply orb_false_elim in H as [Hx Ha]. rewrite Hx, (IH Ha). reflexivity.
Qed.

Lemma not_wildcard c conf : contains c conf = true -> c <> "*"%char -> String.eqb conf "*" = false.
Proof.
  intros Hc Hne. apply String.eqb_neq. intros ->. cbn [contains] in Hc.
  rewrite orb_false_r in Hc. apply Ascii.eqb_eq in Hc. congruence.
Qed.

(** A plain part goes to the number branch. *)
Lemma partToArray_plain arr conf off :
  plain conf ->
  partToArray arr conf off =
  match (fun n => n + off) <$> parseInt conf with
  | Some k =>
      if (k <? 0) || (k >=? JsArray.length arr) then Raise (ValueOutOfRange conf)
      else Ok (JsArray.set arr (Some k) 1)
  | None => Ok (JsArray.set arr None 1)
  end.
Proof.
  intros (Hcomma & Hminus & Hslash & Hstar). unfold partToArray, partToArray_entry, raise.
  apply String.eqb_neq in Hstar. rewrite Hstar. cbv zeta.
  rewrite (split_without_separator _ _ Hcomma). cbn [List.length Nat.ltb Nat.leb].
  rewrite Hminus, Hslash. destruct (parseInt conf); reflexivity.
Qed.

(** A range part [s0-s1] goes to the range branch. *)
Lemma partToArray_range arr s0 s1 off :
  contains "," s0 = false -> contains "," s1 = false ->
  contains "-" s0 = false -> contains "-" s1 = false ->
  partToArray arr (s0 ++ String "-" s1) off =
  match (fun n => n + off) <$> parseInt s0, (fun n => n + off) <$> parseInt s1 with
  | None, _ => Raise IllegalLowerRange
  | Some _, None => Raise IllegalUpperRange
  | Some lower, Some upper =>
      if (lower <? 0) || (upper >=? JsArray.length arr)
      then Raise (RangeValueOutOfRange (s0 ++ String "-" s1))
      else if lower >? upper then Raise (FromLargerThanTo (s0 ++ String "-" s1))
      else Ok (range_loop (Z.to_nat (upper - lower + 1)) lower upper off arr)
  end.
Proof.
  intros Hc0 Hc1 Hm0 Hm1. unfold partToArray, partToArray_entry, raise.
  assert (Hminus : contains "-" (s0 ++ String "-" s1) = true).
  { rewrite contains_append. cbn [contains]. rewrite Ascii.eqb_refl. apply orb_true_r. }
  rewrite (not_wildcard "-" _ Hminus) by discriminate. cbv zeta.
  rewrite split_without_separator
    by (rewrite contains_append; cbn [contains]; rewrite Hc0, Hc1; reflexivity).
  cbn [List.length Nat.ltb Nat.leb]. rewrite Hminus, (split_append _ _ _ Hm0).
  rewrite (split_without_separator _ _ Hm1). reflexivity.
Qed.

(** A stepping part [s0/s1] goes to the stepping branch. *)
Lemma partToArray_stepping arr s0 s1 off :
  contains "," s0 = false -> contains "," s1 = false ->
  contains "-" s0 = false -> contains "-" s1 = false ->
  contains "/" s0 = false -> contains "/" s1 = false ->
  partToArray arr (s0 ++ String "/" s1) off =
  if negb (String.eqb s0 "*") then Raise (SteppingLeftPart (s0 ++ String "/" s1))
  else match parseInt s1 with
       | None => Raise IllegalSteppingNaN
       | Some steps =>
           if steps =? 0 then Raise IllegalSteppingZero
           else if steps >? JsArray.length arr
           then Raise (SteppingTooLarge (JsArray.length arr))
           else Ok (step_loop (Z.to_nat (JsArray.length arr)) 0 steps off arr)
       end.
Proof.
  intros Hc0 Hc1 Hm0 Hm1 Hs0 Hs1. unfold partToArray, partToArray_entry, raise.
  assert (Hslash : contains "/" (s0 ++ String "/" s1) = true).
  { rewrite contains_append. cbn [contains]. rewrite Ascii.eqb_refl. apply orb_true_r. }
  rewrite (not_wildcard "/" _ Hslash) by discriminate. cbv zeta.
  rewrite split_without_separator
    by (rewrite contains_append; cbn [contains]; rewrite Hc0, Hc1; reflexivity).
  cbn [List.length Nat.ltb Nat.leb].
  replace (contains "-" (s0 ++ String "/" s1)) with false
    by (rewrite contains_append; cbn [contains]; rewrite Hm0, Hm1; reflexivity).
  rewrite Hslash, (split_append _ _ _ Hs0), (split_without_separator _ _ Hs1). reflexivity.
Qed.

(** The range loop writes the indices from [i + offset] to
    [upper + offset]. *)
Lemma range_loop_spec n : forall i upper off arr j,
  n = Z.to_nat (upper - i + 1) ->
  JsArray.truthy (JsArray.get (range_loop n i upper off arr) (Some j)) =
  ((i + off <=? j) && (j <=? upper + off)) || JsArray.truthy (JsArray.get arr (Some j)).
Proof.
  induction n as [|n IH]; intros i upper off arr j Hn; cbn [range_loop].
  - zbool.
  - destruct (Z.leb_spec i upper); [|lia].
    rewrite IH by lia. rewrite truthy_set_one.
    destruct (JsArray.truthy (JsArray.get arr (Some j))); zbool.
Qed.

(** The stepping loop writes [i + offset], [i + steps + offset], ... as
    long as the multiple is below the length. *)
Lemma step_loop_spec n : forall i steps off arr j,
  1 <= steps -> off <= 0 ->
  JsArray.truthy (JsArray.get (step_loop n i steps off arr) (Some j)) = true <->
  (exists k : nat, (k < n)%nat /\ i + Z.of_nat k * steps < JsArray.length arr /\
                   j = i + Z.of_nat k * steps + off) \/
  JsArray.truthy (JsArray.get arr (Some j)) = true.
Proof.
  induction n as [|n IH]; intros i steps off arr j Hs Hoff; cbn [step_loop].
  - split; [now right|]. intros [(k & Hk & _)|H]; [lia|exact H].
  - destruct (Z.ltb_spec i (JsArray.length arr)) as [Hlt|Hge].
    + rewrite IH by assumption. rewrite length_set_below by lia.
      rewrite truthy_set_one. split.
      * intros [(k & Hk & Hlen & Hj)|H].
        -- left. exists (S k). split; [lia|]. split; lia.
        -- apply orb_prop in H as [H|H]; [|now right].
           left. exists 0%nat. apply Z.eqb_eq in H. split; [lia|]. split; lia.
      * intros [(k & Hk & Hlen & Hj)|H].
        -- destruct k as [|k].
           ++ right. apply orb_true_iff. left. apply Z.eqb_eq. lia.
           ++ left. exists k. split; [lia|]. split; lia.
        -- right. rewrite H. apply orb_true_r.
    + split; [now right|]. intros [(k & Hk & Hlen & _)|H]; [|exact H].
      assert (0 <= Z.of_nat k * steps) by (apply Z.mul_nonneg_nonneg; lia). lia.
Qed.

End Atoms.

Section Fields.

Import JsString CronPattern.

Lemma Ok_inj {A} (a b : A) : Ok a = Ok b -> a = b.
Proof. now intros [= ->]. Qed.

(** The array of a field of a compiled pattern is what [partToArray] made
    of the field's part, with the Sunday alias added for days of week. *)
Lemma new_member s p type :
  CronPattern.new s = Ok p -> type <> Years ->
  exists arr,
    partToArray (fill (JsArray.Array (field_length type)) 0)
      (part (parts_of s) (field_part type)) (valueIndexOffset type) = Ok arr /\
    JsArray.length (member p type) = field_length type /\
    forall j, JsArray.truthy (JsArray.get (member p type) (Some j)) =
              JsArray.truthy (JsArray.get arr (Some j))
              || match type with
                 | DaysOfWeek => (j =? 0) && JsArray.truthy (JsArray.get arr (Some 7))
                 | _ => false
                 end.
Proof.
  intros Hnew Hty. pose proof (new_compiled s p Hnew) as [L0 L1 L2 L3 L4 L5 _].
  destruct (new_fields s p Hnew) as (_ & E0 & E1 & E2 & E3 & E4 & dow & E5 & Edow).
  destruct type; try congruence; cbn [field_length field_part valueIndexOffset member].
  - exists (seconds p). split; [exact E0|]. split; [exact L0|]. intros j. now rewrite orb_false_r.
  - exists (minutes p). split; [exact E1|]. split; [exact L1|]. intros j. now rewrite orb_false_r.
  - exists (hours p). split; [exact E2|]. split; [exact L2|]. intros j. now rewrite orb_false_r.
  - exists (days p). split; [exact E3|]. split; [exact L3|]. intros j. now rewrite orb_false_r.
  - exists (months p). split; [exact E4|]. split; [exact L4|]. intros j. now rewrite orb_false_r.
  - exists dow. split; [exact E5|]. split; [exact L5|]. intros j. rewrite Edow.
    destruct (JsArray.truthy (JsArray.get dow (Some 7))) eqn:E7.
    + rewrite truthy_set_one. rewrite andb_true_r. apply orb_comm.
    + now rewrite andb_false_r, orb_false_r.
Qed.

Lemma accepts_eq p type v :
  CronPattern.accepts p type v =
  (0 <=? v + valueIndexOffset type) && (v + valueIndexOffset type <? JsArray.length (member p type))
  && JsArray.truthy (JsArray.get (member p type) (Some (v + valueIndexOffset type))).
Proof. reflexivity. Qed.

Lemma field_length_filled type :
  JsArray.length (fill (JsArray.Array (field_length type)) 0) = field_length type.
Proof. now rewrite fill_length. Qed.

(** X1. A part that is [*] makes its field accept every value of its
    domain: seconds and minutes 0 to 59, hours 0 to 23, days 1 to 31,
    months 1 to 12, days of week 0 to 7. *)
Theorem wildcard_accepts_every_value s p type v :
  CronPattern.new s = Ok p -> type <> Years ->
  part (parts_of s) (field_part type) = "*"%string ->
  in_domain type v ->
  CronPattern.accepts p type v = true.
Proof.
  intros Hnew Hty Hpart Hv. destruct (new_member s p type Hnew Hty) as (arr & Harr & Hlen & Hget).
  rewrite Hpart, partToArray_wildcard in Harr. apply Ok_inj in Harr. subst arr.
  rewrite accepts_eq, Hlen, Hget. unfold in_domain in Hv.
  rewrite fill_get by (rewrite field_length_filled; exact Hv).
  cbn [JsArray.truthy]. zbool.
Qed.

Lemma wildcard_accepts_every_value_witness :
  CronPattern.new "0 0 12 * * *" = Ok (pattern_of "0 0 12 * * *") /\
  Days <> Years /\
  part (parts_of "0 0 12 * * *") (field_part Days) = "*"%string /\
  in_domain Days 31 /\
  CronPattern.accepts (pattern_of "0 0 12 * * *") Days 31 = true.
Proof.
  assert (Hnew : CronPattern.new "0 0 12 * * *" = Ok (pattern_of "0 0 12 * * *"))
    by (vm_compute; reflexivity).
  assert (Hty : Days <> Years) by discriminate.
  assert (Hv : in_domain Days 31) by (unfold in_domain; simpl; lia).
  split; [exact Hnew|]. split; [exact Hty|]. split; [reflexivity|]. split; [exact Hv|].
  exact (wildcard_accepts_every_value _ _ Days 31 Hnew Hty eq_refl Hv).
Defined.

(** X2. A part that is a plain number [n] makes its field accept [n];
    it accepts nothing else, except in the day-of-week field, where the
    part 7 accepts 0 (Sunday) as well as 7. *)
Theorem number_part_accepts_that_value s p type n v :
  CronPattern.new s = Ok p -> type <> Years ->
  plain (part (parts_of s) (field_part type)) ->
  parseInt (part (parts_of s) (field_part type)) = Some n ->
  CronPattern.accepts p type v =
  (v =? n) || match type with
              | DaysOfWeek => (n =? 7) && (v =? 0)
              | _ => false
              end.
Proof.
  intros Hnew Hty Hplain Hn. destruct (new_member s p type Hnew Hty) as (arr & Harr & Hlen & Hget).
  rewrite (partToArray_plain _ _ _ Hplain), Hn in Harr. cbn [fmap option_fmap option_map] in Harr.
  rewrite field_length_filled in Harr.
  destruct ((n + valueIndexOffset type <? 0) || (n + valueIndexOffset type >=? field_length type))
    eqn:Hrange; [discriminate|].
  apply Ok_inj in Harr. subst arr. apply orb_false_elim in Hrange as [Hlo Hhi].
  rewrite Z.geb_leb in Hhi. apply Z.ltb_ge in Hlo. apply Z.leb_gt in Hhi.
  rewrite accepts_eq, Hlen, Hget, !truthy_set_one, !fill_zero_falsy, !orb_false_r.
  destruct type; try congruence; cbn [valueIndexOffset field_length] in *; zbool.
Qed.

Lemma number_part_accepts_that_value_witness :
  CronPattern.new "0 30 9 15 6 *" = Ok (pattern_of "0 30 9 15 6 *") /\
  Months <> Years /\
  plain (part (parts_of "0 30 9 15 6 *") (field_part Months)) /\
  parseInt (part (parts_of "0 30 9 15 6 *") (field_part Months)) = Some 6 /\
  CronPattern.accepts (pattern_of "0 30 9 15 6 *") Months 6 =
  (6 =? 6) || false.
Proof.
  assert (Hnew : CronPattern.new "0 30 9 15 6 *" = Ok (pattern_of "0 30 9 15 6 *"))
    by (vm_compute; reflexivity).
  assert (Hty : Months <> Years) by discriminate.
  assert (Hplain : plain (part (parts_of "0 30 9 15 6 *") (field_part Months)))
    by (repeat apply conj; try reflexivity; discriminate).
  split; [exact Hnew|]. split; [exact Hty|]. split; [exact Hplain|]. split; [reflexivity|].
  exact (number_part_accepts_that_value _ _ Months 6 6 Hnew Hty Hplain eq_refl).
Defined.

(** X3. A plain number compiles exactly when it is a value of the domain:
    with the offset added it must be an index of the array. *)
Theorem number_compiles_iff_in_range arr conf off n :
  plain conf -> parseInt conf = Some n ->
  (exists arr', partToArray arr conf off = Ok arr') <-> 0 <= n + off < JsArray.length arr.
Proof.
  intros Hplain Hn. rewrite (partToArray_plain _ _ _ Hplain), Hn.
  cbn [fmap option_fmap option_map].
  destruct (Z.ltb_spec (n + off) 0), (Z.leb_spec (JsArray.length arr) (n + off));
    rewrite Z.geb_leb; cbn [orb].
  all: try (destruct (Z.leb_spec (JsArray.length arr) (n + off)); try lia).
  all: split; [intros [arr' H']; try discriminate H'; lia | intros; try lia; eauto].
Qed.

Lemma number_compiles_iff_in_range_witness :
  plain "32" /\ parseInt "32" = Some 32 /\
  ((exists arr', partToArray (fill (JsArray.Array 31) 0) "32" (-1) = Ok arr') <->
   0 <= 32 + -1 < JsArray.length (fill (JsArray.Array 31) 0)).
Proof.
  assert (Hplain : plain "32") by (repeat apply conj; try reflexivity; discriminate).
  split; [exact Hplain|]. split; [reflexivity|].
  exact (number_compiles_iff_in_range (fill (JsArray.Array 31) 0) "32" (-1) 32 Hplain eq_refl).
Defined.

(** X4. A plain part in which [parseInt] finds no number, such as [**],
    compiles all the same and leaves its field without any accepted
    value: the number branch has no [isNaN] check. *)
Theorem part_without_number_accepts_nothing s p type v :
  CronPattern.new s = Ok p -> type <> Years ->
  plain (part (parts_of s) (field_part type)) ->
  parseInt (part (parts_of s) (field_part type)) = None ->
  CronPattern.accepts p type v = false.
Proof.
  intros Hnew Hty Hplain Hn. destruct (new_member s p type Hnew Hty) as (arr & Harr & Hlen & Hget).
  rewrite (partToArray_plain _ _ _ Hplain), Hn in Harr. cbn [fmap option_fmap option_map] in Harr.
  apply Ok_inj in Harr. subst arr.
  rewrite accepts_eq, Hget, !get_set_nan, !fill_zero_falsy.
  destruct type; rewrite ?andb_false_r; reflexivity.
Qed.

Lemma part_without_number_accepts_nothing_witness :
  CronPattern.new "** * * * * *" = Ok (pattern_of "** * * * * *") /\
  Seconds <> Years /\
  plain (part (parts_of "** * * * * *") (field_part Seconds)) /\
  parseInt (part (parts_of "** * * * * *") (field_part Seconds)) = None /\
  CronPattern.accepts (pattern_of "** * * * * *") Seconds 0 = false.
Proof.
  assert (Hnew : CronPattern.new "** * * * * *" = Ok (pattern_of "** * * * * *"))
    by (vm_compute; reflexivity).
  assert (Hty : Seconds <> Years) by discriminate.
  assert (Hplain : plain (part (parts_of "** * * * * *") (field_part Seconds)))
    by (repeat apply conj; try reflexivity; discriminate).
  split; [exact Hnew|]. split; [exact Hty|]. split; [exact Hplain|]. split; [reflexivity|].
  exact (part_without_number_accepts_nothing _ _ Seconds 0 Hnew Hty Hplain eq_refl).
Defined.

End Fields.

Section RangesAndSteppings.

Import JsString CronPattern.

(** X5. A range part [lo-hi] makes its field accept the values from
    [lo + offset] to [hi + offset]: [lo] to [hi] for seconds, minutes,
    hours and days of week (where a range up to 7 also accepts 0), but
    [lo - 1] to [hi - 1] for days and months, whose offset the loop adds a
    second time. *)
Theorem range_part_accepts s p type s0 s1 lo hi v :
  CronPattern.new s = Ok p -> type <> Years ->
  part (parts_of s) (field_part type) = (s0 ++ String "-" s1)%string ->
  contains "," s0 = false -> contains "," s1 = false ->
  contains "-" s0 = false -> contains "-" s1 = false ->
  parseInt s0 = Some lo -> parseInt s1 = Some hi ->
  CronPattern.accepts p type v =
  (0 <=? v + valueIndexOffset type)
  && (lo + valueIndexOffset type <=? v) && (v <=? hi + valueIndexOffset type)
  || match type with
     | DaysOfWeek => (hi =? 7) && (v =? 0)
     | _ => false
     end.
Proof.
  intros Hnew Hty Hpart Hc0 Hc1 Hm0 Hm1 Hlo Hhi.
  destruct (new_member s p type Hnew Hty) as (arr & Harr & Hlen & Hget).
  rewrite Hpart, (partToArray_range _ _ _ _ Hc0 Hc1 Hm0 Hm1), Hlo, Hhi in Harr.
  cbn [fmap option_fmap option_map] in Harr. rewrite field_length_filled in Harr.
  destruct ((lo + valueIndexOffset type <? 0) || (hi + valueIndexOffset type >=? field_length type))
    eqn:Hrange; [discriminate|].
  destruct (lo + valueIndexOffset type >? hi + valueIndexOffset type) eqn:Horder; [discriminate|].
  apply Ok_inj in Harr. subst arr. apply orb_false_elim in Hrange as [Hl Hh].
  rewrite Z.geb_leb in Hh. apply Z.ltb_ge in Hl. apply Z.leb_gt in Hh.
  rewrite Z.gtb_ltb in Horder. apply Z.ltb_ge in Horder.
  rewrite accepts_eq, Hlen, Hget, !range_loop_spec, !fill_zero_falsy, !orb_false_r by reflexivity.
  destruct type; try congruence; cbn [valueIndexOffset field_length] in *; zbool.
Qed.

Lemma range_part_accepts_witness :
  CronPattern.new "0 0 9-17 * * *" = Ok (pattern_of "0 0 9-17 * * *") /\
  Hours <> Years /\
  part (parts_of "0 0 9-17 * * *") (field_part Hours) = ("9" ++ String "-" "17")%string /\
  contains "," "9" = false /\ contains "," "17" = false /\
  contains "-" "9" = false /\ contains "-" "17" = false /\
  parseInt "9" = Some 9 /\ parseInt "17" = Some 17 /\
  CronPattern.accepts (pattern_of "0 0 9-17 * * *") Hours 12 =
  (0 <=? 12 + 0) && (9 + 0 <=? 12) && (12 <=? 17 + 0) || false.
Proof.
  assert (Hnew : CronPattern.new "0 0 9-17 * * *" = Ok (pattern_of "0 0 9-17 * * *"))
    by (vm_compute; reflexivity).
  assert (Hty : Hours <> Years) by discriminate.
  split; [exact Hnew|]. split; [exact Hty|]. repeat (split; [reflexivity|]).
  exact (range_part_accepts _ _ Hours "9" "17" 9 17 12 Hnew Hty eq_refl eq_refl eq_refl
           eq_refl eq_refl eq_refl eq_refl).
Defined.

(** X6. A range part compiles exactly when, with the offset added, its
    lower bound is not negative, its upper bound is an index of the array
    and the lower bound is not above the upper one. *)
Theorem range_compiles_iff_in_range arr s0 s1 off lo hi :
  contains "," s0 = false -> contains "," s1 = false ->
  contains "-" s0 = false -> contains "-" s1 = false ->
  parseInt s0 = Some lo -> parseInt s1 = Some hi ->
  (exists arr', partToArray arr (s0 ++ String "-" s1) off = Ok arr') <->
  0 <= lo + off /\ hi + off < JsArray.length arr /\ lo <= hi.
Proof.
  intros Hc0 Hc1 Hm0 Hm1 Hlo Hhi.
  rewrite (partToArray_range _ _ _ _ Hc0 Hc1 Hm0 Hm1), Hlo, Hhi.
  cbn [fmap option_fmap option_map]. rewrite Z.geb_leb, Z.gtb_ltb.
  destruct (Z.ltb_spec (lo + off) 0), (Z.leb_spec (JsArray.length arr) (hi + off)),
    (Z.ltb_spec (hi + off) (lo + off)); cbn [orb];
    (split; [intros [arr' H']; try discriminate H'; lia | intros; try lia; eauto]).
Qed.

Lemma range_compiles_iff_in_range_witness :
  contains "," "7" = false /\ contains "," "13" = false /\
  contains "-" "7" = false /\ contains "-" "13" = false /\
  parseInt "7" = Some 7 /\ parseInt "13" = Some 13 /\
  ((exists arr', partToArray (fill (JsArray.Array 12) 0) ("7" ++ String "-" "13") (-1) = Ok arr')
   <-> 0 <= 7 + -1 /\ 13 + -1 < JsArray.length (fill (JsArray.Array 12) 0) /\ 7 <= 13).
Proof.
  repeat (split; [reflexivity|]).
  exact (range_compiles_iff_in_range (fill (JsArray.Array 12) 0) "7" "13" (-1) 7 13
           eq_refl eq_refl eq_refl eq_refl eq_refl eq_refl).
Defined.

(** X7. A stepping part [*/S] makes its field accept the multiples of [S]
    from the field's first value up to the array length minus one: 0, S,
    2S, ... below 60 for seconds, but S, 2S, ... up to 30 for days (never
    day 31, and day 1 only when S is 1) and up to 11 for months, because
    the index written is the multiple plus the offset. *)
Theorem stepping_part_accepts s p type s1 steps v :
  CronPattern.new s = Ok p -> type <> Years ->
  part (parts_of s) (field_part type) = ("*" ++ String "/" s1)%string ->
  contains "," s1 = false -> contains "-" s1 = false -> contains "/" s1 = false ->
  parseInt s1 = Some steps ->
  CronPattern.accepts p type v = true <->
  - valueIndexOffset type <= v < field_length type /\ exists k, v = k * steps.
Proof.
  intros Hnew Hty Hpart Hc1 Hm1 Hs1 Hsteps.
  destruct (new_member s p type Hnew Hty) as (arr & Harr & Hlen & Hget).
  rewrite Hpart, (partToArray_stepping _ "*" s1) in Harr by (assumption || reflexivity).
  cbn [String.eqb Ascii.eqb Bool.eqb negb] in Harr. rewrite Hsteps, field_length_filled in Harr.
  destruct (Z.eqb_spec steps 0) as [|Hnz]; [discriminate|].
  rewrite Z.gtb_ltb in Harr.
  destruct (Z.ltb_spec (field_length type) steps) as [|Hle]; [discriminate|].
  apply Ok_inj in Harr. subst arr.
  pose proof (parseInt_nonneg s1 steps Hm1 Hsteps) as Hpos.
  assert (Hoff : valueIndexOffset type <= 0) by (destruct type; cbn; lia).
  assert (Hwritten : forall j,
    JsArray.truthy (JsArray.get
      (step_loop (Z.to_nat (field_length type)) 0 steps (valueIndexOffset type)
         (fill (JsArray.Array (field_length type)) 0)) (Some j)) = true <->
    exists k, 0 <= k /\ k * steps < field_length type /\ j = k * steps + valueIndexOffset type).
  { intros j. rewrite step_loop_spec by lia. rewrite fill_zero_falsy, field_length_filled.
    split.
    - intros [(k & Hk & Hlt & Hj)|H]; [|discriminate]. exists (Z.of_nat k). lia.
    - intros (k & Hk & Hlt & Hj). left. exists (Z.to_nat k). rewrite Z2Nat.id by lia.
      split; [|split; lia]. assert (k <= k * steps) by nia. lia. }
  rewrite accepts_eq, Hlen, Hget. split.
  - intros H. apply andb_prop in H as [H Ht]. apply andb_prop in H as [H0 H1].
    apply Z.leb_le in H0. apply Z.ltb_lt in H1.
    apply orb_prop in Ht as [Ht|Ht].
    + apply Hwritten in Ht as (k & Hk & Hlt & Hj). split; [lia|]. exists k. lia.
    + destruct type; try discriminate Ht. apply andb_prop in Ht as [Hj0 _].
      apply Z.eqb_eq in Hj0. cbn [valueIndexOffset field_length] in *.
      split; [lia|]. exists 0. lia.
  - intros (Hv & k & Hk).
    assert (0 <= k) by nia.
    assert (Ht : JsArray.truthy (JsArray.get
      (step_loop (Z.to_nat (field_length type)) 0 steps (valueIndexOffset type)
         (fill (JsArray.Array (field_length type)) 0)) (Some (v + valueIndexOffset type))) = true).
    { apply Hwritten. exists k. lia. }
    rewrite Ht. cbn [orb]. rewrite andb_true_r. apply andb_true_intro.
    split; [apply Z.leb_le|apply Z.ltb_lt]; lia.
Qed.

Lemma stepping_part_accepts_witness :
  CronPattern.new "0 0 0 */5 * *" = Ok (pattern_of "0 0 0 */5 * *") /\
  Days <> Years /\
  part (parts_of "0 0 0 */5 * *") (field_part Days) = ("*" ++ String "/" "5")%string /\
  contains "," "5" = false /\ contains "-" "5" = false /\ contains "/" "5" = false /\
  parseInt "5" = Some 5 /\
  (CronPattern.accepts (pattern_of "0 0 0 */5 * *") Days 10 = true <->
   - valueIndexOffset Days <= 10 < field_length Days /\ exists k, 10 = k * 5).
Proof.
  assert (Hnew : CronPattern.new "0 0 0 */5 * *" = Ok (pattern_of "0 0 0 */5 * *"))
    by (vm_compute; reflexivity).
  assert (Hty : Days <> Years) by discriminate.
  split; [exact Hnew|]. split; [exact Hty|]. repeat (split; [reflexivity|]).
  exact (stepping_part_accepts _ _ Days "5" 5 10 Hnew Hty eq_refl eq_refl eq_refl eq_refl eq_refl).
Defined.

(** X8. A stepping part [*/S] compiles exactly when [S] is at least 1 and
    at most the length of the field's array. *)
Theorem stepping_compiles_iff_in_range arr s1 off steps :
  contains "," s1 = false -> contains "-" s1 = false -> contains "/" s1 = false ->
  parseInt s1 = Some steps ->
  (exists arr', partToArray arr ("*" ++ String "/" s1) off = Ok arr') <->
  1 <= steps <= JsArray.length arr.
Proof.
  intros Hc1 Hm1 Hs1 Hsteps.
  rewrite (partToArray_stepping _ "*" s1) by (assumption || reflexivity).
  cbn [String.eqb Ascii.eqb Bool.eqb negb]. rewrite Hsteps, Z.gtb_ltb.
  pose proof (parseInt_nonneg s1 steps Hm1 Hsteps) as Hpos.
  destruct (Z.eqb_spec steps 0), (Z.ltb_spec (JsArray.length arr) steps);
    (split; [intros [arr' H']; try discriminate H'; lia | intros; try lia; eauto]).
Qed.

Lemma stepping_compiles_iff_in_range_witness :
  contains "," "61" = false /\ contains "-" "61" = false /\ contains "/" "61" = false /\
  parseInt "61" = Some 61 /\
  ((exists arr', partToArray (fill (JsArray.Array 60) 0) ("*" ++ String "/" "61") 0 = Ok arr')
   <-> 1 <= 61 <= JsArray.length (fill (JsArray.Array 60) 0)).
Proof.
  repeat (split; [reflexivity|]).
  exact (stepping_compiles_iff_in_range (fill (JsArray.Array 60) 0) "61" 0 61
           eq_refl eq_refl eq_refl eq_refl).
Defined.

End RangesAndSteppings.

Section Composition.

Import JsString CronPattern.

Implicit Types (a b : JsArray.t).

Local Notation "'T' arr j" := (JsArray.truthy (JsArray.get arr (Some j)) = true)
  (at level 10, arr at level 9, j at level 9, only parsing).

Lemma truthy_set_one_iff a k j : T (JsArray.set a (Some k) 1) j <-> T a j \/ j = k.
Proof.
  rewrite truthy_set_one, orb_true_iff, Z.eqb_eq. tauto.
Qed.

Lemma same_writes_fill : same_writes (fun a => Ok (fill a 1)).
Proof.
  intros a b a' Hlen Ha. apply Ok_inj in Ha. subst a'.
  exists (fill b 1), (fun j => 0 <= j < JsArray.length a).
  split; [reflexivity|]. rewrite !fill_length. split; [reflexivity|]. split; [reflexivity|].
  assert (Hfill : forall c j, T (fill c 1) j <-> T c j \/ 0 <= j < JsArray.length c).
  { intros c j. unfold fill.
    destruct (fill_loop_spec (Z.to_nat (JsArray.length c)) 0 c 1 ltac:(lia)) as [_ ->].
    destruct (Z.leb_spec 0 j), (Z.ltb_spec j (0 + Z.of_nat (Z.to_nat (JsArray.length c)))),
      (Z.ltb_spec j (JsArray.length c)); cbn [andb JsArray.truthy Z.eqb negb];
      split; intros; try tauto; try lia; try (right; lia); destruct H2; try tauto; lia. }
  split; intros j; rewrite Hfill; [tauto|rewrite Hlen; tauto].
Qed.

Lemma same_writes_entry conf off :
  off <= 0 -> same_writes (fun a => partToArray_entry a conf off).
Proof.
  intros Hoff a b a' Hlen. unfold partToArray_entry, raise. rewrite Hlen.
  destruct (contains "-" conf) eqn:Hminus.
  - destruct (split "-" conf) as [|s0 [|s1 [|]]]; try discriminate.
    destruct (parseInt s0) as [lo|]; [|discriminate].
    destruct (parseInt s1) as [hi|]; [|discriminate].
    cbn [fmap option_fmap option_map].
    destruct (Z.ltb_spec (lo + off) 0); [discriminate|]. rewrite Z.geb_leb.
    destruct (Z.leb_spec (JsArray.length a) (hi + off)); [discriminate|]. cbn [orb].
    rewrite Z.gtb_ltb. destruct (Z.ltb_spec (hi + off) (lo + off)); [discriminate|].
    intros Ha. apply Ok_inj in Ha. subst a'.
    eexists. exists (fun j => lo + off + off <= j <= hi + off + off).
    split; [reflexivity|]. rewrite !range_loop_length by lia.
    split; [reflexivity|]. split; [lia|].
    split; intros j; rewrite range_loop_spec by reflexivity;
      rewrite orb_true_iff, andb_true_iff, !Z.leb_le; tauto.
  - destruct (contains "/" conf) eqn:Hslash.
    + destruct (split "/" conf) as [|s0 [|s1 [|]]] eqn:Hsplit; try discriminate.
      destruct (negb (String.eqb s0 "*")); [discriminate|].
      destruct (parseInt s1) as [steps|] eqn:Hsteps; [|discriminate].
      destruct (Z.eqb_spec steps 0); [discriminate|]. rewrite Z.gtb_ltb.
      destruct (Z.ltb_spec (JsArray.length a) steps); [discriminate|].
      intros Ha. apply Ok_inj in Ha. subst a'.
      assert (Hpos : 0 <= steps).
      { apply (parseInt_nonneg s1); [|exact Hsteps].
        destruct (contains "-" s1) eqn:E; [|reflexivity].
        rewrite (split_entry_contains "-" "/" conf s1) in Hminus; [discriminate| |exact E].
        rewrite Hsplit. right. now left. }
      eexists.
      exists (fun j => exists k : nat, (k < Z.to_nat (JsArray.length a))%nat /\
                0 + Z.of_nat k * steps < JsArray.length a /\ j = 0 + Z.of_nat k * steps + off).
      split; [rewrite <- Hlen; reflexivity|]. rewrite !step_loop_length by lia.
      split; [reflexivity|]. split; [lia|].
      split; intros j; rewrite step_loop_spec by lia; rewrite ?Hlen; tauto.
    + destruct (parseInt conf) as [n|]; cbn [fmap option_fmap option_map].
      * destruct (Z.ltb_spec (n + off) 0); [discriminate|]. rewrite Z.geb_leb.
        destruct (Z.leb_spec (JsArray.length a) (n + off)); [discriminate|]. cbn [orb].
        intros Ha. apply Ok_inj in Ha. subst a'.
        eexists. exists (fun j => j = n + off). split; [reflexivity|].
        rewrite !length_set_below by lia. split; [reflexivity|]. split; [lia|].
        split; intros j; apply truthy_set_one_iff.
      * intros Ha. apply Ok_inj in Ha. subst a'.
        eexists. exists (fun _ => False). split; [reflexivity|].
        split; [reflexivity|]. split; [cbn; lia|].
        split; intros j; rewrite get_set_nan; tauto.
Qed.

Lemma same_writes_single conf off :
  off <= 0 -> same_writes (fun a => partToArray_single a conf off).
Proof.
  intros Hoff. unfold partToArray_single. destruct (String.eqb conf "*").
  - apply same_writes_fill.
  - now apply same_writes_entry.
Qed.

Lemma same_writes_each entries off :
  off <= 0 -> same_writes (fun a => partToArray_each a entries off).
Proof.
  intros Hoff. induction entries as [|e es IH]; intros a b a' Hlen; cbn [partToArray_each].
  - intros Ha. apply Ok_inj in Ha. subst a'. exists b, (fun _ => False).
    split; [reflexivity|]. split; [reflexivity|]. split; [reflexivity|]. split; intros j; tauto.
  - intros Ha. apply bind_Ok in Ha as (a1 & Ha1 & Ha').
    destruct (same_writes_single e off Hoff a b a1 Hlen Ha1)
      as (b1 & W1 & Hb1 & La1 & Lb1 & Wa1 & Wb1).
    destruct (IH a1 b1 a' ltac:(lia) Ha') as (b' & W2 & Hb' & La' & Lb' & Wa' & Wb').
    exists b', (fun j => W1 j \/ W2 j). rewrite Hb1. split; [exact Hb'|].
    split; [lia|]. split; [lia|].
    split; intros j; [rewrite Wa', Wa1|rewrite Wb', Wb1]; tauto.
Qed.

Lemma same_writes_partToArray conf off :
  off <= 0 -> same_writes (fun a => partToArray a conf off).
Proof.
  intros Hoff. unfold partToArray. destruct (String.eqb conf "*").
  - apply same_writes_fill.
  - cbv zeta. destruct (1 <? List.length (split "," conf))%nat.
    + now apply same_writes_each.
    + now apply same_writes_entry.
Qed.

(** X9. Compiling a part into an array adds to it exactly the elements
    that the part sets in a zero-filled array of the same length: nothing
    that was set is cleared, and what is added does not depend on what
    the array held. *)
Theorem partToArray_adds_what_the_part_sets a conf off a' :
  off <= 0 ->
  partToArray a conf off = Ok a' ->
  exists z',
    partToArray (fill (JsArray.Array (JsArray.length a)) 0) conf off = Ok z' /\
    forall j, T a' j <-> T a j \/ T z' j.
Proof.
  intros Hoff Ha.
  destruct (same_writes_partToArray conf off Hoff a (fill (JsArray.Array (JsArray.length a)) 0) a')
    as (z' & W & Hz & _ & _ & Wa & Wz); [rewrite fill_length; reflexivity|exact Ha|].
  exists z'. split; [exact Hz|]. intros j. rewrite Wa, Wz, fill_zero_falsy.
  split; [tauto|]. intros [H|[H|H]]; [tauto|discriminate|tauto].
Qed.

Lemma partToArray_adds_what_the_part_sets_witness :
  -1 <= 0 /\
  partToArray (JsArray.set (fill (JsArray.Array 31) 0) (Some 0) 1) "15" (-1)
    = Ok (JsArray.set (JsArray.set (fill (JsArray.Array 31) 0) (Some 0) 1) (Some 14) 1) /\
  exists z',
    partToArray (fill (JsArray.Array
                         (JsArray.length (JsArray.set (fill (JsArray.Array 31) 0) (Some 0) 1))) 0)
      "15" (-1) = Ok z' /\
    forall j,
      T (JsArray.set (JsArray.set (fill (JsArray.Array 31) 0) (Some 0) 1) (Some 14) 1) j <->
      T (JsArray.set (fill (JsArray.Array 31) 0) (Some 0) 1) j \/ T z' j.
Proof.
  assert (H0 : -1 <= 0) by lia.
  assert (H1 : partToArray (JsArray.set (fill (JsArray.Array 31) 0) (Some 0) 1) "15" (-1)
    = Ok (JsArray.set (JsArray.set (fill (JsArray.Array 31) 0) (Some 0) 1) (Some 14) 1))
    by (vm_compute; reflexivity).
  split; [exact H0|]. split; [exact H1|].
  exact (partToArray_adds_what_the_part_sets _ "15" (-1) _ H0 H1).
Defined.

Lemma split_single sep s : forall r0, split sep s = [r0] -> s = r0.
Proof.
  induction s as [|c r IH]; intros r0; cbn [split].
  - now intros [= <-].
  - pose proof (split_nonempty_list sep r) as Hn.
    destruct (Ascii.eqb c sep); [intros H; injection H as _ H; congruence|].
    destruct (split sep r) as [|p0 ps]; [congruence|].
    intros H. injection H as H1 H2. subst r0 ps. f_equal. now apply IH.
Qed.

(** X10. A comma list is compiled entry by entry from left to right, each
    entry into the array the entries before it have left; the first entry
    that does not compile raises its error. *)
Theorem comma_list_is_compiled_in_order a e1 rest off :
  contains "," e1 = false ->
  partToArray a (e1 ++ String "," rest) off =
  (a1 ← partToArray a e1 off; partToArray a1 rest off).
Proof.
  intros Hc1.
  assert (Hcomma : contains "," (e1 ++ String "," rest) = true).
  { rewrite contains_append. cbn [contains]. rewrite Ascii.eqb_refl. apply orb_true_r. }
  unfold partToArray at 1. rewrite (not_wildcard "," _ Hcomma) by discriminate. cbv zeta.
  rewrite (split_append _ _ _ Hc1).
  pose proof (split_nonempty_list "," rest) as Hne.
  destruct (split "," rest) as [|r0 rs] eqn:Hsplit; [congruence|].
  cbn [List.length Nat.ltb Nat.leb partToArray_each].
  rewrite <- (partToArray_on_entry a (e1 ++ String "," rest) off e1)
    by (rewrite (split_append _ _ _ Hc1); now left).
  destruct (partToArray a e1 off) as [a1|e]; [|reflexivity]. cbn [mbind Result_bind].
  destruct (contains "," rest) eqn:Hrest.
  - unfold partToArray. rewrite (not_wildcard "," _ Hrest) by discriminate. cbv zeta.
    rewrite Hsplit.
    assert (Hlen : (1 <? List.length (r0 :: rs))%nat = true).
    { destruct rs as [|r1 rs]; [|reflexivity].
      exfalso. assert (Hin : In r0 (split "," rest)) by (rewrite Hsplit; now left).
      apply split_entry_has_no_separator in Hin.
      rewrite (split_single "," rest r0 Hsplit) in Hrest. congruence. }
    rewrite Hlen. reflexivity.
  - rewrite (split_without_separator _ _ Hrest) in Hsplit. injection Hsplit as <- <-.
    cbn [partToArray_each].
    rewrite <- (partToArray_on_entry a1 rest off rest)
      by (rewrite (split_without_separator _ _ Hrest); now left).
    destruct (partToArray a1 rest off); reflexivity.
Qed.

Lemma comma_list_is_compiled_in_order_witness :
  contains "," "1" = false /\
  partToArray (fill (JsArray.Array 31) 0) ("1" ++ String "," "15,32") (-1) =
  (a1 ← partToArray (fill (JsArray.Array 31) 0) "1" (-1); partToArray a1 "15,32" (-1)).
Proof.
  split; [reflexivity|].
  exact (comma_list_is_compiled_in_order (fill (JsArray.Array 31) 0) "1" "15,32" (-1) eq_refl).
Defined.

End Composition.

(** * The advancer *)

Section Soundness.

Import JsDate CronDate.

Variable p : CronPattern.t.

Ltac levels j := destruct j as [|[|[|[|[|?]]]]]; try lia.

(** When the loop is left every row has been found in turn since the last
    reset, so every row is settled. *)
Lemma cascade_sound fuel : forall self doing self',
  matched p self doing ->
  cascade fuel p self doing = Some self' -> matched p self' 5.
Proof.
  induction fuel as [|fuel IH]; intros self doing self' Hm; [discriminate|].
  rewrite cascade_eq. destruct (Nat.ltb_spec doing 5) as [Hlt|Hge].
  - destruct (findNext _ _ _ _ _) as [[|] self1] eqn:E.
    + apply findNext_found in E as (i & -> & Hi & Ht). apply IH.
      intros j Hj. destruct (Nat.eq_dec j doing) as [->|Hne].
      * apply level_ok_set_found; [lia|lia|exact Ht].
      * apply level_ok_set_other; [|apply Hm; lia].
        intros Heq. apply level_target_inj in Heq; lia.
    + apply IH. intros j Hj. lia.
  - intros [= <-]. intros j Hj. apply Hm. lia.
Qed.

(** The weekday loop only adds days, and stops on a truthy weekday. *)
Lemma weekday_loop_sound fuel : forall self self',
  weekday_loop fuel p self = Some self' ->
  exists k, 0 <= k /\ self' = add_days self k /\
    JsArray.truthy (JsArray.get (CronPattern.daysOfWeek p) (getDay (getDate self'))) = true.
Proof.
  induction fuel as [|fuel IH]; intros self self'; cbn [weekday_loop]; [discriminate|].
  destruct (JsArray.truthy (JsArray.get (CronPattern.daysOfWeek p) (getDay (getDate self))))
    eqn:E; cbn [negb].
  - intros [= <-]. exists 0. rewrite add_days_0. split; [lia|]. split; [reflexivity|exact E].
  - intros H. apply IH in H as (k & Hk & -> & Ht). exists (1 + k).
    change (set_member self Days (days self + 1)) with (add_days self 1) in *.
    rewrite add_days_add in *. split; [lia|]. split; [reflexivity|exact Ht].
Qed.









End Soundness.


(** ** [next] moves forward in time *)

Section Forward.

Import JsDate CronDate.

Variable p : CronPattern.t.

(** No element of [days] has been written at the property [-1]. *)
Hypothesis Hdays : JsArray.truthy (JsArray.get (CronPattern.days p) (Some (-1))) = false.

Ltac levels j := destruct j as [|[|[|[|[|?]]]]]; try lia.

Lemma findNext_cases self target off ov :
  snd (findNext self target p off ov) = self \/
  exists i, snd (findNext self target p off ov) = set_member self target (i - off) /\
    (match ov with None => member self target + off | Some _ => 0 + off end) <= i /\
    JsArray.truthy (JsArray.get (CronPattern.member p target) (Some i)) = true.
Proof.
  destruct (findNext self target p off ov) as [[|] self'] eqn:E; cbn [snd].
  - right. apply findNext_found in E as (i & -> & Hi & Ht). exists i.
    split; [reflexivity|]. split; [lia|exact Ht].
  - left. now apply findNext_not_found in E.
Qed.

(** Raising a member of a row keeps the broken-down time above its
    floor and not before [a]. *)
Lemma raise_member a self j v :
  (j < 5)%nat -> member self (level_target j) <= v ->
  floor_ok self -> not_before a self ->
  floor_ok (set_member self (level_target j) v) /\
  not_before a (set_member self (level_target j) v).
Proof.
  intros Hj Hv Hf Hn. destruct self, a. unfold floor_ok, not_before in *.
  levels j; cbn in *; lia.
Qed.

Lemma floor_member self j v :
  (j < 5)%nat -> (if Nat.eqb j 3 then 1 else 0) <= v ->
  floor_ok self -> floor_ok (set_member self (level_target j) v).
Proof.
  intros Hj Hv Hf. destruct self. unfold floor_ok in *.
  levels j; cbn in *; lia.
Qed.

Lemma findNext_reset_floor self j :
  (j < 5)%nat -> floor_ok self ->
  floor_ok (snd (findNext self (level_target j) p (level_offset j) (Some 0))).
Proof.
  intros Hj Hf.
  destruct (findNext_cases self (level_target j) (level_offset j) (Some 0))
    as [->|(i & -> & Hi & Ht)]; [exact Hf|].
  apply floor_member; [exact Hj| |exact Hf].
  levels j; cbn in *; try lia.
  destruct (Z.eq_dec i (-1)) as [->|]; [congruence|lia].
Qed.

Lemma findNext_frame self target target' off ov :
  target <> target' ->
  member (snd (findNext self target p off ov)) target' = member self target'.
Proof.
  intros Hne. destruct (findNext_cases self target off ov) as [->|(i & -> & _)];
    [reflexivity|]. now apply member_set_other.
Qed.

(** The inner loop touches the rows [0 .. doing] only, and keeps the
    floor. *)
Lemma reset_from_frame doing : forall self target,
  (forall j, (j <= doing)%nat -> target <> level_target j) ->
  member (reset_from doing p self) target = member self target.
Proof.
  induction doing as [|doing IH]; intros self target Hne; rewrite reset_from_eq; cbv zeta.
  - apply findNext_frame. apply not_eq_sym, Hne. lia.
  - rewrite IH by (intros; apply Hne; lia). apply findNext_frame. apply not_eq_sym, Hne. lia.
Qed.

Lemma reset_from_floor doing : forall self,
  (doing < 5)%nat -> floor_ok self -> floor_ok (reset_from doing p self).
Proof.
  induction doing as [|doing IH]; intros self Hlt Hf; rewrite reset_from_eq; cbv zeta.
  - now apply findNext_reset_floor.
  - apply IH; [lia|]. now apply findNext_reset_floor.
Qed.

(** A carry into the member above row [j], followed by any change of the
    rows [0 .. j], keeps the broken-down time not before [a]. *)
Lemma carry_not_before a self self' j :
  (j < 5)%nat -> not_before a self ->
  (forall target, (forall k, (k <= j)%nat -> target <> level_target k) ->
     member self' target =
     member (set_member self (level_carry j) (member self (level_carry j) + 1)) target) ->
  not_before a self'.
Proof.
  intros Hj Hn Hframe.
  pose proof (Hframe Years) as HY. pose proof (Hframe Months) as HM.
  pose proof (Hframe Days) as HD. pose proof (Hframe Hours) as HH.
  pose proof (Hframe Minutes) as HMi.
  destruct self, self', a. unfold not_before in *.
  levels j; cbn in *.
  - specialize (HY ltac:(intros k Hk; assert (k = 0)%nat as -> by lia; cbv; congruence)).
    specialize (HM ltac:(intros k Hk; assert (k = 0)%nat as -> by lia; cbv; congruence)).
    specialize (HD ltac:(intros k Hk; assert (k = 0)%nat as -> by lia; cbv; congruence)).
    specialize (HH ltac:(intros k Hk; assert (k = 0)%nat as -> by lia; cbv; congruence)).
    specialize (HMi ltac:(intros k Hk; assert (k = 0)%nat as -> by lia; cbv; congruence)).
    lia.
  - specialize (HY ltac:(intros k Hk; levels k; cbv; congruence)).
    specialize (HM ltac:(intros k Hk; levels k; cbv; congruence)).
    specialize (HD ltac:(intros k Hk; levels k; cbv; congruence)).
    specialize (HH ltac:(intros k Hk; levels k; cbv; congruence)).
    lia.
  - specialize (HY ltac:(intros k Hk; levels k; cbv; congruence)).
    specialize (HM ltac:(intros k Hk; levels k; cbv; congruence)).
    specialize (HD ltac:(intros k Hk; levels k; cbv; congruence)).
    lia.
  - specialize (HY ltac:(intros k Hk; levels k; cbv; congruence)).
    specialize (HM ltac:(intros k Hk; levels k; cbv; congruence)).
    lia.
  - specialize (HY ltac:(intros k Hk; levels k; cbv; congruence)).
    lia.
Qed.

Lemma carry_floor self j :
  (j < 5)%nat -> floor_ok self ->
  floor_ok (set_member self (level_carry j) (member self (level_carry j) + 1)).
Proof.
  intros Hj Hf. destruct self. unfold floor_ok in *. levels j; cbn in *; lia.
Qed.

(** The field cascade never moves the broken-down time back. *)
Lemma cascade_forward a fuel : forall self doing self',
  floor_ok self -> not_before a self ->
  cascade fuel p self doing = Some self' ->
  floor_ok self' /\ not_before a self'.
Proof.
  induction fuel as [|fuel IH]; intros self doing self' Hf Hn; [discriminate|].
  rewrite cascade_eq. destruct (Nat.ltb_spec doing 5) as [Hlt|Hge].
  - destruct (findNext _ _ _ _ _) as [[|] self1] eqn:E.
    + apply findNext_found in E as (i & -> & Hi & Ht).
      destruct (raise_member a self doing (i - level_offset doing)) as [Hf1 Hn1];
        [exact Hlt|lia|exact Hf|exact Hn|].
      now apply IH.
    + apply findNext_not_found in E as ->; [|reflexivity].
      apply IH.
      * apply reset_from_floor; [exact Hlt|]. now apply carry_floor.
      * apply (carry_not_before a self _ doing Hlt Hn).
        intros target Hne. now apply reset_from_frame.
  - intros [= <-]. tauto.
Qed.

End Forward.

(** ** Broken-down times and time values *)

Section RoundTrip.

Import JsDate CronDate.

Lemma DayFromYear_mono y y' : y <= y' -> DayFromYear y <= DayFromYear y'.
Proof. unfold DayFromYear. intros H. zdiv. Qed.

(** The day of a time value, from its year, month and date. *)
Lemma Day_from_members t :
  Day t = DayFromYear (YearFromTime t)
          + month_start (MonthFromTime t) (InLeapYear t) + DateFromTime t - 1.
Proof. unfold DateFromTime, DayWithinYear. lia. Qed.

(** The months after the month of [t] start after the day of [t]. *)
Lemma later_month_starts_later t m :
  MonthFromTime t < m <= 11 -> DayWithinYear t < month_start m (InLeapYear t).
Proof.
  unfold MonthFromTime. cbv zeta. pose proof (InLeapYear_bit t) as Hl. intros Hm.
  assert (m = 1 \/ m = 2 \/ m = 3 \/ m = 4 \/ m = 5 \/ m = 6 \/ m = 7 \/ m = 8 \/
          m = 9 \/ m = 10 \/ m = 11) as Hcases.
  { revert Hm. repeat match goal with
         | |- context [if ?a <? ?b then _ else _] => destruct (Z.ltb_spec a b)
         end; lia. }
  revert Hm.
  repeat match goal with
         | |- context [if ?a <? ?b then _ else _] => destruct (Z.ltb_spec a b)
         end; intros Hm;
    repeat destruct Hcases as [->|Hcases]; try subst m; cbn [month_start]; lia.
Qed.

Lemma time_from_members t :
  t = Day t * msPerDay
      + MakeTime (HourFromTime t) (MinFromTime t) (SecFromTime t) (msFromTime t) /\
  0 <= HourFromTime t <= 23 /\ 0 <= MinFromTime t <= 59 /\
  0 <= SecFromTime t <= 59 /\ 0 <= msFromTime t <= 999.
Proof.
  unfold Day, MakeTime, HourFromTime, MinFromTime, SecFromTime, msFromTime,
    msPerDay, msPerHour, msPerMinute, msPerSecond. zdiv.
Qed.

Lemma time_value_eq self :
  0 <= months self <= 11 ->
  time_value self =
  (DayFromYear (if (0 <=? years self) && (years self <=? 99) then 1900 + years self
                else years self)
   + month_start (months self)
       (if DaysInYear (if (0 <=? years self) && (years self <=? 99) then 1900 + years self
                       else years self) =? 366 then 1 else 0)
   + days self - 1) * msPerDay
  + MakeTime (hours self) (minutes self) (seconds self) (milliseconds self).
Proof.
  intros Hm. unfold time_value, MakeDate, MakeDay. cbv zeta.
  rewrite (Z.div_small (months self) 12), (Z.mod_small (months self) 12) by lia.
  now rewrite Z.add_0_r.
Qed.


(** A broken-down time above its floor, with a month below 12, that is
    not before the second after [r], has a time value after [r]. *)
Lemma after_reference r self :
  floor_ok self -> months self <= 11 -> 0 <= milliseconds self ->
  not_before (next_second (new r)) self ->
  r < time_value self.
Proof.
  intros (Hs & Hmi & Hh & Hd & Hmo) Hmo11 Hms Hn.
  rewrite time_value_eq by lia.
  destruct (time_from_members r) as (Hr & Hrh & Hrm & Hrs & Hrms).
  pose proof (Day_from_members r) as HDr.
  pose proof (YearFromDay_spec (Day r)) as HY. fold (YearFromTime r) in HY.
  pose proof (DateFromTime_pos r) as HD1.
  pose proof (MonthFromTime_range r) as HM.
  pose proof (InLeapYear_bit r) as Hl.
  set (yr := if (0 <=? years self) && (years self <=? 99) then 1900 + years self
             else years self).
  set (leap := if DaysInYear yr =? 366 then 1 else 0).
  assert (Hleap : 0 <= leap <= 1) by (unfold leap; destruct (_ =? _); lia).
  pose proof (month_start_range (months self) leap ltac:(lia) Hleap) as Hstart.
  unfold not_before, next_second in Hn.
  cbn [new years months days hours minutes seconds milliseconds] in Hn.
  assert (Hyr : years self <= yr).
  { unfold yr. destruct (Z.leb_spec 0 (years self)), (Z.leb_spec (years self) 99);
      cbn [andb]; lia. }
  unfold MakeTime, msPerDay, msPerHour, msPerMinute, msPerSecond in *.
  destruct (Z.eq_dec yr (YearFromTime r)) as [Heq|Hne].
  - (* the same year, taken as it is *)
    assert (Hleap' : leap = InLeapYear r) by (unfold leap, InLeapYear; now rewrite Heq).
    rewrite Heq, Hleap' in *.
    destruct Hn as [Hn|[_ Hn]]; [lia|].
    destruct Hn as [Hn|[Hmeq Hn]].
    + pose proof (later_month_starts_later r (months self) ltac:(lia)) as Hlater.
      unfold DayWithinYear in Hlater. nia.
    + rewrite <- Hmeq in *. nia.
  - (* a later year *)
    assert (Hlater : YearFromTime r + 1 <= yr).
    { destruct Hn as [Hn|[Hn _]]; lia. }
    apply DayFromYear_mono in Hlater. nia.
Qed.

End RoundTrip.

Section NextFacts.

Import JsDate CronDate.



Lemma time_value_whole_second self :
  milliseconds self = 0 -> time_value self mod 1000 = 0.
Proof.
  intros Hms. unfold time_value, MakeDate, MakeTime. cbv zeta. rewrite Hms.
  unfold msPerDay, msPerHour, msPerMinute, msPerSecond. zdiv.
Qed.

(** From the members of [r], [increment] ends on a broken-down time whose
    time value is a whole second after [r], unless the property [-1] of
    [days] has been written. *)
Lemma increment_forward p r fuel self' :
  compiled p ->
  JsArray.truthy (JsArray.get (CronPattern.days p) (Some (-1))) = false ->
  increment fuel p (new r) = Some self' ->
  r < time_value self' /\ time_value self' mod 1000 = 0.
Proof.
  intros Hc Hdays. rewrite increment_eq.
  destruct (cascade _ _ _ _) as [self1|] eqn:Hcas; [|discriminate].
  intros H. apply weekday_loop_sound in H as (k & Hk & -> & _).
  fold (next_second (new r)) in Hcas.
  assert (Hf0 : floor_ok (next_second (new r))).
  { pose proof (DateFromTime_pos r). pose proof (MonthFromTime_range r).
    destruct (time_from_members r) as (_ & ? & ? & ? & _).
    unfold floor_ok, next_second. cbn [new seconds minutes hours days months]. lia. }
  assert (Hn0 : not_before (next_second (new r)) (next_second (new r))).
  { unfold not_before. lia. }
  destruct (cascade_forward p Hdays _ fuel _ _ _ Hf0 Hn0 Hcas) as [Hf1 Hn1].
  assert (Hm : matched p self1 5).
  { eapply cascade_sound; [|exact Hcas]. intros j Hj. lia. }
  pose proof (Hm 4%nat ltac:(lia)) as [H4 _].
  cbv [level_target level_offset toDo_at toDo nth fst snd member CronPattern.member] in H4.
  rewrite (months_length p Hc) in H4.
  pose proof (cascade_milliseconds _ _ _ _ _ Hcas) as Hms. cbn [next_second milliseconds] in Hms.
  pose proof (after_reference r self1 Hf1 ltac:(lia) ltac:(lia) Hn1) as Hlt.
  rewrite time_value_add_days. split.
  - unfold msPerDay. nia.
  - pose proof (time_value_whole_second self1 Hms). unfold msPerDay. zdiv.
Qed.

Variable now : Z.

Lemma valid_date_value d v : getTime d = Some v -> d = JsDate.mk (Some v).
Proof. destruct d as [g]. cbn. now intros ->. Qed.

Lemma clip_value x t : TimeClip x = Some t -> t = x.
Proof. unfold TimeClip. destruct (_ <=? _); congruence. Qed.

Lemma setMilliseconds_whole_second d t :
  getTime (setMilliseconds d 0) = Some t ->
  exists t0, getTime d = Some t0 /\ t = t0 - t0 mod 1000.
Proof.
  unfold setMilliseconds. destruct (getTime d) as [t0|] eqn:E; [|congruence].
  cbn [getTime]. intros H. apply clip_value in H. exists t0. split; [reflexivity|].
  rewrite H. unfold MakeDate, MakeTime, Day, HourFromTime, MinFromTime, SecFromTime,
      msPerDay, msPerHour, msPerMinute, msPerSecond. zdiv.
Qed.

(** What [_next] returns when it returns a date: the stop conditions do
    not hold, and the date is the one that [increment] builds from the
    reference instant, or from [startAt] when that is later; it is before
    [stopAt]. *)
Lemma _next_inv fuel c prev d :
  Cron._next now fuel c prev = Some (NextRun d) ->
  (match maxRuns (Cron.opts c) with Some (Finite n) => 0 < n | _ => True end) /\
  default false (kill (Cron.opts c)) = false /\
  exists from self',
    default now prev <= from /\
    increment fuel (Cron.pattern c) (new from) = Some self' /\
    d = getDate self' /\
    (forall s t0, Cron.date_value (stopAt (Cron.opts c)) = Some s ->
                  getTime d = Some t0 -> t0 < s).
Proof.
  unfold Cron._next. cbv zeta.
  set (from := match Cron.date_value (startAt (Cron.opts c)) with
               | Some s => if default now prev <? s then s else default now prev
               | None => default now prev
               end).
  assert (Hfrom : default now prev <= from).
  { unfold from. destruct (Cron.date_value _) as [s|]; [|lia].
    destruct (Z.ltb_spec (default now prev) s); lia. }
  destruct (_ || _) eqn:Hcond; [discriminate|].
  apply orb_false_elim in Hcond as [Hmax Hkill].
  destruct (increment fuel (Cron.pattern c) (new from)) as [self'|] eqn:Hinc; [|discriminate].
  cbn [mbind option_bind].
  destruct (negb _) eqn:Hstop; [|discriminate].
  intros [= <-]. split; [|split; [exact Hkill|]].
  - destruct (maxRuns (Cron.opts c)) as [[n|]|]; try exact I. now apply Z.leb_gt.
  - exists from, self'. split; [exact Hfrom|]. split; [exact Hinc|]. split; [reflexivity|].
    intros s t0 Hs Ht0. rewrite Hs, Ht0 in Hstop. apply negb_true_iff in Hstop.
    rewrite Z.geb_leb in Hstop. now apply Z.leb_gt in Hstop.
Qed.

Lemma next_inv fuel c prev d t :
  Cron.next now fuel c prev = Some (NextRun d) ->
  getTime d = Some t ->
  exists from self' t0,
    default now prev <= from /\
    increment fuel (Cron.pattern c) (new from) = Some self' /\
    TimeClip (time_value self') = Some t0 /\ t = t0 - t0 mod 1000 /\
    (forall s, Cron.date_value (stopAt (Cron.opts c)) = Some s -> t0 < s).
Proof.
  unfold Cron.next.
  destruct (Cron._next now fuel c prev) as [[d0|]|] eqn:Hnext; try discriminate.
  cbn [mbind option_bind]. intros [= <-] Ht.
  apply _next_inv in Hnext as (_ & _ & from & self' & Hfrom & Hinc & -> & Hstop).
  apply setMilliseconds_whole_second in Ht as (t0 & Ht0 & ->).
  exists from, self', t0. split; [exact Hfrom|]. split; [exact Hinc|].
  split; [exact Ht0|]. split; [reflexivity|]. intros s Hs. now apply (Hstop s).
Qed.

(** Unless the property [NaN] of [daysOfWeek] has been written, the
    weekday loop only stops on a valid date. *)
Lemma increment_valid_date p fuel self self' :
  JsArray.truthy (JsArray.get (CronPattern.daysOfWeek p) None) = false ->
  increment fuel p self = Some self' ->
  exists t, getTime (getDate self') = Some t.
Proof.
  intros Hnan. rewrite increment_eq.
  destruct (cascade _ _ _ _) as [self1|]; [|discriminate].
  intros H. apply weekday_loop_sound in H as (k & _ & _ & Ht).
  unfold getDay in Ht. destruct (getTime (getDate self')) as [t|]; [eauto|].
  cbn [fmap option_fmap option_map] in Ht. rewrite Hnan in Ht. discriminate.
Qed.

(** X13. On a host whose time zone is UTC, and on a compiled pattern in
    which no range or stepping has written the property [-1] of [days]
    and no entry without a number has written the property [NaN] of
    [daysOfWeek]: what [next] returns, when it returns a date, is a valid
    date, a whole second strictly after the reference instant (the
    argument, or the clock when it is left out), whatever the options
    are. *)
Theorem next_is_after_the_reference fuel s c prev d :
  CronPattern.new s = Ok (Cron.pattern c) ->
  JsArray.truthy (JsArray.get (CronPattern.days (Cron.pattern c)) (Some (-1))) = false ->
  JsArray.truthy (JsArray.get (CronPattern.daysOfWeek (Cron.pattern c)) None) = false ->
  Cron.next now fuel c prev = Some (NextRun d) ->
  exists t, getTime d = Some t /\ default now prev < t /\ t mod 1000 = 0.
Proof.
  intros Hnew Hdays Hnan. unfold Cron.next.
  destruct (Cron._next now fuel c prev) as [[d0|]|] eqn:Hnext; try discriminate.
  cbn [mbind option_bind]. intros [= <-].
  apply _next_inv in Hnext as (_ & _ & from & self' & Hfrom & Hinc & -> & _).
  destruct (increment_valid_date _ _ _ _ Hnan Hinc) as [t0 Ht0].
  destruct (increment_forward _ from fuel self' (new_compiled s _ Hnew) Hdays Hinc) as [Hlt Hmod].
  pose proof Ht0 as Hclip. rewrite getDate_time_value in Hclip. cbn [getTime] in Hclip.
  pose proof Hclip as Hrange. unfold TimeClip in Hrange.
  destruct (Z.leb_spec (Z.abs (time_value self')) 8640000000000000); [|discriminate].
  apply clip_value in Hclip. subst t0.
  rewrite (valid_date_value _ _ Ht0), setMilliseconds_0 by assumption.
  exists (time_value self' - time_value self' mod 1000). rewrite Hmod, Z.sub_0_r.
  split; [reflexivity|]. split; [lia|exact Hmod].
Qed.

(** X14. A date returned by [next] is before [stopAt]. *)
Theorem next_is_before_stopAt fuel c prev d t s :
  Cron.next now fuel c prev = Some (NextRun d) ->
  getTime d = Some t ->
  stopAt (Cron.opts c) = Some (ADate (JsDate.mk (Some s))) ->
  t < s.
Proof.
  intros Hnext Ht Hs.
  destruct (next_inv fuel c prev d t Hnext Ht) as (from & self' & t0 & _ & _ & _ & -> & Hstop).
  specialize (Hstop s). rewrite Hs in Hstop. specialize (Hstop eq_refl).
  assert (0 <= t0 mod 1000) by zdiv. lia.
Qed.

(** X15. A scheduler that has been killed, or whose [maxRuns] is zero or
    less, has no next run, and [next] says so without advancing: with any
    fuel, also on a pattern on which [increment] does not return. *)
Theorem no_next_run_when_stopped fuel c prev :
  kill (Cron.opts c) = Some true \/
  (exists n, maxRuns (Cron.opts c) = Some (Finite n) /\ n <= 0) ->
  Cron.next now fuel c prev = Some Undefined.
Proof.
  intros H. unfold Cron.next, Cron._next. cbv zeta.
  replace (_ || _) with true; [reflexivity|]. symmetry. apply orb_true_iff.
  destruct H as [->|(n & -> & Hn)]; [now right|left]. now apply Z.leb_le.
Qed.

End NextFacts.

Lemma next_is_after_the_reference_witness :
  CronPattern.new "0 30 9 * * *"
    = Ok (Cron.pattern (Cron.mk (pattern_of "0 30 9 * * *") no_options)) /\
  JsArray.truthy
    (JsArray.get (CronPattern.days (Cron.pattern (Cron.mk (pattern_of "0 30 9 * * *") no_options)))
       (Some (-1))) = false /\
  JsArray.truthy
    (JsArray.get
       (CronPattern.daysOfWeek (Cron.pattern (Cron.mk (pattern_of "0 30 9 * * *") no_options)))
       None) = false /\
  Cron.next 0 36 (Cron.mk (pattern_of "0 30 9 * * *") no_options) (Some 1640995200000)
    = Some (NextRun (JsDate.mk (Some 1641029400000))) /\
  exists t, JsDate.getTime (JsDate.mk (Some 1641029400000)) = Some t /\
            default 0 (Some 1640995200000) < t /\ t mod 1000 = 0.
Proof.
  assert (H1 : CronPattern.new "0 30 9 * * *"
    = Ok (Cron.pattern (Cron.mk (pattern_of "0 30 9 * * *") no_options)))
    by (vm_compute; reflexivity).
  assert (H2 : JsArray.truthy
    (JsArray.get (CronPattern.days (Cron.pattern (Cron.mk (pattern_of "0 30 9 * * *") no_options)))
       (Some (-1))) = false) by (vm_compute; reflexivity).
  assert (H2' : JsArray.truthy
    (JsArray.get
       (CronPattern.daysOfWeek (Cron.pattern (Cron.mk (pattern_of "0 30 9 * * *") no_options)))
       None) = false) by (vm_compute; reflexivity).
  assert (H3 : Cron.next 0 36 (Cron.mk (pattern_of "0 30 9 * * *") no_options)
                 (Some 1640995200000)
               = Some (NextRun (JsDate.mk (Some 1641029400000)))) by (vm_compute; reflexivity).
  split; [exact H1|]. split; [exact H2|]. split; [exact H2'|]. split; [exact H3|].
  exact (next_is_after_the_reference 0 36 "0 30 9 * * *" _ (Some 1640995200000) _
           H1 H2 H2' H3).
Defined.

Lemma next_is_before_stopAt_witness :
  Cron.next 0 36
    (Cron.mk (pattern_of "0 30 9 * * *")
       (mkOptions None None None None None None
          (Some (ADate (JsDate.mk (Some 1641100000000)))) None))
    (Some 1640995200000)
    = Some (NextRun (JsDate.mk (Some 1641029400000))) /\
  JsDate.getTime (JsDate.mk (Some 1641029400000)) = Some 1641029400000 /\
  stopAt (Cron.opts
            (Cron.mk (pattern_of "0 30 9 * * *")
               (mkOptions None None None None None None
                  (Some (ADate (JsDate.mk (Some 1641100000000)))) None)))
    = Some (ADate (JsDate.mk (Some 1641100000000))) /\
  1641029400000 < 1641100000000.
Proof.
  assert (H : Cron.next 0 36
    (Cron.mk (pattern_of "0 30 9 * * *")
       (mkOptions None None None None None None
          (Some (ADate (JsDate.mk (Some 1641100000000)))) None))
    (Some 1640995200000)
    = Some (NextRun (JsDate.mk (Some 1641029400000)))) by (vm_compute; reflexivity).
  split; [exact H|]. split; [reflexivity|]. split; [reflexivity|].
  exact (next_is_before_stopAt 0 36 _ (Some 1640995200000) _ 1641029400000 1641100000000
           H eq_refl eq_refl).
Defined.

Lemma no_next_run_when_stopped_witness :
  (kill (Cron.opts (Cron.mk (pattern_of ", * * * * *")
                      (mkOptions None (Some true) None None None None None None))) = Some true \/
   (exists n, maxRuns (Cron.opts (Cron.mk (pattern_of ", * * * * *")
                      (mkOptions None (Some true) None None None None None None)))
              = Some (Finite n) /\ n <= 0)) /\
  Cron.next 0 0 (Cron.mk (pattern_of ", * * * * *")
                   (mkOptions None (Some true) None None None None None None)) None
    = Some Undefined.
Proof.
  assert (H : kill (Cron.opts (Cron.mk (pattern_of ", * * * * *")
                      (mkOptions None (Some true) None None None None None None))) = Some true \/
   (exists n, maxRuns (Cron.opts (Cron.mk (pattern_of ", * * * * *")
                      (mkOptions None (Some true) None None None None None None)))
              = Some (Finite n) /\ n <= 0)) by (left; reflexivity).
  split; [exact H|].
  exact (no_next_run_when_stopped 0 0 _ None H).
Defined.

(** * Options, [schedule] and the job *)

Section Options.

Variable Callback : Type.
Variable Date_parse : string -> option Z.

Lemma valid_date_eta d v : JsDate.getTime d = Some v -> d = JsDate.mk (Some v).
Proof. destruct d as [g]. cbn. now intros ->. Qed.

Lemma TimeClip_value x t : JsDate.TimeClip x = Some t -> t = x /\ Z.abs x <= 8640000000000000.
Proof.
  unfold JsDate.TimeClip. destruct (Z.leb_spec (Z.abs x) 8640000000000000); [|discriminate].
  intros [= <-]. tauto.
Qed.

(** What [validateOpts] does to an options object that it lets through. *)
Lemma validateOpts_inv o o' :
  Cron.validateOpts Date_parse o = Ok o' ->
  (paused o' = paused o /\ kill o' = kill o /\ rest o' = rest o /\
   currentTimeout o' = currentTimeout o /\ previous o' = previous o /\
   maxRuns o' = maxRuns o) /\
  (Cron.truthy_date (startAt o) = false /\ startAt o' = startAt o \/
   exists a v, startAt o = Some a /\ Cron.truthy_date (startAt o) = true /\
     given_instant Date_parse a = Some v /\ Z.abs (v - 1) <= 8640000000000000 /\
     startAt o' = Some (ADate (JsDate.mk (Some (v - 1))))) /\
  (Cron.truthy_date (stopAt o) = false /\ stopAt o' = stopAt o \/
   exists a v, stopAt o = Some a /\ Cron.truthy_date (stopAt o) = true /\
     given_instant Date_parse a = Some v /\
     stopAt o' = Some (ADate (JsDate.mk (Some v)))).
Proof.
  unfold Cron.validateOpts, raise. intros H. apply bind_Ok in H as (o1 & H1 & H2).
  assert (Hstart :
    (paused o1 = paused o /\ kill o1 = kill o /\ rest o1 = rest o /\
     currentTimeout o1 = currentTimeout o /\ previous o1 = previous o /\
     maxRuns o1 = maxRuns o /\ stopAt o1 = stopAt o) /\
    (Cron.truthy_date (startAt o) = false /\ startAt o1 = startAt o \/
     exists a v, startAt o = Some a /\ Cron.truthy_date (startAt o) = true /\
       given_instant Date_parse a = Some v /\ Z.abs (v - 1) <= 8640000000000000 /\
       startAt o1 = Some (ADate (JsDate.mk (Some (v - 1)))))).
  { destruct (Cron.truthy_date (startAt o)) eqn:Ht.
    - destruct (startAt o) as [a|] eqn:Ha; [|discriminate].
      set (d := match a with
                | ADate d => JsDate.of_number ((fun v => v - 1) <$> JsDate.getTime d)
                | AString s => JsDate.of_number ((fun v => v - 1) <$> Date_parse s)
                end) in *.
      assert (Hd : d = JsDate.of_number ((fun v => v - 1) <$> given_instant Date_parse a))
        by (destruct a; reflexivity).
      destruct (JsDate.isNaN d) eqn:Hnan; [discriminate|].
      apply Ok_inj in H1. subst o1. cbn [paused kill rest currentTimeout previous maxRuns
        stopAt startAt]. split; [tauto|]. right.
      rewrite Hd in *. unfold JsDate.isNaN, JsDate.of_number in *. cbn [JsDate.getTime] in *.
      destruct (given_instant Date_parse a) as [v|] eqn:Hgiven; [|discriminate].
      cbn [fmap option_fmap option_map mbind option_bind] in *.
      destruct (JsDate.TimeClip (v - 1)) as [t|] eqn:Hclip; [|discriminate].
      apply TimeClip_value in Hclip as [-> Hrange].
      exists a, v. repeat split; try reflexivity; assumption.
    - apply Ok_inj in H1. subst o1. split; [tauto|]. left. tauto. }
  destruct Hstart as ((E1 & E2 & E3 & E4 & E5 & E6 & E7) & Hs).
  rewrite E7 in H2.
  destruct (Cron.truthy_date (stopAt o)) eqn:Ht.
  - destruct (stopAt o) as [a|] eqn:Ha; [|discriminate].
    set (d := match a with
              | ADate d => d
              | AString s => JsDate.of_number (Date_parse s)
              end) in *.
    destruct (JsDate.isNaN d) eqn:Hnan; [discriminate|].
    apply Ok_inj in H2. subst o'. cbn [paused kill rest currentTimeout previous maxRuns
      stopAt startAt]. split; [tauto|]. split; [exact Hs|]. right.
    unfold JsDate.isNaN in Hnan. destruct (JsDate.getTime d) as [v|] eqn:Hv; [|discriminate].
    exists a, v. split; [reflexivity|]. split; [reflexivity|].
    rewrite (valid_date_eta d v Hv). destruct a as [d0|str]; cbn [given_instant]; subst d.
    + split; [exact Hv|reflexivity].
    + unfold JsDate.of_number in Hv. cbn [JsDate.getTime] in Hv.
      destruct (Date_parse str) as [x|]; [|discriminate]. cbn [mbind option_bind] in Hv.
      apply TimeClip_value in Hv as [-> Hrange]. split; reflexivity.
  - apply Ok_inj in H2. subst o'. split; [tauto|]. split; [exact Hs|]. left.
    split; [reflexivity|exact E7].
Qed.

End Options.

Section Scheduling.

Variable Callback : Type.
Variable Date_parse : string -> option Z.
Variable now : Z.

Lemma schedule_eq fuel c o f :
  Cron.schedule Callback now Date_parse fuel c (Cron.Options o) (Some f) =
  match Cron.validateOpts Date_parse (schedule_defaults o) with
  | Raise e => Some (Raise e)
  | Ok ov =>
      match Cron.msToNext now fuel (Cron.mk (Cron.pattern c) ov) (previous ov) with
      | None => None
      | Some Cron.NoDelay => Some (Ok (Cron.mk (Cron.pattern c) ov, None))
      | Some w =>
          Some (Ok (Cron.mk (Cron.pattern c) (with_timer ov (clamped w)),
                    Some (Cron.mkJob (Cron.mk (Cron.pattern c) (with_timer ov (clamped w)))
                            (with_timer ov (clamped w)) (Some f))))
      end
  end.
Proof.
  unfold Cron.schedule, schedule_defaults. cbv zeta.
  destruct (Cron.validateOpts Date_parse _) as [ov|e]; [|reflexivity].
  destruct (Cron.msToNext now fuel _ (previous ov)) as [[w| |]|]; reflexivity.
Qed.

Lemma msToNext_inv fuel c prev w :
  Cron.msToNext now fuel c prev = Some w ->
  match w with
  | Cron.NoDelay => Cron._next now fuel c (Some (default now prev)) = Some Undefined
  | Cron.Ms n =>
      exists d t, Cron._next now fuel c (Some (default now prev)) = Some (NextRun d) /\
                  JsDate.getTime d = Some t /\ n = t - default now prev
  | Cron.MsNaN =>
      exists d, Cron._next now fuel c (Some (default now prev)) = Some (NextRun d) /\
                JsDate.getTime d = None
  end.
Proof.
  unfold Cron.msToNext. cbv zeta.
  destruct (Cron._next now fuel c (Some (default now prev))) as [[d|]|] eqn:E;
    cbn [mbind option_bind]; [|intros [= <-]; reflexivity|discriminate].
  destruct (JsDate.getTime d) as [t|] eqn:Ht; intros [= <-]; eauto.
Qed.

End Scheduling.

Section ScheduleFacts.

Variable Callback : Type.
Variable Date_parse : string -> option Z.
Variable now : Z.


(** X17. A killed scheduler, or one whose [maxRuns] is zero or less, is
    never armed: [schedule] validates the options, returns no job, and
    does not advance (any fuel will do). *)
Theorem schedule_arms_nothing_when_stopped fuel c o f :
  kill o = Some true \/ (exists n, maxRuns o = Some (Finite n) /\ n <= 0) ->
  Cron.schedule Callback now Date_parse fuel c (Cron.Options o) (Some f) =
  match Cron.validateOpts Date_parse (schedule_defaults o) with
  | Raise e => Some (Raise e)
  | Ok ov => Some (Ok (Cron.mk (Cron.pattern c) ov, None))
  end.
Proof.
  intros Hstop. rewrite schedule_eq.
  destruct (Cron.validateOpts Date_parse (schedule_defaults o)) as [ov|e] eqn:Hv; [|reflexivity].
  apply validateOpts_inv in Hv as ((_ & Hkill & _ & _ & _ & Hmax) & _).
  cbn [schedule_defaults kill maxRuns] in Hkill, Hmax.
  assert (Hnext : forall prev, Cron._next now fuel (Cron.mk (Cron.pattern c) ov) prev
                               = Some Undefined).
  { intros prev. unfold Cron._next. cbv zeta. cbn [Cron.opts].
    replace (_ || _) with true; [reflexivity|]. symmetry. apply orb_true_iff.
    destruct Hstop as [Hk|(n & Hn & Hle)].
    - right. rewrite Hkill, Hk. reflexivity.
    - left. rewrite Hmax, Hn. now apply Z.leb_le. }
  unfold Cron.msToNext. cbv zeta. rewrite Hnext. reflexivity.
Qed.

(** X18. On a host whose time zone is UTC, for an instance on which no
    [maxDelay] property has been set (the constructor sets none, and
    [schedule] then uses the constant), and on a compiled pattern in
    which neither the property [-1] of [days] nor the property [NaN] of
    [daysOfWeek] has been written: the timer that [schedule] arms has a
    delay that is a number, of at least one millisecond and of at most
    [maxDelay]. *)
Theorem schedule_delay_is_bounded fuel s c o f c' job :
  CronPattern.new s = Ok (Cron.pattern c) ->
  JsArray.truthy (JsArray.get (CronPattern.days (Cron.pattern c)) (Some (-1))) = false ->
  JsArray.truthy (JsArray.get (CronPattern.daysOfWeek (Cron.pattern c)) None) = false ->
  Cron.schedule Callback now Date_parse fuel c (Cron.Options o) (Some f)
    = Some (Ok (c', Some job)) ->
  exists w, currentTimeout (Cron.opts c') = Some (mkTimer (Some w)) /\ 1 <= w <= maxDelay.
Proof.
  intros Hnew Hdays Hnan. rewrite schedule_eq.
  destruct (Cron.validateOpts Date_parse (schedule_defaults o)) as [ov|e]; [|discriminate].
  destruct (Cron.msToNext now fuel _ (previous ov)) as [[n| |]|] eqn:Hms; try discriminate.
  - intros [= <- _]. cbn [Cron.opts with_timer currentTimeout clamped].
    eexists. split; [reflexivity|].
    apply msToNext_inv in Hms as (d & t & Hnext & Ht & ->).
    apply _next_inv in Hnext as (_ & _ & from & self' & Hfrom & Hinc & -> & _).
    cbn [default from_option id] in Hfrom. cbn [Cron.pattern] in Hinc.
    rewrite getDate_time_value in Ht. cbn [JsDate.getTime] in Ht.
    apply TimeClip_value in Ht as [-> _].
    destruct (increment_forward _ from fuel self' (new_compiled s _ Hnew) Hdays Hinc) as [Hlt _].
    destruct (Z.gtb_spec (time_value self' - default now (previous ov)) maxDelay);
      [unfold maxDelay; simpl|]; lia.
  - intros _. exfalso.
    apply msToNext_inv in Hms as (d & Hnext & Ht).
    apply _next_inv in Hnext as (_ & _ & from & self' & _ & Hinc & -> & _).
    cbn [Cron.pattern] in Hinc.
    destruct (increment_valid_date _ _ _ _ Hnan Hinc) as [t Hv]. congruence.
Qed.

End ScheduleFacts.

(** ** The job in flight *)

Section Jobs.

Variable Callback : Type.
Variable Date_parse : string -> option Z.

(** What a call of the timer callback leaves behind when [schedule]
    returns in it. *)
Lemma fire_inv fuel now now' (st st' : Job.t Callback) :
  Job.fire Callback Date_parse fuel now now' st = Some (Ok st') ->
  let o := Cron.opts (Job.self st) in
  let o2 := mkOptions (paused o) (kill o) (rest o) (currentTimeout o)
              (if Job.blank o then previous o else Some now) (startAt o) (stopAt o)
              (if Job.runs o then Job.decrement (maxRuns o) else maxRuns o) in
  exists ov,
    Cron.validateOpts Date_parse (schedule_defaults o2) = Ok ov /\
    Job.invoked st' = (Job.invoked st + if Job.runs o then 1 else 0)%nat /\
    Job.func st' = Job.func st /\
    Cron.pattern (Job.self st') = Cron.pattern (Job.self st) /\
    (Job.pending st' = false /\ Cron.opts (Job.self st') = ov /\
     Cron._next now' fuel (Cron.mk (Cron.pattern (Job.self st)) ov)
       (Some (default now' (previous ov))) = Some Undefined
     \/
     Job.pending st' = true /\
     (exists w, Cron.opts (Job.self st') = with_timer ov w) /\
     exists d, Cron._next now' fuel (Cron.mk (Cron.pattern (Job.self st)) ov)
                 (Some (default now' (previous ov))) = Some (NextRun d)).
Proof.
  unfold Job.fire. cbv zeta.
  set (o := Cron.opts (Job.self st)).
  set (o2 := if Job.blank o then _ else _).
  assert (Ho2 : o2 = mkOptions (paused o) (kill o) (rest o) (currentTimeout o)
              (if Job.blank o then previous o else Some now) (startAt o) (stopAt o)
              (if Job.runs o then Job.decrement (maxRuns o) else maxRuns o)).
  { unfold o2. destruct o. destruct (Job.blank _), (Job.runs _); reflexivity. }
  rewrite Ho2. clear Ho2 o2. set (o2 := mkOptions _ _ _ _ _ _ _ _).
  rewrite schedule_eq. cbn [Cron.pattern].
  destruct (Cron.validateOpts Date_parse (schedule_defaults o2)) as [ov|e]; [|discriminate].
  destruct (Cron.msToNext now' fuel _ (previous ov)) as [w|] eqn:Hms; [|discriminate].
  pose proof (msToNext_inv now' fuel _ _ _ Hms) as Hinv.
  intros H. exists ov. split; [reflexivity|].
  destruct w as [n| |]; cbn [mbind option_bind] in H; apply Some_inj in H; apply Ok_inj in H;
    subst st'; cbn [Job.invoked Job.func Job.self Job.pending Cron.pattern Cron.opts];
    (split; [reflexivity|]); (split; [reflexivity|]); (split; [reflexivity|]).
  - right. split; [reflexivity|]. split; [eauto|].
    destruct Hinv as (d & t & Hd & _). eauto.
  - right. split; [reflexivity|]. split; [eauto|].
    destruct Hinv as (d & Hd & _). eauto.
  - left. split; [reflexivity|]. split; [reflexivity|exact Hinv].
Qed.

Lemma started_budget now fuel c o f n c' job :
  Cron.schedule Callback now Date_parse fuel c (Cron.Options o) (Some f)
    = Some (Ok (c', Some job)) ->
  maxRuns o = Some (Finite n) ->
  budget n (Job.started Callback c' f).
Proof.
  rewrite schedule_eq. intros H Hn.
  destruct (Cron.validateOpts Date_parse (schedule_defaults o)) as [ov|e] eqn:Hv;
    [|discriminate].
  apply validateOpts_inv in Hv as ((_ & _ & _ & _ & _ & Hmax) & _).
  cbn [schedule_defaults maxRuns] in Hmax. rewrite Hn in Hmax.
  destruct (Cron.msToNext now fuel _ (previous ov)) as [w|] eqn:Hms; [|discriminate].
  apply msToNext_inv in Hms.
  assert (Hpos : 0 < n).
  { destruct w as [x| |]; [destruct Hms as (d & t & Hd & _)|destruct Hms as (d & Hd & _)|
                           discriminate];
      apply _next_inv in Hd as (Hd & _); cbn [Cron.opts] in Hd; now rewrite Hmax in Hd. }
  exists n. unfold Job.started. cbn [Job.self Job.invoked Job.pending].
  assert (Hc : maxRuns (Cron.opts c') = Some (Finite n)).
  { destruct w as [x| |]; [| |discriminate]; apply Some_inj in H; apply Ok_inj in H;
      injection H as <- _; exact Hmax. }
  split; [exact Hc|]. split; [lia|]. split; lia.
Qed.

Lemma step_budget fuel n ev (st st' : Job.t Callback) :
  budget n st ->
  Job.step Callback Date_parse fuel ev st = Some (Ok st') ->
  budget n st'.
Proof.
  intros (m & Hm & Hsum & Hm0 & Hpend). destruct ev as [now now'| | |]; cbn [Job.step].
  - destruct (Job.pending st) eqn:Hp.
    + intros H. apply fire_inv in H. cbv zeta in H.
      destruct H as (ov & Hv & Hinv & _ & _ & Hcase).
      apply validateOpts_inv in Hv as ((_ & _ & _ & _ & _ & Hmax) & _).
      cbn [schedule_defaults maxRuns] in Hmax. rewrite Hm in Hmax.
      specialize (Hpend eq_refl).
      destruct (Job.runs (Cron.opts (Job.self st))); cbn [Job.decrement] in Hmax.
      * exists (m - 1). destruct Hcase as [(Hp' & Ho & _)|(Hp' & (w & Ho) & d & Hd)].
        -- rewrite Ho, Hp'. split; [exact Hmax|]. split; [lia|]. split; [lia|congruence].
        -- rewrite Ho, Hp'. split; [exact Hmax|]. split; [lia|].
           apply _next_inv in Hd as (Hd & _). cbn [Cron.opts] in Hd. rewrite Hmax in Hd.
           split; lia.
      * exists m. destruct Hcase as [(Hp' & Ho & _)|(Hp' & (w & Ho) & d & Hd)].
        -- rewrite Ho, Hp'. split; [exact Hmax|]. split; [lia|]. split; [lia|congruence].
        -- rewrite Ho, Hp'. split; [exact Hmax|]. split; [lia|]. split; lia.
    + intros H. apply Some_inj in H. apply Ok_inj in H. subst st'. exists m.
      split; [exact Hm|]. split; [exact Hsum|]. split; [exact Hm0|]. intros; congruence.
  - intros H. apply Some_inj in H. apply Ok_inj in H. subst st'. exists m.
    unfold Job.stop. cbn [Job.self Job.invoked Job.pending Cron.opts maxRuns].
    split; [exact Hm|]. split; [exact Hsum|]. split; [exact Hm0|].
    destruct (currentTimeout _); [discriminate|exact Hpend].
  - intros H. apply Some_inj in H. apply Ok_inj in H. subst st'. exists m.
    cbn. tauto.
  - intros H. apply Some_inj in H. apply Ok_inj in H. subst st'. exists m.
    cbn. tauto.
Qed.

Lemma run_budget fuel n events : forall (st st' : Job.t Callback),
  budget n st ->
  Job.run Callback Date_parse fuel events st = Some (Ok st') ->
  budget n st'.
Proof.
  induction events as [|ev events IH]; intros st st' Hb; cbn [Job.run].
  - intros H. apply Some_inj in H. apply Ok_inj in H. now subst st'.
  - destruct (Job.step Callback Date_parse fuel ev st) as [[st1|e]|] eqn:Hstep;
      cbn [mbind option_bind]; try discriminate.
    apply IH. now apply (step_budget fuel n ev st).
Qed.

(** X19. A job scheduled with [maxRuns] n calls its function at most n
    times, whatever its timers and its control functions do; and while a
    timer is pending fewer than n calls have been made, so that the call
    it may lead to is within n too. *)
Theorem invocations_never_exceed_maxRuns now fuel0 fuel c o f n c' job events st' :
  Cron.schedule Callback now Date_parse fuel0 c (Cron.Options o) (Some f)
    = Some (Ok (c', Some job)) ->
  maxRuns o = Some (Finite n) ->
  Job.run Callback Date_parse fuel events (Job.started Callback c' f) = Some (Ok st') ->
  Z.of_nat (Job.invoked st') <= n /\
  (Job.pending st' = true -> Z.of_nat (Job.invoked st') < n).
Proof.
  intros Hs Hn Hrun.
  destruct (run_budget fuel n events _ st' (started_budget _ _ _ _ _ _ _ _ Hs Hn) Hrun)
    as (m & _ & Hsum & Hm0 & Hpend).
  split; [lia|]. intros Hp. specialize (Hpend Hp). lia.
Qed.

(** X20. When the timer of a paused job fires, or a timer that was armed
    with [maxDelay], the function is not called and no run is used up;
    the paused job still records the instant as its previous run. *)
Theorem idle_fire_runs_nothing fuel now now' (st st' : Job.t Callback) :
  Job.fire Callback Date_parse fuel now now' st = Some (Ok st') ->
  Job.runs (Cron.opts (Job.self st)) = false ->
  Job.invoked st' = Job.invoked st /\
  maxRuns (Cron.opts (Job.self st')) = maxRuns (schedule_defaults (Cron.opts (Job.self st))) /\
  previous (Cron.opts (Job.self st')) =
    if Job.blank (Cron.opts (Job.self st)) then previous (Cron.opts (Job.self st))
    else Some now.
Proof.
  intros H Hruns. apply fire_inv in H. cbv zeta in H. rewrite Hruns in H.
  destruct H as (ov & Hv & Hinv & _ & _ & Hcase).
  apply validateOpts_inv in Hv as ((_ & _ & _ & _ & Hprev & Hmax) & _).
  cbn [schedule_defaults maxRuns previous] in Hprev, Hmax.
  split; [lia|].
  destruct Hcase as [(_ & -> & _)|(_ & (w & ->) & _)]; cbn [with_timer maxRuns previous];
    rewrite Hprev, Hmax; split; reflexivity.
Qed.

(** X21. Every call of the timer callback validates the options again,
    so a job with a [startAt] has it moved one millisecond earlier each
    time its timer fires. *)
Theorem startAt_drifts_with_every_fire fuel now now' (st st' : Job.t Callback) s :
  Job.fire Callback Date_parse fuel now now' st = Some (Ok st') ->
  startAt (Cron.opts (Job.self st)) = Some (ADate (JsDate.mk (Some s))) ->
  startAt (Cron.opts (Job.self st')) = Some (ADate (JsDate.mk (Some (s - 1)))).
Proof.
  intros H Hs. apply fire_inv in H. cbv zeta in H.
  destruct H as (ov & Hv & _ & _ & _ & Hcase).
  apply validateOpts_inv in Hv as (_ & Hstart & _).
  cbn [schedule_defaults startAt] in Hstart. rewrite Hs in Hstart.
  assert (Hov : startAt ov = Some (ADate (JsDate.mk (Some (s - 1))))).
  { destruct Hstart as [[Hf _]|(a & v & Ha & _ & Hg & _ & Hov)]; [discriminate|].
    injection Ha as <-. cbn in Hg. injection Hg as <-. exact Hov. }
  destruct Hcase as [(_ & -> & _)|(_ & (w & ->) & _)]; exact Hov.
Qed.

Lemma run_after_stop fuel events : forall (st : Job.t Callback),
  kill (Cron.opts (Job.self st)) = Some true -> Job.pending st = false ->
  exists st', Job.run Callback Date_parse fuel events st = Some (Ok st') /\
    Job.invoked st' = Job.invoked st /\ Job.pending st' = false /\
    kill (Cron.opts (Job.self st')) = Some true.
Proof.
  induction events as [|ev events IH]; intros st Hk Hp; cbn [Job.run].
  - exists st. tauto.
  - assert (Hstep : exists st1, Job.step Callback Date_parse fuel ev st = Some (Ok st1) /\
      Job.invoked st1 = Job.invoked st /\ Job.pending st1 = false /\
      kill (Cron.opts (Job.self st1)) = Some true).
    { destruct ev as [now now'| | |]; cbn [Job.step].
      - rewrite Hp. exists st. tauto.
      - eexists. split; [reflexivity|]. unfold Job.stop.
        cbn [Job.self Job.invoked Job.pending Cron.opts kill]. rewrite Hp.
        destruct (currentTimeout _); tauto.
      - eexists. split; [reflexivity|]. cbn. tauto.
      - eexists. split; [reflexivity|]. cbn. tauto. }
    destruct Hstep as (st1 & -> & Hi & Hp1 & Hk1). cbn [mbind option_bind].
    destruct (IH st1 Hk1 Hp1) as (st' & Hrun & Hi' & Hp' & Hk').
    exists st'. split; [exact Hrun|]. split; [lia|]. tauto.
Qed.

(** X22. [stop] is final: after it, whatever is called and whenever, the
    function is not called again, no timer is pending, and [pause] and
    [resume] return false. *)
Theorem stop_is_final fuel events (st : Job.t Callback) :
  currentTimeout (Cron.opts (Job.self st)) <> None ->
  exists st', Job.run Callback Date_parse fuel events (Job.stop Callback st) = Some (Ok st') /\
    Job.invoked st' = Job.invoked st /\ Job.pending st' = false /\
    snd (Job.pause Callback st') = false /\ snd (Job.resume Callback st') = false.
Proof.
  intros Htimer.
  destruct (run_after_stop fuel events (Job.stop Callback st)) as (st' & Hrun & Hi & Hp & Hk).
  - reflexivity.
  - unfold Job.stop. cbn [Job.pending]. destruct (currentTimeout _); [reflexivity|congruence].
  - exists st'. split; [exact Hrun|]. split; [exact Hi|]. split; [exact Hp|].
    unfold Job.pause, Job.resume. cbn [snd]. rewrite Hk. split; reflexivity.
Qed.

End Jobs.

(** A scheduler of every second, scheduled at 2022-01-01T00:00:00.000 on
    a host whose [Date.parse] reads every string as that instant. *)
Local Abbreviation every_second := (pattern_of "* * * * * *").
Local Abbreviation new_year := 1640995200000.
Local Abbreviation parse_new_year := (fun _ : string => Some new_year).
Local Abbreviation two_runs :=
  (mkOptions None None None None None None None (Some (Finite 2))).
Local Abbreviation armed o := (with_timer (schedule_defaults o) (Some 1000)).


Lemma schedule_arms_nothing_when_stopped_witness :
  (kill (mkOptions None (Some true) None None None None None None) = Some true \/
   (exists n, maxRuns (mkOptions None (Some true) None None None None None None)
              = Some (Finite n) /\ n <= 0)) /\
  Cron.schedule unit new_year parse_new_year 0 (Cron.mk every_second no_options)
    (Cron.Options (mkOptions None (Some true) None None None None None None)) (Some tt) =
  match Cron.validateOpts parse_new_year
          (schedule_defaults (mkOptions None (Some true) None None None None None None)) with
  | Raise e => Some (Raise e)
  | Ok ov => Some (Ok (Cron.mk (Cron.pattern (Cron.mk every_second no_options)) ov, None))
  end.
Proof.
  assert (H : kill (mkOptions None (Some true) None None None None None None) = Some true \/
   (exists n, maxRuns (mkOptions None (Some true) None None None None None None)
              = Some (Finite n) /\ n <= 0)) by (left; reflexivity).
  split; [exact H|].
  exact (schedule_arms_nothing_when_stopped unit parse_new_year new_year 0
           (Cron.mk every_second no_options) _ tt H).
Defined.

Lemma schedule_delay_is_bounded_witness :
  CronPattern.new "* * * * * *" = Ok (Cron.pattern (Cron.mk every_second no_options)) /\
  JsArray.truthy
    (JsArray.get (CronPattern.days (Cron.pattern (Cron.mk every_second no_options)))
       (Some (-1))) = false /\
  JsArray.truthy
    (JsArray.get (CronPattern.daysOfWeek (Cron.pattern (Cron.mk every_second no_options)))
       None) = false /\
  Cron.schedule unit new_year parse_new_year 36 (Cron.mk every_second no_options)
    (Cron.Options no_options) (Some tt)
    = Some (Ok (Cron.mk every_second (armed no_options),
                Some (Cron.mkJob (Cron.mk every_second (armed no_options))
                        (armed no_options) (Some tt)))) /\
  exists w, currentTimeout (Cron.opts (Cron.mk every_second (armed no_options)))
            = Some (mkTimer (Some w)) /\ 1 <= w <= maxDelay.
Proof.
  assert (H1 : CronPattern.new "* * * * * *"
               = Ok (Cron.pattern (Cron.mk every_second no_options)))
    by (vm_compute; reflexivity).
  assert (H2 : JsArray.truthy
    (JsArray.get (CronPattern.days (Cron.pattern (Cron.mk every_second no_options)))
       (Some (-1))) = false) by (vm_compute; reflexivity).
  assert (H2' : JsArray.truthy
    (JsArray.get (CronPattern.daysOfWeek (Cron.pattern (Cron.mk every_second no_options)))
       None) = false) by (vm_compute; reflexivity).
  assert (H3 : Cron.schedule unit new_year parse_new_year 36 (Cron.mk every_second no_options)
    (Cron.Options no_options) (Some tt)
    = Some (Ok (Cron.mk every_second (armed no_options),
                Some (Cron.mkJob (Cron.mk every_second (armed no_options))
                        (armed no_options) (Some tt))))) by (vm_compute; reflexivity).
  split; [exact H1|]. split; [exact H2|]. split; [exact H2'|]. split; [exact H3|].
  exact (schedule_delay_is_bounded unit parse_new_year new_year 36 "* * * * * *" _ _ _ _ _
           H1 H2 H2' H3).
Defined.

Lemma invocations_never_exceed_maxRuns_witness :
  Cron.schedule unit new_year parse_new_year 36 (Cron.mk every_second no_options)
    (Cron.Options two_runs) (Some tt)
    = Some (Ok (Cron.mk every_second (armed two_runs),
                Some (Cron.mkJob (Cron.mk every_second (armed two_runs))
                        (armed two_runs) (Some tt)))) /\
  maxRuns two_runs = Some (Finite 2) /\
  match Job.run unit parse_new_year 36
          [Job.Fire 1640995201000 1640995201000; Job.Pause;
           Job.Fire 1640995202000 1640995202000; Job.Resume;
           Job.Fire 1640995203000 1640995203000; Job.Fire 1640995204000 1640995204000]
          (Job.started unit (Cron.mk every_second (armed two_runs)) tt) with
  | Some (Ok st') =>
      Job.invoked st' = 2%nat /\ Job.pending st' = false /\
      Z.of_nat (Job.invoked st') <= 2 /\
      (Job.pending st' = true -> Z.of_nat (Job.invoked st') < 2)
  | _ => False
  end.
Proof.
  assert (H1 : Cron.schedule unit new_year parse_new_year 36 (Cron.mk every_second no_options)
    (Cron.Options two_runs) (Some tt)
    = Some (Ok (Cron.mk every_second (armed two_runs),
                Some (Cron.mkJob (Cron.mk every_second (armed two_runs))
                        (armed two_runs) (Some tt))))) by (vm_compute; reflexivity).
  split; [exact H1|]. split; [reflexivity|].
  assert (Hp : match Job.run unit parse_new_year 36
          [Job.Fire 1640995201000 1640995201000; Job.Pause;
           Job.Fire 1640995202000 1640995202000; Job.Resume;
           Job.Fire 1640995203000 1640995203000; Job.Fire 1640995204000 1640995204000]
          (Job.started unit (Cron.mk every_second (armed two_runs)) tt) with
               | Some (Ok st') => (Job.invoked st', Job.pending st')
               | _ => (0%nat, true)
               end = (2%nat, false)) by (vm_compute; reflexivity).
  revert Hp.
  destruct (Job.run unit parse_new_year 36 _ _) as [[st'|e]|] eqn:Hrun;
    intros Hp; [|discriminate Hp|discriminate Hp].
  injection Hp as Hi Hpend. split; [exact Hi|]. split; [exact Hpend|].
  exact (invocations_never_exceed_maxRuns unit parse_new_year new_year 36 36 _ _ tt 2 _ _ _
           st' H1 eq_refl Hrun).
Defined.

Lemma idle_fire_runs_nothing_witness :
  match Job.fire unit parse_new_year 36 1640995201000 1640995201000
          (fst (Job.pause unit (Job.started unit (Cron.mk every_second (armed two_runs)) tt)))
  with
  | Some (Ok st') =>
      Job.runs (Cron.opts (Job.self
        (fst (Job.pause unit (Job.started unit (Cron.mk every_second (armed two_runs)) tt)))))
        = false /\
      Job.invoked st' = 0%nat /\
      maxRuns (Cron.opts (Job.self st')) = Some (Finite 2) /\
      previous (Cron.opts (Job.self st')) = Some 1640995201000
  | _ => False
  end.
Proof.
  assert (Hp : match Job.fire unit parse_new_year 36 1640995201000 1640995201000
          (fst (Job.pause unit (Job.started unit (Cron.mk every_second (armed two_runs)) tt)))
               with Some (Ok _) => true | _ => false end = true) by (vm_compute; reflexivity).
  revert Hp.
  destruct (Job.fire unit parse_new_year 36 _ _ _) as [[st'|e]|] eqn:Hfire;
    intros Hp; [clear Hp|discriminate Hp|discriminate Hp]. split; [reflexivity|].
  exact (idle_fire_runs_nothing unit parse_new_year 36 _ _ _ st' Hfire eq_refl).
Defined.

Lemma startAt_drifts_with_every_fire_witness :
  match Job.fire unit parse_new_year 36 1640995201000 1640995201000
          (Job.started unit
             (Cron.mk every_second
                (armed (startAt_only (ADate (JsDate.mk (Some 1640995200999)))))) tt)
  with
  | Some (Ok st') =>
      startAt (Cron.opts (Job.self st')) = Some (ADate (JsDate.mk (Some (1640995200999 - 1))))
  | _ => False
  end.
Proof.
  assert (Hp : match Job.fire unit parse_new_year 36 1640995201000 1640995201000
          (Job.started unit
             (Cron.mk every_second
                (armed (startAt_only (ADate (JsDate.mk (Some 1640995200999)))))) tt)
               with Some (Ok _) => true | _ => false end = true) by (vm_compute; reflexivity).
  revert Hp.
  destruct (Job.fire unit parse_new_year 36 _ _ _) as [[st'|e]|] eqn:Hfire;
    intros Hp; [clear Hp|discriminate Hp|discriminate Hp].
  exact (startAt_drifts_with_every_fire unit parse_new_year 36 _ _ _ st' 1640995200999
           Hfire eq_refl).
Defined.

Lemma stop_is_final_witness :
  currentTimeout (Cron.opts (Job.self
    (Job.started unit (Cron.mk every_second (armed two_runs)) tt))) <> None /\
  exists st',
    Job.run unit parse_new_year 36
      [Job.Resume; Job.Fire 1640995201000 1640995201000; Job.Pause; Job.Stop]
      (Job.stop unit (Job.started unit (Cron.mk every_second (armed two_runs)) tt))
      = Some (Ok st') /\
    Job.invoked st'
      = Job.invoked (Job.started unit (Cron.mk every_second (armed two_runs)) tt) /\
    Job.pending st' = false /\
    snd (Job.pause unit st') = false /\ snd (Job.resume unit st') = false.
Proof.
  assert (H : currentTimeout (Cron.opts (Job.self
    (Job.started unit (Cron.mk every_second (armed two_runs)) tt))) <> None) by discriminate.
  split; [exact H|].
  exact (stop_is_final unit parse_new_year 36 _ _ H).
Defined.

(** * Patterns by day of the week, and the constructor *)

Section WeekdayPatterns.

Import JsString CronPattern.

(** A pattern that compiles has passed the check of lines 291-299. *)
Lemma new_combination s p :
  CronPattern.new s = Ok p ->
  part (parts_of s) 5 = "*"%string \/
  part (parts_of s) 3 = "*"%string /\ part (parts_of s) 4 = "*"%string.
Proof.
  unfold CronPattern.new, parse, raise. cbn [pattern]. cbv zeta.
  destruct (negb (Nat.eqb _ 6)); [discriminate|].
  intros H. apply bind_Ok in H as (_ & _ & H).
  destruct (String.eqb_spec (part (parts_of s) 5) "*") as [H5|H5]; [now left|].
  destruct (String.eqb_spec (part (parts_of s) 4) "*") as [H4|H4];
    destruct (String.eqb_spec (part (parts_of s) 3) "*") as [H3|H3];
    cbn [negb andb orb] in H; try discriminate.
  right. tauto.
Qed.

Lemma wildcard_field s p type v :
  CronPattern.new s = Ok p -> type <> Years ->
  part (parts_of s) (field_part type) = "*"%string ->
  in_domain type v ->
  CronPattern.accepts p type v = true.
Proof.
  intros Hnew Hty Hpart Hv. destruct (new_member s p type Hnew Hty) as (arr & Harr & Hlen & Hget).
  rewrite Hpart, partToArray_wildcard in Harr. apply Ok_inj in Harr. subst arr.
  rewrite accepts_eq, Hlen, Hget. unfold in_domain in Hv.
  rewrite fill_get by (rewrite field_length_filled; exact Hv).
  cbn [JsArray.truthy]. zbool.
Qed.

(** X23. A compiled pattern that restricts the day of the week accepts
    every day of the month and every month: this is what lets the weekday
    loop of [increment] add days without looking at [days] again. *)
Theorem weekday_pattern_accepts_every_date s p :
  CronPattern.new s = Ok p ->
  part (parts_of s) 5 <> "*"%string ->
  (forall d, 1 <= d <= 31 -> CronPattern.accepts p Days d = true) /\
  (forall m, 1 <= m <= 12 -> CronPattern.accepts p Months m = true).
Proof.
  intros Hnew H5. destruct (new_combination s p Hnew) as [H|[H3 H4]]; [congruence|].
  split.
  - intros d Hd. apply (wildcard_field s p Days d Hnew); [discriminate|exact H3|].
    unfold in_domain. cbn. lia.
  - intros m Hm. apply (wildcard_field s p Months m Hnew); [discriminate|exact H4|].
    unfold in_domain. cbn. lia.
Qed.

Lemma weekday_pattern_accepts_every_date_witness :
  CronPattern.new "0 30 9 * * 1-5" = Ok (pattern_of "0 30 9 * * 1-5") /\
  part (parts_of "0 30 9 * * 1-5") 5 <> "*"%string /\
  (forall d, 1 <= d <= 31 -> CronPattern.accepts (pattern_of "0 30 9 * * 1-5") Days d = true) /\
  (forall m, 1 <= m <= 12 -> CronPattern.accepts (pattern_of "0 30 9 * * 1-5") Months m = true).
Proof.
  assert (Hnew : CronPattern.new "0 30 9 * * 1-5" = Ok (pattern_of "0 30 9 * * 1-5"))
    by (vm_compute; reflexivity).
  assert (H5 : part (parts_of "0 30 9 * * 1-5") 5 <> "*"%string) by (vm_compute; discriminate).
  split; [exact Hnew|]. split; [exact H5|].
  exact (weekday_pattern_accepts_every_date _ _ Hnew H5).
Defined.

(** X24. In a compiled pattern the weekday 7 is Sunday: a pattern that
    accepts 7 accepts 0, the number that [getDay] gives for a Sunday. *)
Theorem seven_is_sunday s p :
  CronPattern.new s = Ok p ->
  CronPattern.accepts p DaysOfWeek 7 = true ->
  CronPattern.accepts p DaysOfWeek 0 = true.
Proof.
  intros Hnew H7. pose proof (new_compiled s p Hnew) as Hc.
  rewrite accepts_eq in *. cbn [valueIndexOffset member] in *.
  rewrite (daysOfWeek_length p Hc) in *.
  apply andb_prop in H7 as [_ H7]. change (7 + 0) with 7 in H7. change (0 + 0) with 0.
  rewrite (sunday_alias p Hc H7). reflexivity.
Qed.

Lemma seven_is_sunday_witness :
  CronPattern.new "0 0 12 * * 7" = Ok (pattern_of "0 0 12 * * 7") /\
  CronPattern.accepts (pattern_of "0 0 12 * * 7") DaysOfWeek 7 = true /\
  CronPattern.accepts (pattern_of "0 0 12 * * 7") DaysOfWeek 0 = true.
Proof.
  assert (Hnew : CronPattern.new "0 0 12 * * 7" = Ok (pattern_of "0 0 12 * * 7"))
    by (vm_compute; reflexivity).
  assert (H7 : CronPattern.accepts (pattern_of "0 0 12 * * 7") DaysOfWeek 7 = true)
    by (vm_compute; reflexivity).
  split; [exact Hnew|]. split; [exact H7|].
  exact (seven_is_sunday _ _ Hnew H7).
Defined.

End WeekdayPatterns.

Section Constructor.

Variable Callback : Type.
Variable now : Z.
Variable Date_parse : string -> option Z.

(** X25. The options are optional: with a function in their place, the
    call is the call with an empty options object and that function; a
    third argument is then not looked at. *)
Theorem function_in_place_of_options this fuel pattern f fn :
  Cron.call Callback now Date_parse this fuel pattern (Cron.Function f) fn =
  Cron.call Callback now Date_parse this fuel pattern (Cron.Options no_options) (Some f).
Proof.
  unfold Cron.call, Cron.new, Cron.body.
  destruct this; destruct (CronPattern.new pattern); reflexivity.
Qed.

(** X26. With a function to run and [undefined] for the options, the
    constructor does not return: [schedule] is handed [undefined] and
    writes a property of it, whatever the fuel. *)
Theorem undefined_options_with_function_raise fuel s p f :
  CronPattern.new s = Ok p ->
  Cron.new Callback now Date_parse fuel s Cron.NoOptions (Some f) = Some (Raise HostTypeError).
Proof.
  intros Hnew. unfold Cron.new, Cron.body. rewrite Hnew. reflexivity.
Qed.

(** X27. The pattern is compiled before anything is done with the
    options: the error of a pattern that does not compile is the error of
    the call, whatever the options and the function are. *)
Theorem pattern_error_comes_first this fuel s e options fn :
  CronPattern.new s = Raise e ->
  Cron.call Callback now Date_parse this fuel s options fn = Some (Raise e).
Proof.
  intros Hnew. unfold Cron.call, Cron.new, Cron.body. rewrite Hnew.
  destruct this; reflexivity.
Qed.

End Constructor.

Lemma undefined_options_with_function_raise_witness :
  CronPattern.new "* * * * * *" = Ok (pattern_of "* * * * * *") /\
  Cron.new unit 0 (fun _ => None) 0 "* * * * * *" Cron.NoOptions (Some tt)
    = Some (Raise HostTypeError).
Proof.
  assert (Hnew : CronPattern.new "* * * * * *" = Ok (pattern_of "* * * * * *"))
    by (vm_compute; reflexivity).
  split; [exact Hnew|].
  exact (undefined_options_with_function_raise unit 0 (fun _ => None) 0 _ _ tt Hnew).
Defined.

Lemma pattern_error_comes_first_witness :
  CronPattern.new "* * * *" = Raise InvalidFormat /\
  Cron.call unit 0 (fun _ => None) Cron.ThisUndefined 0 "* * * *"
    (Cron.Options (startAt_only (AString "never"))) (Some tt) = Some (Raise InvalidFormat).
Proof.
  assert (Hnew : CronPattern.new "* * * *" = Raise InvalidFormat) by (vm_compute; reflexivity).
  split; [exact Hnew|].
  exact (pattern_error_comes_first unit 0 (fun _ => None) Cron.ThisUndefined 0 _ _ _ _ Hnew).
Defined.
